(** * Mr-Dice: the materials-database tool adapters

    A shallow embedding of the three server adapters of the repository
    (OPTIMADE, MOFdb and the Bohrium public crystal database) and of their
    helper modules, with the properties of their request pipeline:
    query, output folder, saving, cleaning, manifest, result.

    Conventions of the embedding.
    - Python values are the inductive [value]; a dict is a [gmap string value];
      a string is a [string] of ASCII characters.
    - Every call that leaves the process (the OPTIMADE client, the MOFdb
      client, [requests]) is answered by the [world]; it returns a value or
      raises.  Library functions that are pure ([hashlib], [json], [str] of a
      float) are the fields of [PyLib].
    - A tool is a computation [io A]: the list of effects it performs, in
      order, and the value it returns or the exception it raises.
    - Writing a file and creating a directory always succeed; serialising to
      JSON always succeeds. *)

From Stdlib Require Import ZArith String Ascii List Floats DecimalString Lia.
From Stdlib Require OrderedTypeEx DecimalZ DecimalPos.
From stdpp Require Import gmap strings list fin_maps.
From stdpp Require sorting.

Open Scope Z_scope.
Open Scope string_scope.
Open Scope list_scope.

Set Warnings "-register-all,-clear-no-such-hyp".

(** ** Python values *)

Inductive value : Type :=
  | VNone
  | VBool (b : bool)
  | VInt (z : Z)
  | VFloat (f : float)
  | VStr (s : string)
  | VList (l : list value)
  | VDict (d : gmap string value).

(** [bool(v)]: the truth value Python gives to [v] in [if v] and [a or b]. *)
Definition truthy (v : value) : bool :=
  match v with
  | VNone => false
  | VBool b => b
  | VInt z => negb (Z.eqb z 0)
  | VFloat f => negb (PrimFloat.eqb f 0%float)
  | VStr s => negb (String.eqb s "")
  | VList l => match l with [] => false | _ => true end
  | VDict d => negb (Nat.eqb (size d) 0)
  end.

(** [a or b] on values. *)
Definition py_or (a b : value) : value := if truthy a then a else b.

(** [Optional[str]] and [Optional[float]] arguments as values. *)
Definition of_opt_str (o : option string) : value :=
  match o with Some s => VStr s | None => VNone end.
Definition of_opt_float (o : option float) : value :=
  match o with Some f => VFloat f | None => VNone end.
Definition of_str_list (l : list string) : value := VList (VStr <$> l).

(** ** Python strings *)

(** [str.isspace] on one ASCII character: TAB..CR, FS..US and the space. *)
Definition is_space (c : ascii) : bool :=
  let n := nat_of_ascii c in
  ((9 <=? n)%nat && (n <=? 13)%nat) || ((28 <=? n)%nat && (n <=? 32)%nat).

Fixpoint lstrip_by (p : ascii -> bool) (s : string) : string :=
  match s with
  | EmptyString => EmptyString
  | String c s' => if p c then lstrip_by p s' else s
  end.

Fixpoint rstrip_by (p : ascii -> bool) (s : string) : string :=
  match s with
  | EmptyString => EmptyString
  | String c s' =>
      match rstrip_by p s' with
      | EmptyString => if p c then EmptyString else String c EmptyString
      | r => String c r
      end
  end.

(** [s.strip()] and [s.strip(chars)] for a one-character [chars]. *)
Definition strip_by (p : ascii -> bool) (s : string) : string :=
  lstrip_by p (rstrip_by p s).
Definition strip (s : string) : string := strip_by is_space s.

(** [s.replace(c, r)] for a one-character pattern [c]. *)
Fixpoint replace_char (c : ascii) (r : string) (s : string) : string :=
  match s with
  | EmptyString => EmptyString
  | String a s' =>
      if Ascii.eqb a c then r +:+ replace_char c r s'
      else String a (replace_char c r s')
  end.

(** [s[:n]] for a non-negative [n]. *)
Fixpoint str_take (n : nat) (s : string) : string :=
  match n, s with
  | S n', String c s' => String c (str_take n' s')
  | _, _ => EmptyString
  end.

(** [sep.join(l)]. *)
Fixpoint join (sep : string) (l : list string) : string :=
  match l with
  | [] => ""
  | [x] => x
  | x :: l' => x +:+ sep +:+ join sep l'
  end.

(** [sorted(l)] on strings: insertion in the order of the character codes. *)
Fixpoint insert_sorted (x : string) (l : list string) : list string :=
  match l with
  | [] => [x]
  | y :: l' => if String.leb x y then x :: l else y :: insert_sorted x l'
  end.
Definition sorted (l : list string) : list string := foldr insert_sorted [] l.

(** [x in l] for a list of strings. *)
Definition str_in (x : string) (l : list string) : bool :=
  existsb (String.eqb x) l.

(** [s or d] on strings: the empty string is false. *)
Definition str_or (s d : string) : string := if String.eqb s "" then d else s.

(** [str(n)] of an integer. *)
Definition str_of_Z (z : Z) : string := NilZero.string_of_int (Z.to_int z).
Definition str_of_nat (n : nat) : string := str_of_Z (Z.of_nat n).

(** ** Paths *)

(** A [pathlib.Path] as the code builds it: [Path()], [Path(s)], [p / s]. *)
Inductive Path : Type :=
  | PathEmpty
  | PathOf (s : string)
  | PathDiv (p : Path) (s : string).

(** ** Library functions that are not part of the repository *)

Class PyLib := {
  (** [hashlib.sha1(s.encode("utf-8")).hexdigest()] *)
  sha1_hexdigest : string -> string;
  (** [json.dumps(v, sort_keys=True)], with or without [default=str] *)
  json_dumps_sort_keys : value -> string;
  (** [json.loads(s)]; [None] when it raises *)
  json_loads : string -> option value;
  (** [json.loads(json.dumps(v, default=str))] *)
  json_default_str : value -> value;
  (** [str(x)] of a float *)
  float_str : float -> string;
  (** [str(x)] of a list or a dict *)
  container_str : value -> string;
  (** [str(s)] of a set of strings, as an f-string prints it *)
  set_str : gset string -> string;
  (** [str(p)] of a path *)
  path_str : Path -> string;
}.

(** [str(v)], as an f-string [{v}] prints it. *)
Definition py_str `{PyLib} (v : value) : string :=
  match v with
  | VNone => "None"
  | VBool true => "True"
  | VBool false => "False"
  | VInt z => str_of_Z z
  | VFloat f => float_str f
  | VStr s => s
  | _ => container_str v
  end.

(** ** Exceptions *)

(** The two classes the handlers of the repository tell apart:
    [except Exception] catches the first only, [except (SystemExit,
    Exception)] both. *)
Inductive exn_class := ExceptionClass | SystemExitClass.

Record exn := mk_exn { exn_cls : exn_class; exn_text : string }.

Definition is_Exception (e : exn) : bool :=
  match exn_cls e with ExceptionClass => true | SystemExitClass => false end.

Inductive outcome (A : Type) : Type :=
  | Returned (a : A)
  | Raised (e : exn).
Arguments Returned {A} a.
Arguments Raised {A} e.

(** ** Files and effects *)

Inductive level := INFO | WARNING | ERROR.

(** What is written to a file: the JSON text of a value, a text, or the
    bytes of an HTTP response. *)
Inductive content : Type :=
  | JsonOf (v : value)
  | TextOf (s : string)
  | BytesOf (b : string).

(** The keyword arguments of [mofdb_client.fetch]. *)
Record fetch_kwargs := {
  kw_mofid : option string;
  kw_mofkey : option string;
  kw_vf_min : option float;
  kw_vf_max : option float;
  kw_lcd_min : option float;
  kw_lcd_max : option float;
  kw_pld_min : option float;
  kw_pld_max : option float;
  kw_sa_m2g_min : option float;
  kw_sa_m2g_max : option float;
  kw_sa_m2cm3_min : option float;
  kw_sa_m2cm3_max : option float;
  kw_name : option string;
  kw_database : option string;
  kw_limit : Z;
}.

Inductive event : Type :=
  | EvLog (lv : level) (msg : string)
  | EvPrint (msg : string)
  | EvMkdir (p : Path)
  | EvWrite (p : Path) (c : content)
  | EvOptimadeGet (base_urls : list string) (max_results : Z) (filter : string)
  | EvMofdbFetch (kw : fetch_kwargs)
  | EvHttpPost (url : string) (headers : list (string * string)) (payload : value)
  | EvHttpGet (url : string).

(** The answers of the outside world to one request. [requests] and the
    MOFdb client fail with ordinary exceptions (instances of [Exception]):
    their answer is a result or the message of the exception. The OPTIMADE
    client also leaves through [SystemExit], which the handlers of the
    OPTIMADE server name: its answer is any [outcome]. *)
Record world := {
  (** [OptimadeClient(base_urls, max_results_per_provider).get(filter)] *)
  optimade_get : list string -> Z -> string -> outcome value;
  (** [list(mofdb_client.fetch(...))] with the keyword arguments [kw]: the
      records, each as its attribute dict *)
  mofdb_answer : fetch_kwargs -> list (gmap string value) + string;
  (** [requests.post(url, headers, json).json()] *)
  post_answer : string -> list (string * string) -> value -> value + string;
  (** [requests.get(url)], [raise_for_status()], [.content] *)
  get_answer : string -> string + string;
  (** [datetime.now().strftime("%Y%m%d_%H%M%S")] *)
  now_stamp : string;
  (** [os.environ], after [load_dotenv()] *)
  environ : gmap string string;
}.

Definition answered {A} (r : A + string) : outcome A :=
  match r with
  | inl a => Returned a
  | inr msg => Raised (mk_exn ExceptionClass msg)
  end.

Definition mofdb_fetch (w : world) (kw : fetch_kwargs) : outcome (list (gmap string value)) :=
  answered (mofdb_answer w kw).
Definition requests_post (w : world) (url : string) (headers : list (string * string))
    (payload : value) : outcome value :=
  answered (post_answer w url headers payload).
Definition requests_get (w : world) (url : string) : outcome string :=
  answered (get_answer w url).

(** ** The effect monad *)

Definition io (A : Type) : Type := (list event * outcome A)%type.

Definition ret {A} (a : A) : io A := ([], Returned a).
Definition raise {A} (e : exn) : io A := ([], Raised e).
Definition emit (ev : event) : io unit := ([ev], Returned tt).

Definition bind {A B} (m : io A) (f : A -> io B) : io B :=
  match m with
  | (t, Returned a) => let '(t', r) := f a in (t ++ t', r)
  | (t, Raised e) => (t, Raised e)
  end.

(** [try: m except <classes accepted by catches> as e: h e]. *)
Definition try_except {A} (m : io A) (catches : exn -> bool) (h : exn -> io A) : io A :=
  match m with
  | (t, Returned a) => (t, Returned a)
  | (t, Raised e) =>
      if catches e then let '(t', r) := h e in (t ++ t', r) else (t, Raised e)
  end.

Definition lift {A} (o : outcome A) : io A := ([], o).

Definition trace {A} (m : io A) : list event := fst m.
Definition result {A} (m : io A) : outcome A := snd m.

Declare Scope io_scope.
Delimit Scope io_scope with io.
Notation "'let*' x ':=' m 'in' k" := (bind m (fun x => k))
  (at level 10, x name, m at level 100, k at level 200) : io_scope.
Notation "'let*' ' p ':=' m 'in' k" := (bind m (fun p => k))
  (at level 10, p pattern, m at level 100, k at level 200) : io_scope.
Notation "m ;; k" := (bind m (fun _ => k))
  (at level 100, right associativity) : io_scope.

Definition logging (lv : level) (msg : string) : io unit := emit (EvLog lv msg).

(** [v.get(k, d)]: only a dict has the method. *)
Definition dict_get (v : value) (k : string) (d : value) : io value :=
  match v with
  | VDict m => ret (default d (m !! k))
  | _ => raise (mk_exn ExceptionClass "AttributeError: object has no attribute 'get'")
  end.

(** [len(v)]. *)
Definition py_len (v : value) : io nat :=
  match v with
  | VList l => ret (length l)
  | VStr s => ret (String.length s)
  | VDict m => ret (size m)
  | _ => raise (mk_exn ExceptionClass "TypeError: object has no len()")
  end.

(** The elements [for x in v] goes through. *)
Definition py_iter (v : value) : list value :=
  match v with
  | VList l => l
  | VStr s => (fun c => VStr (String c EmptyString)) <$> list_ascii_of_string s
  | VDict m => (fun kv => VStr kv.1) <$> map_to_list m
  | _ => []
  end.

(** [d.pop(k, None)] for each [k] of [keys]. *)
Definition pop_all (keys : list string) (d : gmap string value) : gmap string value :=
  foldl (fun m k => delete k m) d keys.

(** [if o:] on an [Optional[str]] and on an optional list: the value when it
    is there and not empty. *)
Definition nonempty_str (o : option string) : option string :=
  match o with
  | Some s => if String.eqb s "" then None else Some s
  | None => None
  end.

Definition nonempty_list (o : option (list string)) : option (list string) :=
  match o with
  | Some (x :: l) => Some (x :: l)
  | _ => None
  end.

(** [parts.append(f x)] under [if o:]. *)
Definition part_if {A} (o : option A) (f : A -> string) : list string :=
  match o with Some x => [f x] | None => [] end.

(** * The Bohrium public crystal database adapter *)

Module Bohrium.

(** ** [Bohriumpublic_Server/utils.py] *)

Definition DB_CORE_HOST : string := "https://db-core.dp.tech".
Definition BOHRIUM_CORE_HOST : string := "https://bohrium-core.dp.tech".

Definition x_user_id : string := "117756".

(** The set literal [CRYSTAL_DROP_ATTRS], as the list of its elements. *)
Definition CRYSTAL_DROP_ATTRS : list string :=
  ["cif_file"; "come_from"; "material_id"].

Definition tag_from_filters
    (formula : option string) (elements : option (list string))
    (space_symbol : option string)
    (atom_count_range predicted_formation_energy_range band_gap_range :
       option (list string))
    (max_len : nat) : string :=
  let parts :=
    part_if (nonempty_str formula) (fun f => replace_char " " "" f)
    ++ part_if (nonempty_list elements) (fun l => "el" +:+ join "" (sorted l))
    ++ part_if (nonempty_str space_symbol) (fun s => "sg" +:+ s)
    ++ part_if (nonempty_list atom_count_range) (fun l => "nat" +:+ join "-" l)
    ++ part_if (nonempty_list predicted_formation_energy_range)
         (fun l => "E" +:+ join "-" l)
    ++ part_if (nonempty_list band_gap_range) (fun l => "Eg" +:+ join "-" l) in
  let tag := join "_" parts in
  str_or (str_take max_len tag) "bohriumcrystal".

Section Saving.
Context `{lib : PyLib} (w : world).

(** [name = f"bohriumcrystal_{struct_id}_{i}"] *)
Definition record_name (struct_id : value) (i : nat) : string :=
  "bohriumcrystal_" +:+ py_str struct_id +:+ "_" +:+ str_of_nat i.

(** [if "json" in output_formats: json.dump(struct, f)] *)
Definition save_json (output_dir : Path) (output_formats : list string)
    (name : string) (struct : value) : io unit :=
  if str_in "json" output_formats
  then emit (EvWrite (PathDiv output_dir (name +:+ ".json")) (JsonOf struct))
  else ret tt.

(** The [try] block of the CIF branch: download, write, log. *)
Definition download_cif (output_dir : Path) (struct_id : value) (name : string)
    (cif_url : value) : io unit :=
  try_except
    (emit (EvHttpGet (py_str cif_url)) ;;
     let* body := lift (requests_get w (py_str cif_url)) in
     emit (EvWrite (PathDiv output_dir (name +:+ ".cif")) (BytesOf body)) ;;
     logging INFO ("Saved CIF for " +:+ py_str struct_id +:+ " -> " +:+ name +:+ ".cif"))%io
    is_Exception
    (fun e => logging ERROR ("Failed to download CIF for " +:+ py_str struct_id
                             +:+ ": " +:+ exn_text e)).

(** [if "cif" in output_formats: ...] *)
Definition save_cif (output_dir : Path) (output_formats : list string)
    (struct_id : value) (name : string) (struct : value) : io unit :=
  if str_in "cif" output_formats
  then
    (let* cif_url := dict_get struct "cif_file" VNone in
     if negb (truthy cif_url)
     then logging WARNING ("No CIF URL for " +:+ py_str struct_id)
     else download_cif output_dir struct_id name cif_url)%io
  else ret tt.

(** [cleaned_struct = dict(struct)], then the keys popped. *)
Definition clean (struct : value) : io (gmap string value) :=
  match struct with
  | VDict d => ret (pop_all CRYSTAL_DROP_ATTRS d)
  | _ => raise (mk_exn ExceptionClass "TypeError: cannot convert to dict")
  end.

(** The body of the loop of [save_structures_bohriumcrystal] for the record
    [struct] at index [i]; it returns the cleaned copy. *)
Definition save_one (output_dir : Path) (output_formats : list string)
    (i : nat) (struct : value) : io (gmap string value) :=
  (let* struct_id := dict_get struct "id" (VStr ("idx" +:+ str_of_nat i)) in
   let name := record_name struct_id i in
   save_json output_dir output_formats name struct ;;
   save_cif output_dir output_formats struct_id name struct ;;
   clean struct)%io.

(** [for i, struct in enumerate(items): ...; cleaned.append(cleaned_struct)],
    from index [i] on, with the list [cleaned] built so far. *)
Fixpoint save_loop (output_dir : Path) (output_formats : list string)
    (i : nat) (items : list value) (cleaned : list (gmap string value))
    : io (list (gmap string value)) :=
  match items with
  | [] => ret cleaned
  | struct :: rest =>
      (let* c := save_one output_dir output_formats i struct in
       save_loop output_dir output_formats (S i) rest (cleaned ++ [c]))%io
  end.

Definition save_structures_bohriumcrystal (items : list value)
    (output_dir : Path) (output_formats : list string)
    : io (list (gmap string value)) :=
  save_loop output_dir output_formats 0%nat items [].

End Saving.

(** ** [bohriumpublic_test/test_server.py] *)

Record FetchResult := {
  output_dir : Path;
  cleaned_structures : list (gmap string value);
  n_found : Z;
}.

Definition BASE_OUTPUT_DIR : Path := PathOf "materials_data_bohrium".

Record args := {
  formula : option string;
  elements : option (list string);
  match_mode : Z;
  space_symbol : option string;
  atom_count_range : option (list string);
  predicted_formation_energy_range : option (list string);
  band_gap_range : option (list string);
  n_results : Z;
  output_formats : list string;
}.

(** [filters[k] = v] under [if o:]. *)
Definition set_if {A} (o : option A) (k : string) (f : A -> value)
    (m : gmap string value) : gmap string value :=
  match o with Some x => <[k := f x]> m | None => m end.

(** Step 1 of [fetch_bohrium_crystals]: the [filters] dict. *)
Definition build_filters (a : args) : gmap string value :=
  let filters := ∅ in
  let filters := set_if (nonempty_list (elements a)) "elements" of_str_list filters in
  let filters := set_if (nonempty_str (space_symbol a)) "space_symbol" VStr filters in
  let filters := set_if (nonempty_list (atom_count_range a)) "atomCountRange"
                   of_str_list filters in
  let filters := set_if (nonempty_list (predicted_formation_energy_range a))
                   "predicted_formation_energy_range" of_str_list filters in
  let filters := set_if (nonempty_list (band_gap_range a)) "band_gap_range"
                   of_str_list filters in
  filters.

Definition sort_filed_info : gmap string value :=
  <["sort_filed" := VStr "crystal_ext.predicted_formation_energy"]>
    (<["sort_type" := VInt 1]> ∅).

Definition headers : list (string * string) :=
  [("X-User-Id", x_user_id); ("Content-Type", "application/json")].

Definition formula_or_empty (a : args) : string :=
  match formula a with Some f => f | None => "" end.

Definition payload (a : args) : value :=
  VDict (<["material_type" := VStr "5"]>
        (<["keyword" := VStr (formula_or_empty a)]>
        (<["positive_pole_key" := VDict (build_filters a)]>
        (<["match_mode" :=
             VInt (match nonempty_str (formula a), nonempty_list (elements a) with
                   | None, None => 0
                   | _, _ => match_mode a
                   end)]>
        (<["sort_filed_info" := VDict sort_filed_info]>
        (<["size" := VInt (n_results a)]>
        (<["page" := VInt 1]> ∅))))))).

Definition empty_result : FetchResult :=
  {| output_dir := PathEmpty; n_found := 0; cleaned_structures := [] |}.

Section Tool.
Context `{lib : PyLib} (w : world).

(** Step 3: the string that is hashed, the tag, and the folder. *)
Definition filter_str (a : args) : string :=
  formula_or_empty a +:+ "|n_results=" +:+ str_of_Z (n_results a)
  +:+ "|filters=" +:+ json_dumps_sort_keys (VDict (build_filters a)).

Definition request_tag (a : args) : string :=
  tag_from_filters (formula a) (elements a) (space_symbol a)
    (atom_count_range a) (predicted_formation_energy_range a)
    (band_gap_range a) 60.

Definition folder_name (a : args) (ts : string) : string :=
  request_tag a +:+ "_" +:+ ts +:+ "_" +:+ str_take 8 (sha1_hexdigest (filter_str a)).

Definition manifest (a : args) (n : nat) (out : Path) : value :=
  VDict (<["formula" := of_opt_str (formula a)]>
        (<["filters" := VDict (build_filters a)]>
        (<["match_mode" := VInt (match_mode a)]>
        (<["n_found" := VInt (Z.of_nat n)]>
        (<["formats" := of_str_list (output_formats a)]>
        (<["output_dir" := VStr (path_str out)]> ∅)))))).

(** Steps 3 to 5, once the items are there. *)
Definition save_and_report (a : args) (items : value) (n : nat) : io FetchResult :=
  (let ts := now_stamp w in
   let out := PathDiv BASE_OUTPUT_DIR (folder_name a ts) in
   emit (EvMkdir out) ;;
   let* cleaned :=
     save_structures_bohriumcrystal w (py_iter items) out (output_formats a) in
   emit (EvWrite (PathDiv out "summary.json") (JsonOf (manifest a n out))) ;;
   ret {| output_dir := out; n_found := Z.of_nat n;
          cleaned_structures := cleaned |})%io.

Definition fetch_bohrium_crystals (a : args) : io FetchResult :=
  (let url := DB_CORE_HOST +:+ "/api/v1/crystal/list" in
   let* r :=
     try_except
       (emit (EvHttpPost url headers (payload a)) ;;
        let* data := lift (requests_post w url headers (payload a)) in
        ret (Some data))
       is_Exception
       (fun err => logging ERROR ("Request failed: " +:+ exn_text err) ;; ret None) in
   match r with
   | None => ret empty_result
   | Some data =>
       let* inner := dict_get data "data" (VDict ∅) in
       let* items := dict_get inner "data" (VList []) in
       let* n := py_len items in
       if Nat.eqb n 0
       then logging WARNING "No structures found." ;; ret empty_result
       else save_and_report a items n
   end)%io.

End Tool.

End Bohrium.

(** * The MOFdb adapter *)

(** ** [mofdb_test/utils.py]

    [Mofdb_Server/server.py] and [mofdb_test/test_server.py] both take their
    helpers from the [utils] module beside them; the one of the sources is
    embedded here and serves both. A MOF object is its attribute dict
    ([mof.__dict__]); [getattr(mof, k, None)] reads it. *)

Module MofdbUtils.

Definition MOFDB_DROP_ATTRS : list string :=
  ["cif"; "json_repr"; "isotherms"; "heats"; "isotherms_filtered"; "heats_filtered"].

Definition getattr (mof : gmap string value) (k : string) : value :=
  default VNone (mof !! k).

Section Helpers.
Context `{lib : PyLib}.

(** [f"{x or ''}"] for an optional float: nothing for [None] and for zero. *)
Definition float_or_empty (o : option float) : string :=
  match o with
  | Some f => if truthy (VFloat f) then float_str f else ""
  | None => ""
  end.

(** [parts.append(f"{label}{lo or ''}-{hi or ''}")] under
    [if lo is not None or hi is not None:]. *)
Definition range_part (label : string) (lo hi : option float) : list string :=
  match lo, hi with
  | None, None => []
  | _, _ => [label +:+ float_or_empty lo +:+ "-" +:+ float_or_empty hi]
  end.

Definition tag_from_filters
    (mofid mofkey name database : option string)
    (vf_min vf_max lcd_min lcd_max pld_min pld_max
     sa_m2g_min sa_m2g_max sa_m2cm3_min sa_m2cm3_max : option float)
    (max_len : nat) : string :=
  let parts :=
    part_if (nonempty_str mofid) (fun s => "id" +:+ str_take 8 s)
    ++ part_if (nonempty_str mofkey) (fun s => "key" +:+ str_take 8 s)
    ++ part_if (nonempty_str name) (fun s => replace_char " " "_" s)
    ++ part_if (nonempty_str database) (fun s => replace_char " " "" s)
    ++ range_part "vf" vf_min vf_max
    ++ range_part "lcd" lcd_min lcd_max
    ++ range_part "pld" pld_min pld_max
    ++ range_part "sa_g" sa_m2g_min sa_m2g_max
    ++ range_part "sa_cm3" sa_m2cm3_min sa_m2cm3_max in
  let tag := join "_" (List.filter (fun p => negb (String.eqb p "")) parts) in
  str_or (str_take max_len tag) "mofdb".

Definition backslash : ascii := ascii_of_nat 92.

(** The class [[A-Za-z0-9._-]]. *)
Definition is_safe_char (c : ascii) : bool :=
  let n := nat_of_ascii c in
  ((65 <=? n)%nat && (n <=? 90)%nat) || ((97 <=? n)%nat && (n <=? 122)%nat)
  || ((48 <=? n)%nat && (n <=? 57)%nat)
  || Ascii.eqb c "." || Ascii.eqb c "_" || Ascii.eqb c "-".

(** [re.sub(r"[^A-Za-z0-9._-]", "_", s)]. *)
Fixpoint sub_unsafe (s : string) : string :=
  match s with
  | EmptyString => EmptyString
  | String c s' => String (if is_safe_char c then c else "_"%char) (sub_unsafe s')
  end.

(** [re.sub(r"_+", "_", s)]. *)
Fixpoint collapse_underscores (s : string) : string :=
  match s with
  | EmptyString => EmptyString
  | String c s' =>
      match s' with
      | String c' _ =>
          if Ascii.eqb c "_" && Ascii.eqb c' "_" then collapse_underscores s'
          else String c (collapse_underscores s')
      | EmptyString => String c EmptyString
      end
  end.

Definition _safe_basename (text : value) (max_len : nat) : string :=
  let text := match text with VNone => "mof" | _ => py_str text end in
  let text := replace_char " " "_" (replace_char backslash "_" (replace_char "/" "_" text)) in
  let text := sub_unsafe text in
  let text := strip_by (Ascii.eqb "_") (collapse_underscores text) in
  str_or (str_take max_len text) "mof".

Definition _pick_identifier (mof : gmap string value) (idx : nat) : string :=
  let ident :=
    py_or (getattr mof "name")
      (py_or (getattr mof "mofkey")
         (py_or (getattr mof "mofid")
            (py_or (getattr mof "id") (VStr ("idx" +:+ str_of_nat idx))))) in
  _safe_basename ident 20.

Definition _provider (mof : gmap string value) : string :=
  let prov := py_or (getattr mof "database") (VStr "mofdb") in
  _safe_basename prov 80.

(** The file stem of the record at index [i]. *)
Definition stem_of (mof : gmap string value) (i : nat) : string :=
  _safe_basename
    (VStr (_provider mof +:+ "_" +:+ _pick_identifier mof i +:+ "_" +:+ str_of_nat i)) 80.

(** What the JSON branch writes for a record: [json_repr] when it is there
    (parsed, or wrapped when it does not parse), the attribute dict
    otherwise. *)
Definition json_data (mof : gmap string value) : value :=
  match getattr mof "json_repr" with
  | VNone => json_default_str (VDict mof)
  | VStr s =>
      match json_loads s with
      | Some v => v
      | None => VDict (<["raw" := VStr s]> ∅)
      end
  | data => data
  end.

(** [if "json" in output_formats: ...] *)
Definition save_json (output_dir : Path) (output_formats : list string)
    (stem : string) (mof : gmap string value) : io unit :=
  if str_in "json" output_formats
  then emit (EvWrite (PathDiv output_dir (stem +:+ ".json")) (JsonOf (json_data mof)))
  else ret tt.

(** [if "cif" in output_formats: ...]. Writing something that is not a
    string fails after the file was opened: the file is left empty and the
    failure is logged. *)
Definition save_cif (output_dir : Path) (output_formats : list string)
    (prov ident stem : string) (mof : gmap string value) : io unit :=
  if str_in "cif" output_formats
  then
    let cif_txt := getattr mof "cif" in
    if truthy cif_txt
    then
      match cif_txt with
      | VStr s => emit (EvWrite (PathDiv output_dir (stem +:+ ".cif")) (TextOf s))
      | _ =>
          (emit (EvWrite (PathDiv output_dir (stem +:+ ".cif")) (TextOf "")) ;;
           logging ERROR ("Failed to save CIF for " +:+ ident
                          +:+ ": write() argument must be str"))%io
      end
    else logging WARNING ("No CIF content for " +:+ ident +:+ " (" +:+ prov +:+ ")")
  else ret tt.

(** The body of the loop of [save_mofs] for the record [mof] at index [i]. *)
Definition save_one (output_dir : Path) (output_formats : list string)
    (i : nat) (mof : gmap string value) : io (gmap string value) :=
  (let prov := _provider mof in
   let ident := _pick_identifier mof i in
   let stem := stem_of mof i in
   save_json output_dir output_formats stem mof ;;
   save_cif output_dir output_formats prov ident stem mof ;;
   ret (pop_all MOFDB_DROP_ATTRS mof))%io.

Fixpoint save_loop (output_dir : Path) (output_formats : list string)
    (i : nat) (items : list (gmap string value)) (cleaned : list (gmap string value))
    : io (list (gmap string value)) :=
  match items with
  | [] => ret cleaned
  | mof :: rest =>
      (let* md := save_one output_dir output_formats i mof in
       save_loop output_dir output_formats (S i) rest (cleaned ++ [md]))%io
  end.

Definition save_mofs (items : list (gmap string value)) (output_dir : Path)
    (output_formats : list string) : io (list (gmap string value)) :=
  (emit (EvMkdir output_dir) ;;
   save_loop output_dir output_formats 0%nat items [])%io.

End Helpers.

End MofdbUtils.

(** ** The arguments and the result of [fetch_mofs] *)

Module MofdbCommon.

Record args := {
  mofid : option string;
  mofkey : option string;
  vf_min : option float;
  vf_max : option float;
  lcd_min : option float;
  lcd_max : option float;
  pld_min : option float;
  pld_max : option float;
  sa_m2g_min : option float;
  sa_m2g_max : option float;
  sa_m2cm3_min : option float;
  sa_m2cm3_max : option float;
  name : option string;
  database : option string;
  n_results : Z;
  output_formats : list string;
}.

Record FetchResult := {
  output_dir : Path;
  cleaned_structures : list (gmap string value);
  n_found : Z;
  code : Z;
  message : string;
}.

Definition BASE_OUTPUT_DIR : Path := PathOf "materials_data_mofdb".

(** The keyword arguments of the call [fetch(mofid=mofid, ..., limit=n_results)]. *)
Definition fetch_call (a : args) : fetch_kwargs :=
  {| kw_mofid := mofid a;
     kw_mofkey := mofkey a;
     kw_vf_min := vf_min a; kw_vf_max := vf_max a;
     kw_lcd_min := lcd_min a; kw_lcd_max := lcd_max a;
     kw_pld_min := pld_min a; kw_pld_max := pld_max a;
     kw_sa_m2g_min := sa_m2g_min a; kw_sa_m2g_max := sa_m2g_max a;
     kw_sa_m2cm3_min := sa_m2cm3_min a; kw_sa_m2cm3_max := sa_m2cm3_max a;
     kw_name := name a;
     kw_database := database a;
     kw_limit := n_results a |}.

(** The dict of the fifteen filter entries, written out twice in each
    [fetch_mofs]: for [filter_str] and under ["filters"] in the manifest. *)
Definition filters_dict (a : args) : gmap string value :=
  <["mofid" := of_opt_str (mofid a)]>
  (<["mofkey" := of_opt_str (mofkey a)]>
  (<["name" := of_opt_str (name a)]>
  (<["database" := of_opt_str (database a)]>
  (<["vf_min" := of_opt_float (vf_min a)]>
  (<["vf_max" := of_opt_float (vf_max a)]>
  (<["lcd_min" := of_opt_float (lcd_min a)]>
  (<["lcd_max" := of_opt_float (lcd_max a)]>
  (<["pld_min" := of_opt_float (pld_min a)]>
  (<["pld_max" := of_opt_float (pld_max a)]>
  (<["sa_m2g_min" := of_opt_float (sa_m2g_min a)]>
  (<["sa_m2g_max" := of_opt_float (sa_m2g_max a)]>
  (<["sa_m2cm3_min" := of_opt_float (sa_m2cm3_min a)]>
  (<["sa_m2cm3_max" := of_opt_float (sa_m2cm3_max a)]>
  (<["n_results" := VInt (n_results a)]> ∅)))))))))))))).

Section Folder.
Context `{lib : PyLib}.

Definition filter_str (a : args) : string :=
  json_dumps_sort_keys (VDict (filters_dict a)).

Definition request_tag (a : args) : string :=
  MofdbUtils.tag_from_filters (mofid a) (mofkey a) (name a) (database a)
    (vf_min a) (vf_max a) (lcd_min a) (lcd_max a) (pld_min a) (pld_max a)
    (sa_m2g_min a) (sa_m2g_max a) (sa_m2cm3_min a) (sa_m2cm3_max a) 40.

Definition folder_name (a : args) (ts : string) : string :=
  request_tag a +:+ "_" +:+ ts +:+ "_" +:+ str_take 8 (sha1_hexdigest (filter_str a)).

Definition manifest (a : args) (n : nat) (out : Path) : value :=
  VDict (<["filters" := VDict (filters_dict a)]>
        (<["n_found" := VInt (Z.of_nat n)]>
        (<["formats" := of_str_list (output_formats a)]>
        (<["output_dir" := VStr (path_str out)]> ∅)))).

End Folder.

End MofdbCommon.

(** ** [Mofdb_Server/server.py] *)

Module MofdbServer.
Import MofdbCommon.

Definition MAX_RETURNED_STRUCTS : nat := 30.

Section Tool.
Context `{lib : PyLib} (w : world).

Definition fetch_mofs (a : args) : io FetchResult :=
  ((* Step 1: query *)
   let* results :=
     try_except
       (emit (EvMofdbFetch (fetch_call a)) ;;
        lift (mofdb_fetch w (fetch_call a)))
       is_Exception
       (fun e => emit (EvPrint "Encounter some error or Find nothing!") ;; ret []) in
   (* Step 2: output folder *)
   let ts := now_stamp w in
   let out := PathDiv BASE_OUTPUT_DIR (folder_name a ts) in
   emit (EvMkdir out) ;;
   (* Step 3: save *)
   let* cleaned := MofdbUtils.save_mofs results out (output_formats a) in
   let cleaned := take MAX_RETURNED_STRUCTS cleaned in
   let n := length cleaned in
   (* Step 4: manifest *)
   emit (EvWrite (PathDiv out "summary.json") (JsonOf (manifest a n out))) ;;
   ret {| output_dir := out; n_found := Z.of_nat n; cleaned_structures := cleaned;
          code := 0; message := "Success" |})%io.

End Tool.

End MofdbServer.

(** ** [mofdb_test/test_server.py] *)

Module MofdbTest.
Import MofdbCommon.

Section Tool.
Context `{lib : PyLib} (w : world).

Definition fetch_mofs (a : args) : io FetchResult :=
  ((* Step 1: query, with no handler *)
   emit (EvMofdbFetch (fetch_call a)) ;;
   let* results := lift (mofdb_fetch w (fetch_call a)) in
   let n := length results in
   (* Step 2: output folder *)
   let ts := now_stamp w in
   let out := PathDiv BASE_OUTPUT_DIR (folder_name a ts) in
   emit (EvMkdir out) ;;
   (* Step 3: save *)
   let* cleaned := MofdbUtils.save_mofs results out (output_formats a) in
   (* Step 4: manifest *)
   emit (EvWrite (PathDiv out "summary.json") (JsonOf (manifest a n out))) ;;
   ret {| output_dir := out; n_found := Z.of_nat n; cleaned_structures := cleaned;
          code := 0; message := "Success" |})%io.

End Tool.

End MofdbTest.

(** * The OPTIMADE adapter *)

Module Optimade.

(** ** What [Optimade_Server/server.py] takes from its [utils] module

    The module is imported with [from utils import *] and is not part of the
    sources: its tables and functions are the fields of [Utils]. The
    provider maps are dicts from provider name to filter clause, kept as the
    list of their items in order. *)

Class Utils := {
  DEFAULT_PROVIDERS : gset string;
  DEFAULT_SPG_PROVIDERS : gset string;
  DEFAULT_BG_PROVIDERS : gset string;
  URLS_FROM_PROVIDERS : gmap string (list string);
  normalize_cfr_in_filter : string -> string;
  filter_to_tag : string -> string;
  get_spg_filter_map : Z -> gset string -> list (string * string);
  get_bandgap_filter_map :
    option float -> option float -> gset string -> list (string * string);
  build_provider_filters : string -> list (string * string) -> list (string * string);
  (** [save_structures(results, out_folder, n_results, as_cif)]: the files
      written, the warnings, the providers seen and the cleaned structures *)
  save_structures :
    value -> Path -> Z -> bool ->
    io (list string * list string * list string * list value);
}.

(** ** [Optimade_Server/server.py] *)

Definition BASE_OUTPUT_DIR : Path := PathOf "materials_data".

Definition MAX_RETURNED_STRUCTS : nat := 100.

Record FetchResult := {
  output_dir : Path;
  cleaned_structures : list value;
  n_found : Z;
}.

Definition empty_result : FetchResult :=
  {| output_dir := PathEmpty; cleaned_structures := []; n_found := 0 |}.

(** [{"structures": {}}] *)
Definition empty_stub : value := VDict (<["structures" := VDict ∅]> ∅).

(** [except (SystemExit, Exception)] *)
Definition is_SystemExit_or_Exception (e : exn) : bool :=
  match exn_cls e with SystemExitClass => true | ExceptionClass => true end.

(** [(s or "").strip()] *)
Definition or_empty_strip (o : option string) : string :=
  strip (match o with Some s => s | None => "" end).

(** [asyncio.gather( *tasks, return_exceptions=True)]: the results in the
    order of the tasks, an [Exception] raised by a task standing in the place
    of its result; a [SystemExit] is raised again by the event loop. The
    tasks interleave when they run; the trace lists their effects task by
    task. *)
Fixpoint gather {A} (tasks : list (io A)) : io (list (A + exn)) :=
  match tasks with
  | [] => ret []
  | m :: rest =>
      (let* r := try_except (let* a := m in ret (inl a)) is_Exception
                   (fun e => ret (inr e)) in
       let* rs := gather rest in
       ret (r :: rs))%io
  end.

Section Tools.
Context `{lib : PyLib} `{utils : Utils} (w : world).

(** [set(providers) if providers else dflt] *)
Definition used_set (providers : option (list string)) (dflt : gset string)
    : gset string :=
  match nonempty_list providers with
  | Some l => list_to_set l
  | None => dflt
  end.

Definition urls_of (provider : string) : list string :=
  default [] (URLS_FROM_PROVIDERS !! provider).

Definition folder_name (tag_src hash_src ts : string) : string :=
  filter_to_tag tag_src +:+ "_" +:+ ts +:+ "_" +:+ str_take 8 (sha1_hexdigest hash_src).

(** *** Tool 1: raw filter *)

Definition raw_manifest (filt : string) (used : gset string)
    (providers_seen files warns : list string) (as_format : string)
    (n_results : Z) (cleaned : list value) : value :=
  VDict (<["mode" := VStr "raw_filter"]>
        (<["filter" := VStr filt]>
        (<["providers_requested" := of_str_list (sorted (elements used))]>
        (<["providers_seen" := of_str_list providers_seen]>
        (<["files" := of_str_list files]>
        (<["warnings" := of_str_list warns]>
        (<["format" := VStr as_format]>
        (<["n_results" := VInt n_results]>
        (<["n_found" := VInt (Z.of_nat (length cleaned))]> ∅))))))))).

Definition fetch_structures_with_filter (filter : option string)
    (as_format : string) (n_results : Z) (providers : option (list string))
    : io FetchResult :=
  (let filt := or_empty_strip filter in
   if String.eqb filt ""
   then logging ERROR "[raw] empty filter string" ;; ret empty_result
   else
     let filt := normalize_cfr_in_filter filt in
     let used_providers := used_set providers DEFAULT_PROVIDERS in
     let used_urls := flat_map urls_of (elements used_providers) in
     logging INFO ("[raw] providers=" +:+ set_str used_providers +:+ " urls="
                   +:+ str_of_nat (length used_urls) +:+ " filter=" +:+ filt) ;;
     let* r :=
       try_except
         (emit (EvOptimadeGet used_urls n_results filt) ;;
          let* results := lift (optimade_get w used_urls n_results filt) in
          ret (Some results))
         is_SystemExit_or_Exception
         (fun e => logging ERROR ("[raw] fetch failed: " +:+ exn_text e) ;; ret None) in
     match r with
     | None => ret empty_result
     | Some results =>
         let ts := now_stamp w in
         let out_folder := PathDiv BASE_OUTPUT_DIR (folder_name filt filt ts) in
         let* '(files, warns, providers_seen, cleaned_structures) :=
           save_structures results out_folder n_results (String.eqb as_format "cif") in
         emit (EvWrite (PathDiv out_folder "summary.json")
                 (JsonOf (raw_manifest filt used_providers providers_seen files warns
                            as_format n_results cleaned_structures))) ;;
         let cleaned_structures := take MAX_RETURNED_STRUCTS cleaned_structures in
         ret {| output_dir := out_folder;
                cleaned_structures := cleaned_structures;
                n_found := Z.of_nat (length cleaned_structures) |}
     end)%io.

(** *** The fan-out shared by tools 2 and 3

    Both tools define the same [_query_one], the same normalisation loop and
    the same saving loop; they differ in the bracketed [tool] name of their
    log messages. *)

Definition _query_one (tool : string) (n_results : Z) (provider clause : string)
    : io value :=
  (logging INFO ("[" +:+ tool +:+ "] " +:+ provider +:+ ": " +:+ clause) ;;
   try_except
     (let provider_urls := urls_of provider in
      match provider_urls with
      | [] =>
          logging WARNING ("[" +:+ tool +:+ "] No URLs found for provider " +:+ provider) ;;
          ret empty_stub
      | _ =>
          emit (EvOptimadeGet provider_urls n_results clause) ;;
          lift (optimade_get w provider_urls n_results clause)
      end)
     is_SystemExit_or_Exception
     (fun e =>
        logging ERROR ("[" +:+ tool +:+ "] fetch failed for " +:+ provider +:+ ": "
                       +:+ exn_text e) ;;
        ret empty_stub))%io.

(** [for r in results_list: ... norm_results.append(...)] *)
Fixpoint normalise (tool : string) (results_list : list (value + exn))
    (norm_results : list value) : io (list value) :=
  match results_list with
  | [] => ret norm_results
  | inr e :: rest =>
      (logging ERROR ("[" +:+ tool +:+ "] task returned exception: " +:+ exn_text e) ;;
       normalise tool rest (norm_results ++ [empty_stub]))%io
  | inl r :: rest => normalise tool rest (norm_results ++ [r])
  end.

(** The parallel fan-out and its normalisation: one result per item of
    [filters]. *)
Definition query_all (tool : string) (n_results : Z) (filters : list (string * string))
    : io (list value) :=
  (let* results_list :=
     gather ((fun pc => _query_one tool n_results pc.1 pc.2) <$> filters) in
   normalise tool results_list [])%io.

Definition saved : Type := (list string * list string * list string * list value)%type.

(** [for res in norm_results: ... all_files.extend(files) ...] *)
Fixpoint save_all (out_folder : Path) (n_results : Z) (as_cif : bool)
    (norm_results : list value) (acc : saved) : io saved :=
  match norm_results with
  | [] => ret acc
  | res :: rest =>
      (let* '(files, warns, providers_seen, cleaned) :=
         save_structures res out_folder n_results as_cif in
       let '(all_files, all_warnings, all_providers, all_cleaned) := acc in
       save_all out_folder n_results as_cif rest
         (all_files ++ files, all_warnings ++ warns,
          all_providers ++ providers_seen, all_cleaned ++ cleaned))%io
  end.

Definition filters_value (filters : list (string * string)) : value :=
  VDict (list_to_map ((fun pc => (pc.1, VStr pc.2)) <$> filters)).

(** *** Tool 2: space group *)

Definition spg_manifest (base : string) (spg_number : Z) (used : gset string)
    (filters : list (string * string)) (as_format : string) (n_results : Z)
    (s : saved) : value :=
  let '(all_files, all_warnings, all_providers, all_cleaned) := s in
  VDict (<["mode" := VStr "space_group"]>
        (<["base_filter" := VStr base]>
        (<["spg_number" := VInt spg_number]>
        (<["providers_requested" := of_str_list (sorted (elements used))]>
        (<["providers_seen" := of_str_list all_providers]>
        (<["files" := of_str_list all_files]>
        (<["warnings" := of_str_list all_warnings]>
        (<["format" := VStr as_format]>
        (<["n_results" := VInt n_results]>
        (<["per_provider_filters" := filters_value filters]>
        (<["n_found" := VInt (Z.of_nat (length all_cleaned))]> ∅))))))))))).

Definition spg_filters (base_filter : option string) (spg_number : Z)
    (providers : option (list string)) : list (string * string) :=
  let base := normalize_cfr_in_filter (or_empty_strip base_filter) in
  let used := used_set providers DEFAULT_SPG_PROVIDERS in
  build_provider_filters base (get_spg_filter_map spg_number used).

Definition fetch_structures_with_spg (base_filter : option string)
    (spg_number : Z) (as_format : string) (n_results : Z)
    (providers : option (list string)) : io FetchResult :=
  (let base := normalize_cfr_in_filter (or_empty_strip base_filter) in
   let used := used_set providers DEFAULT_SPG_PROVIDERS in
   let filters := spg_filters base_filter spg_number providers in
   match filters with
   | [] =>
       logging WARNING "[spg] no provider-specific space-group clause available" ;;
       ret empty_result
   | _ =>
       let* norm_results := query_all "spg" n_results filters in
       let ts := now_stamp w in
       let out_folder :=
         PathDiv BASE_OUTPUT_DIR
           (folder_name (base +:+ " AND spg=" +:+ str_of_Z spg_number)
              (base +:+ "|spg=" +:+ str_of_Z spg_number) ts) in
       let* s := save_all out_folder n_results (String.eqb as_format "cif")
                   norm_results ([], [], [], []) in
       emit (EvWrite (PathDiv out_folder "summary.json")
               (JsonOf (spg_manifest base spg_number used filters as_format n_results s))) ;;
       let all_cleaned := take MAX_RETURNED_STRUCTS s.2 in
       ret {| output_dir := out_folder;
              cleaned_structures := all_cleaned;
              n_found := Z.of_nat (length all_cleaned) |}
   end)%io.

(** *** Tool 3: band gap *)

Definition bg_manifest (base : string) (min_bg max_bg : option float)
    (used : gset string) (filters : list (string * string)) (as_format : string)
    (n_results : Z) (s : saved) : value :=
  let '(all_files, all_warnings, all_providers, all_cleaned) := s in
  VDict (<["mode" := VStr "band_gap"]>
        (<["base_filter" := VStr base]>
        (<["band_gap_min" := of_opt_float min_bg]>
        (<["band_gap_max" := of_opt_float max_bg]>
        (<["providers_requested" := of_str_list (sorted (elements used))]>
        (<["providers_seen" := of_str_list all_providers]>
        (<["files" := of_str_list all_files]>
        (<["warnings" := of_str_list all_warnings]>
        (<["format" := VStr as_format]>
        (<["n_results" := VInt n_results]>
        (<["per_provider_filters" := filters_value filters]>
        (<["n_found" := VInt (Z.of_nat (length all_cleaned))]> ∅)))))))))))).

Definition bg_filters (base_filter : option string) (min_bg max_bg : option float)
    (providers : option (list string)) : list (string * string) :=
  let base := normalize_cfr_in_filter (or_empty_strip base_filter) in
  let used := used_set providers DEFAULT_BG_PROVIDERS in
  build_provider_filters base (get_bandgap_filter_map min_bg max_bg used).

Definition fetch_structures_with_bandgap (base_filter : option string)
    (min_bg max_bg : option float) (as_format : string) (n_results : Z)
    (providers : option (list string)) : io FetchResult :=
  (let base := normalize_cfr_in_filter (or_empty_strip base_filter) in
   let used := used_set providers DEFAULT_BG_PROVIDERS in
   let filters := bg_filters base_filter min_bg max_bg providers in
   match filters with
   | [] =>
       logging WARNING "[bandgap] no provider-specific band-gap clause available" ;;
       ret empty_result
   | _ =>
       let* norm_results := query_all "bandgap" n_results filters in
       let ts := now_stamp w in
       let bg_min := py_str (of_opt_float min_bg) in
       let bg_max := py_str (of_opt_float max_bg) in
       let out_folder :=
         PathDiv BASE_OUTPUT_DIR
           (folder_name (base +:+ " AND bandgap[" +:+ bg_min +:+ "," +:+ bg_max +:+ "]")
              (base +:+ "|bg=" +:+ bg_min +:+ ":" +:+ bg_max) ts) in
       let* s := save_all out_folder n_results (String.eqb as_format "cif")
                   norm_results ([], [], [], []) in
       emit (EvWrite (PathDiv out_folder "summary.json")
               (JsonOf (bg_manifest base min_bg max_bg used filters as_format n_results s))) ;;
       let all_cleaned := take MAX_RETURNED_STRUCTS s.2 in
       ret {| output_dir := out_folder;
              cleaned_structures := all_cleaned;
              n_found := Z.of_nat (length all_cleaned) |}
   end)%io.

End Tools.

End Optimade.

(** * What one provider contributes to a fan-out *)

Section Contribution.
Context `{utils : Optimade.Utils} (w : world).

(** The result standing for the item [(provider, clause)] of the filter
    map: the answer of the client when the provider has URLs and the client
    returns, the empty stub otherwise. *)
Definition provider_result (n_results : Z) (pc : string * string) : value :=
  match Optimade.urls_of pc.1 with
  | [] => Optimade.empty_stub
  | urls =>
      match optimade_get w urls n_results pc.2 with
      | Returned r => r
      | Raised _ => Optimade.empty_stub
      end
  end.


End Contribution.

(** * Observing the effects of a run *)

(** The calls of [mofdb_client.fetch], with their keyword arguments. *)
Definition fetch_calls (t : list event) : list fetch_kwargs :=
  omap (fun ev => match ev with EvMofdbFetch kw => Some kw | _ => None end) t.


(** The headers of the HTTP POST requests. *)
Definition post_headers (t : list event) : list (list (string * string)) :=
  omap (fun ev => match ev with EvHttpPost _ h _ => Some h | _ => None end) t.

(** The value under a header name. *)
Fixpoint header (name : string) (h : list (string * string)) : option string :=
  match h with
  | [] => None
  | (k, v) :: h' => if String.eqb k name then Some v else header name h'
  end.

Fixpoint path_eqb (p q : Path) : bool :=
  match p, q with
  | PathEmpty, PathEmpty => true
  | PathOf s, PathOf s' => String.eqb s s'
  | PathDiv p' s, PathDiv q' s' => path_eqb p' q' && String.eqb s s'
  | _, _ => false
  end.

(** The content of the file [p] after the effects [t]: what the last write
    to [p] wrote. *)
Fixpoint written (t : list event) (p : Path) : option content :=
  match t with
  | [] => None
  | ev :: t' =>
      match written t' p with
      | Some c => Some c
      | None =>
          match ev with
          | EvWrite q c => if path_eqb q p then Some c else None
          | _ => None
          end
      end
  end.

Definition level_eqb (a b : level) : bool :=
  match a, b with
  | INFO, INFO | WARNING, WARNING | ERROR, ERROR => true
  | _, _ => false
  end.

(** The messages logged at a level. *)
Definition logged (lv : level) (t : list event) : list string :=
  omap (fun ev => match ev with
                  | EvLog lv' m => if level_eqb lv' lv then Some m else None
                  | _ => None
                  end) t.

(** The count of a result of an OPTIMADE tool is the length of its list,
    and the list is within the cap. *)
Definition capped (r : Optimade.FetchResult) : Prop :=
  Optimade.n_found r = Z.of_nat (length (Optimade.cleaned_structures r))
  /\ (length (Optimade.cleaned_structures r) <= 100)%nat.

(** * Instances to run the tools on

    The properties below hold for every [PyLib], every [Optimade.Utils] and
    every [world]. The instances of this section give them concrete inputs. *)

Module Sample.

Fixpoint posix_str (p : Path) : string :=
  match p with
  | PathEmpty => "."
  | PathOf s => s
  | PathDiv p s => posix_str p +:+ "/" +:+ s
  end.

(** A stand-in for the library functions: every digest is the SHA-1 of the
    empty string, every serialisation is an empty object, every float prints
    as [1.5]. *)
#[export] Instance lib : PyLib := {|
  sha1_hexdigest := fun _ => "da39a3ee5e6b4b0d3255bfef95601890afd80709";
  json_dumps_sort_keys := fun _ => "{}";
  json_loads := fun _ => None;
  json_default_str := fun v => v;
  float_str := fun _ => "1.5";
  container_str := fun _ => "[]";
  set_str := fun _ => "{}";
  path_str := posix_str;
|}.

(** Two Bohrium records: one with a CIF URL, one without. *)
Definition crystal_1 : gmap string value :=
  <["id" := VInt 7]> (<["cif_file" := VStr "https://example.org/7.cif"]>
  (<["formula" := VStr "NaCl"]> (<["come_from" := VStr "x"]> ∅))).
Definition crystal_2 : gmap string value :=
  <["id" := VInt 8]> (<["formula" := VStr "SiO2"]> ∅).

(** Two MOF records: one with CIF text, one without. *)
Definition mof_1 : gmap string value :=
  <["name" := VStr "tobmof-27"]> (<["database" := VStr "Tobacco"]>
  (<["cif" := VStr "data_tobmof"]> (<["void_fraction" := VInt 0]> ∅))).
Definition mof_2 : gmap string value :=
  <["name" := VStr "hMOF 5"]> (<["database" := VStr "hMOF"]> ∅).

Definition bohrium_response (items : list value) : value :=
  VDict (<["code" := VInt 0]> (<["data" := VDict (<["data" := VList items]> ∅)]> ∅)).

(** The request of the test script of the MOFdb adapter, by name. *)
Definition mof_request : MofdbCommon.args := {|
  MofdbCommon.mofid := None;
  MofdbCommon.mofkey := None;
  MofdbCommon.vf_min := None;
  MofdbCommon.vf_max := None;
  MofdbCommon.lcd_min := Some 1.5%float;
  MofdbCommon.lcd_max := None;
  MofdbCommon.pld_min := None;
  MofdbCommon.pld_max := None;
  MofdbCommon.sa_m2g_min := None;
  MofdbCommon.sa_m2g_max := None;
  MofdbCommon.sa_m2cm3_min := None;
  MofdbCommon.sa_m2cm3_max := None;
  MofdbCommon.name := Some "tobmof-27";
  MofdbCommon.database := None;
  MofdbCommon.n_results := 50;
  MofdbCommon.output_formats := ["json"; "cif"];
|}.


(** The request of the test script of the Bohrium adapter. *)
Definition crystal_request : Bohrium.args := {|
  Bohrium.formula := Some "SiO3";
  Bohrium.elements := Some ["Na"];
  Bohrium.match_mode := 0;
  Bohrium.space_symbol := None;
  Bohrium.atom_count_range := Some ["1"; "100"];
  Bohrium.predicted_formation_energy_range := Some ["-50"; "50"];
  Bohrium.band_gap_range := Some ["0"; "10"];
  Bohrium.n_results := 10;
  Bohrium.output_formats := ["json"; "cif"];
|}.

(** The same filters, with exact matching and JSON files only. *)
Definition crystal_request_json : Bohrium.args := {|
  Bohrium.formula := Some "SiO3";
  Bohrium.elements := Some ["Na"];
  Bohrium.match_mode := 1;
  Bohrium.space_symbol := None;
  Bohrium.atom_count_range := Some ["1"; "100"];
  Bohrium.predicted_formation_energy_range := Some ["-50"; "50"];
  Bohrium.band_gap_range := Some ["0"; "10"];
  Bohrium.n_results := 10;
  Bohrium.output_formats := ["json"];
|}.

(** A world where every service answers. *)
Definition up : world := {|
  optimade_get := fun _ _ _ =>
    Returned (VDict (<["structures" := VDict (<["s" := VInt 1]> ∅)]> ∅));
  mofdb_answer := fun _ => inl [mof_1; mof_2];
  post_answer := fun _ _ _ => inl (bohrium_response [VDict crystal_1; VDict crystal_2]);
  get_answer := fun _ => inl "data_cif";
  now_stamp := "20250101_120000";
  environ := ∅;
|}.

(** A world where every service fails, the OPTIMADE client with [SystemExit]. *)
Definition down : world := {|
  optimade_get := fun _ _ _ => Raised (mk_exn SystemExitClass "1");
  mofdb_answer := fun _ => inr "ConnectionError";
  post_answer := fun _ _ _ => inr "ConnectionError";
  get_answer := fun _ => inr "HTTPError";
  now_stamp := "20250101_120000";
  environ := <["BOHRIUM_ACCESS_KEY" := "secret"]> ∅;
|}.


(** Modelled from the spec: the helper module of the OPTIMADE server
    ([utils.py]: the provider tables, [get_spg_filter_map],
    [get_bandgap_filter_map], [build_provider_filters], [filter_to_tag],
    [normalize_cfr_in_filter], [save_structures]) is not among the sources.
    The spec says the tools look up provider-specific field-name strings from
    static tables; the docstrings of the server list the default providers
    of each tool and name the fields [_alexandria_space_group] and
    [_oqmd_band_gap]. This instance has the default provider sets of the
    docstrings, one space-group field, one band-gap field, and a URL for
    three providers. *)
Definition spg_field (spg_number : Z) (p : string) : option (string * string) :=
  if String.eqb p "alexandria"
  then Some (p, "_alexandria_space_group=" +:+ str_of_Z spg_number)
  else None.

Definition bg_field (min_bg max_bg : option float) (p : string)
    : option (string * string) :=
  if String.eqb p "oqmd"
  then Some (p, "_oqmd_band_gap>=" +:+ py_str (of_opt_float min_bg)
                +:+ " AND _oqmd_band_gap<=" +:+ py_str (of_opt_float max_bg))
  else None.

Definition combine_clause (base : string) (pc : string * string) : string * string :=
  (pc.1, if String.eqb base "" then pc.2 else "(" +:+ base +:+ ") AND (" +:+ pc.2 +:+ ")").

Definition structures_of (res : value) : list value :=
  match res with
  | VDict d =>
      match d !! "structures" with
      | Some (VDict s) => (fun kv => kv.2) <$> map_to_list s
      | _ => []
      end
  | _ => []
  end.

#[export] Instance utils : Optimade.Utils := {|
  Optimade.DEFAULT_PROVIDERS :=
    list_to_set ["alexandria"; "cmr"; "cod"; "mcloud"; "mcloudarchive"; "mp"; "mpdd";
                 "mpds"; "nmd"; "odbx"; "omdb"; "oqmd"; "tcod"; "twodmatpedia"];
  Optimade.DEFAULT_SPG_PROVIDERS :=
    list_to_set ["alexandria"; "cod"; "mpdd"; "nmd"; "odbx"; "oqmd"; "tcod"];
  Optimade.DEFAULT_BG_PROVIDERS :=
    list_to_set ["alexandria"; "odbx"; "oqmd"; "mcloudarchive"; "twodmatpedia"];
  Optimade.URLS_FROM_PROVIDERS :=
    <["alexandria" := ["https://alexandria.icams.rub.de/pbe"]]>
    (<["mp" := ["https://optimade.materialsproject.org"]]>
    (<["oqmd" := ["https://oqmd.org/optimade"]]> ∅));
  Optimade.normalize_cfr_in_filter := fun s => s;
  Optimade.filter_to_tag := fun s => str_take 30 (replace_char " " "_" s);
  Optimade.get_spg_filter_map := fun n used => omap (spg_field n) (sorted (elements used));
  Optimade.get_bandgap_filter_map := fun lo hi used =>
    omap (bg_field lo hi) (sorted (elements used));
  Optimade.build_provider_filters := fun base m => combine_clause base <$> m;
  Optimade.save_structures := fun res out n cif =>
    (emit (EvMkdir out) ;; ret ([], [], [], structures_of res))%io;
|}.

End Sample.

(** * Predicates and inputs for the edge cases *)

(** Every character of [s] satisfies [p]. *)
Fixpoint str_all (p : ascii -> bool) (s : string) : bool :=
  match s with
  | EmptyString => true
  | String c s' => p c && str_all p s'
  end.

(** The characters of a string, and the decimal digits among them. *)
Definition chars : string -> list ascii := list_ascii_of_string.

Definition is_digit (c : ascii) : bool :=
  let n := nat_of_ascii c in (48 <=? n)%nat && (n <=? 57)%nat.

(** The order [sorted] sorts by. *)
Definition str_le (x y : string) : Prop := String.leb x y = true.

(** [isinstance(v, dict)], and whether [len(v)] is defined. *)
Definition is_dict (v : value) : bool :=
  match v with VDict _ => true | _ => false end.

Definition is_sized (v : value) : bool :=
  match v with VList _ | VStr _ | VDict _ => true | _ => false end.

(** The exceptions of [dict_get] and [py_len]. *)
Definition AttributeError : exn :=
  mk_exn ExceptionClass "AttributeError: object has no attribute 'get'".

Definition TypeError_len : exn :=
  mk_exn ExceptionClass "TypeError: object has no len()".

(** The effects that reach a service over HTTP. *)
Definition sends_request (ev : event) : bool :=
  match ev with
  | EvHttpGet _ | EvHttpPost _ _ _ | EvOptimadeGet _ _ _ => true
  | _ => false
  end.

(** The instances of [Exception] among the results of [asyncio.gather]. *)
Definition is_value_or_Exception (r : value + exn) : bool :=
  match r with inl _ => true | inr e => is_Exception e end.

Section Logs.
Context `{utils : Optimade.Utils} (w : world).

(** What [_query_one] logs at the level [lv] for the item [(provider,
    clause)] of the filter map. *)
Definition provider_log (tool : string) (n_results : Z) (lv : level)
    (pc : string * string) : list string :=
  match lv with
  | INFO => ["[" +:+ tool +:+ "] " +:+ pc.1 +:+ ": " +:+ pc.2]
  | WARNING =>
      match Optimade.urls_of pc.1 with
      | [] => ["[" +:+ tool +:+ "] No URLs found for provider " +:+ pc.1]
      | _ => []
      end
  | ERROR =>
      match Optimade.urls_of pc.1 with
      | [] => []
      | urls =>
          match optimade_get w urls n_results pc.2 with
          | Returned _ => []
          | Raised e => ["[" +:+ tool +:+ "] fetch failed for " +:+ pc.1 +:+ ": "
                         +:+ exn_text e]
          end
      end
  end.

End Logs.

(** Answers that do not follow the schema of the services, and a disk that
    cannot be written. *)
Module Edge.

(** The Bohrium endpoint answers with [payload]; the other services are
    those of [Sample.down]. *)
Definition bohrium_answers (payload : value) : world := {|
  optimade_get := optimade_get Sample.down;
  mofdb_answer := mofdb_answer Sample.down;
  post_answer := fun _ _ _ => inl payload;
  get_answer := get_answer Sample.down;
  now_stamp := now_stamp Sample.down;
  environ := ∅;
|}.

(** A JSON array in place of the object. *)
Definition answers_a_list : world := bohrium_answers (VList [VInt 1]).

(** [{"code": 500, "data": null}] *)
Definition answers_null_data : world :=
  bohrium_answers (VDict (<["code" := VInt 500]> (<["data" := VNone]> ∅))).

(** [{"data": {"data": 3}}] *)
Definition answers_a_count : world :=
  bohrium_answers (VDict (<["data" := VDict (<["data" := VInt 3]> ∅)]> ∅)).

(** A record that is a string, between two well-formed ones. *)
Definition answers_a_stray_record : world :=
  bohrium_answers
    (Sample.bohrium_response
       [VDict Sample.crystal_2; VStr "oops"; VDict Sample.crystal_1]).

(** Thirty-one records from MOFdb. *)
Definition many_mofs : world := {|
  optimade_get := optimade_get Sample.up;
  mofdb_answer := fun _ => inl (replicate 31 Sample.mof_2);
  post_answer := post_answer Sample.up;
  get_answer := get_answer Sample.up;
  now_stamp := now_stamp Sample.up;
  environ := ∅;
|}.

(** The helper module of [Sample.utils], with a [save_structures] that
    fails once it has created the folder. *)
Definition read_only_disk : Optimade.Utils := {|
  Optimade.DEFAULT_PROVIDERS := @Optimade.DEFAULT_PROVIDERS Sample.utils;
  Optimade.DEFAULT_SPG_PROVIDERS := @Optimade.DEFAULT_SPG_PROVIDERS Sample.utils;
  Optimade.DEFAULT_BG_PROVIDERS := @Optimade.DEFAULT_BG_PROVIDERS Sample.utils;
  Optimade.URLS_FROM_PROVIDERS := @Optimade.URLS_FROM_PROVIDERS Sample.utils;
  Optimade.normalize_cfr_in_filter := @Optimade.normalize_cfr_in_filter Sample.utils;
  Optimade.filter_to_tag := @Optimade.filter_to_tag Sample.utils;
  Optimade.get_spg_filter_map := @Optimade.get_spg_filter_map Sample.utils;
  Optimade.get_bandgap_filter_map := @Optimade.get_bandgap_filter_map Sample.utils;
  Optimade.build_provider_filters := @Optimade.build_provider_filters Sample.utils;
  Optimade.save_structures := fun _ out _ _ =>
    (emit (EvMkdir out) ;; raise (mk_exn ExceptionClass "PermissionError"))%io;
|}.

End Edge.

(** * Facts on the effect monad *)

Section MonadFacts.
Context {A B : Type}.

Lemma result_bind (m : io A) (f : A -> io B) :
  result (bind m f) =
  match result m with Returned a => result (f a) | Raised e => Raised e end.
Proof.
  destruct m as [t [a|e]]; simpl; [|reflexivity].
  destruct (f a); reflexivity.
Qed.

Lemma trace_bind (m : io A) (f : A -> io B) :
  trace (bind m f) =
  trace m ++ match result m with Returned a => trace (f a) | Raised _ => [] end.
Proof.
  destruct m as [t [a|e]]; simpl; [|by rewrite app_nil_r].
  destruct (f a); reflexivity.
Qed.

Lemma result_try_except (m : io A) (catches : exn -> bool) (h : exn -> io A) :
  result (try_except m catches h) =
  match result m with
  | Returned a => Returned a
  | Raised e => if catches e then result (h e) else Raised e
  end.
Proof.
  destruct m as [t [a|e]]; simpl; [reflexivity|].
  destruct (catches e); [|reflexivity]. destruct (h e); reflexivity.
Qed.

Lemma trace_try_except (m : io A) (catches : exn -> bool) (h : exn -> io A) :
  trace (try_except m catches h) =
  trace m ++ match result m with
             | Returned _ => []
             | Raised e => if catches e then trace (h e) else []
             end.
Proof.
  destruct m as [t [a|e]]; simpl; [by rewrite app_nil_r|].
  destruct (catches e); [|by rewrite app_nil_r]. destruct (h e); reflexivity.
Qed.

Lemma io_eta (m : io A) : m = (trace m, result m).
Proof. by destruct m. Qed.

Lemma trace_pair (t : list event) (r : outcome A) : trace (t, r) = t.
Proof. reflexivity. Qed.

Lemma result_pair (t : list event) (r : outcome A) : result (t, r) = r.
Proof. reflexivity. Qed.

Lemma result_ret (a : A) : result (ret a) = Returned a.
Proof. reflexivity. Qed.

Lemma trace_ret (a : A) : trace (ret a) = [].
Proof. reflexivity. Qed.

Lemma result_raise (e : exn) : result (raise e : io A) = Raised e.
Proof. reflexivity. Qed.

Lemma trace_raise (e : exn) : trace (raise e : io A) = [].
Proof. reflexivity. Qed.

Lemma result_lift (o : outcome A) : result (lift o) = o.
Proof. reflexivity. Qed.

Lemma trace_lift (o : outcome A) : trace (lift o) = [].
Proof. reflexivity. Qed.

End MonadFacts.

Lemma result_emit (ev : event) : result (emit ev) = Returned tt.
Proof. reflexivity. Qed.

Lemma trace_emit (ev : event) : trace (emit ev) = [ev].
Proof. reflexivity. Qed.

Lemma result_logging (lv : level) (msg : string) : result (logging lv msg) = Returned tt.
Proof. reflexivity. Qed.

Lemma trace_logging (lv : level) (msg : string) : trace (logging lv msg) = [EvLog lv msg].
Proof. reflexivity. Qed.

Create Rewrite HintDb io.
#[export] Hint Rewrite @result_bind @trace_bind @result_try_except @trace_try_except
  @result_ret @trace_ret @result_raise @trace_raise @result_lift @trace_lift
  result_emit trace_emit result_logging trace_logging : io.

#[global] Arguments bind : simpl never.
#[global] Arguments try_except : simpl never.
#[global] Arguments ret : simpl never.
#[global] Arguments raise : simpl never.
#[global] Arguments emit : simpl never.
#[global] Arguments lift : simpl never.
#[global] Arguments logging : simpl never.
#[global] Arguments trace : simpl never.
#[global] Arguments result : simpl never.

(** Rewrites a goal on [trace] or [result] down to the effects it lists. *)
Ltac io_simpl := repeat (autorewrite with io; cbn [app]).

(** [pop_all] removes the listed keys and nothing else. *)
Lemma pop_all_lookup (keys : list string) (d : gmap string value) (k : string) :
  pop_all keys d !! k = if bool_decide (k ∈ keys) then None else d !! k.
Proof.
  revert d. induction keys as [|k' keys IH]; intros d.
  - rewrite bool_decide_eq_false_2 by apply not_elem_of_nil. reflexivity.
  - change (pop_all (k' :: keys) d) with (pop_all keys (delete k' d)).
    rewrite IH. rewrite (bool_decide_ext (k ∈ k' :: keys) (k = k' ∨ k ∈ keys))
      by apply elem_of_cons.
    destruct (decide (k = k')) as [->|Hne].
    + rewrite lookup_delete_eq. rewrite (bool_decide_eq_true_2 (k' = k' ∨ _)) by (by left).
      by destruct (bool_decide (k' ∈ keys)).
    + rewrite lookup_delete_ne by done.
      apply (f_equal (fun b : bool => if b then None else d !! k)).
      apply bool_decide_ext. split; [by right | intros [Heq|Hin]; [by destruct Hne | exact Hin]].
Qed.

(** * The helpers on small inputs *)

Example strip_blanks : strip (String (ascii_of_nat 9) "  ab c  ") = "ab c".
Proof. reflexivity. Qed.

Example sorted_by_code : sorted ["Na"; "Cl"; "na"; "B"] = ["B"; "Cl"; "Na"; "na"].
Proof. reflexivity. Qed.

Example bohrium_tag :
  Bohrium.tag_from_filters (Some "Si O3") (Some ["Na"; "Cl"]) None
    (Some ["1"; "100"]) None (Some ["0"; "10"]) 60
  = "SiO3_elClNa_nat1-100_Eg0-10".
Proof. reflexivity. Qed.

Example bohrium_tag_default :
  Bohrium.tag_from_filters None None (Some "") None (Some []) None 60 = "bohriumcrystal".
Proof. reflexivity. Qed.

Example mofdb_tag_skips_zero_and_blank :
  MofdbUtils.tag_from_filters (lib := Sample.lib)
    (Some "abcdefghijkl") None (Some "tob mof") (Some " ")
    (Some 0%float) None None (Some 7%float) None None None None None None 40
  = "idabcdefgh_tob_mof_vf-_lcd-1.5".
Proof. vm_compute. reflexivity. Qed.

Example safe_basename_cleans :
  MofdbUtils._safe_basename (lib := Sample.lib) (VStr "a/b c__d!!e_") 80 = "a_b_c_d_e".
Proof. reflexivity. Qed.

Example safe_basename_default :
  MofdbUtils._safe_basename (lib := Sample.lib) (VStr "___") 80 = "mof"
  /\ MofdbUtils._safe_basename (lib := Sample.lib) VNone 80 = "mof"
  /\ MofdbUtils._safe_basename (lib := Sample.lib) (VInt 12) 80 = "12".
Proof. repeat split; reflexivity. Qed.

Example stems :
  MofdbUtils.stem_of (lib := Sample.lib) Sample.mof_1 0 = "Tobacco_tobmof-27_0"
  /\ MofdbUtils.stem_of (lib := Sample.lib) Sample.mof_2 1 = "hMOF_hMOF_5_1".
Proof. split; vm_compute; reflexivity. Qed.

Example bohrium_payload_match_mode :
  (match Bohrium.payload Sample.crystal_request_json with
   | VDict m => m !! "match_mode"
   | _ => None
   end) = Some (VInt 1)
  /\ (match Bohrium.payload
            {| Bohrium.formula := None; Bohrium.elements := None;
               Bohrium.match_mode := 1; Bohrium.space_symbol := Some "C2/m";
               Bohrium.atom_count_range := None;
               Bohrium.predicted_formation_energy_range := None;
               Bohrium.band_gap_range := None; Bohrium.n_results := 10;
               Bohrium.output_formats := ["json"] |} with
      | VDict m => m !! "match_mode"
      | _ => None
      end) = Some (VInt 0).
Proof. split; vm_compute; reflexivity. Qed.

(** * Saving and cleaning: Bohrium *)

Section BohriumSaving.
Context `{lib : PyLib} (w : world).
Implicit Types (d : gmap string value) (dir : Path) (fmts : list string).

Lemma bohrium_save_json_returns dir fmts name v :
  result (Bohrium.save_json dir fmts name v) = Returned tt.
Proof. unfold Bohrium.save_json. by destruct (str_in "json" fmts). Qed.

Lemma bohrium_download_cif_returns dir sid name url :
  result (Bohrium.download_cif w dir sid name url) = Returned tt.
Proof.
  unfold Bohrium.download_cif, requests_get. io_simpl.
  by destruct (get_answer w (py_str url)).
Qed.

Lemma bohrium_save_cif_returns dir fmts sid name d :
  result (Bohrium.save_cif w dir fmts sid name (VDict d)) = Returned tt.
Proof.
  unfold Bohrium.save_cif. destruct (str_in "cif" fmts); [|reflexivity].
  io_simpl. cbn [dict_get]. io_simpl.
  destruct (negb _); [reflexivity | apply bohrium_download_cif_returns].
Qed.

(** The loop body never fails on a mapping, and returns it without the
    dropped keys. *)
Lemma bohrium_save_one_result dir fmts i d :
  result (Bohrium.save_one w dir fmts i (VDict d))
  = Returned (pop_all Bohrium.CRYSTAL_DROP_ATTRS d).
Proof.
  unfold Bohrium.save_one. io_simpl. cbn [dict_get]. io_simpl.
  rewrite bohrium_save_json_returns. io_simpl.
  rewrite bohrium_save_cif_returns. reflexivity.
Qed.

Lemma bohrium_save_loop_result dir fmts (items : list (gmap string value)) :
  forall i cleaned,
    result (Bohrium.save_loop w dir fmts i (VDict <$> items) cleaned)
    = Returned (cleaned ++ (pop_all Bohrium.CRYSTAL_DROP_ATTRS <$> items)).
Proof.
  induction items as [|d items IH]; intros i cleaned.
  - cbn. by rewrite app_nil_r.
  - cbn [fmap list_fmap Bohrium.save_loop]. io_simpl.
    rewrite bohrium_save_one_result. rewrite IH.
    by rewrite <- app_assoc.
Qed.

(** The effects of the loop are those of its bodies, record after record. *)
Lemma bohrium_save_loop_trace dir fmts (items : list (gmap string value)) :
  forall i cleaned,
    trace (Bohrium.save_loop w dir fmts i (VDict <$> items) cleaned)
    = concat (imap (fun j d => trace (Bohrium.save_one w dir fmts (i + j) (VDict d)))
                items).
Proof.
  induction items as [|d items IH]; intros i cleaned.
  - reflexivity.
  - cbn [fmap list_fmap Bohrium.save_loop imap concat]. io_simpl.
    rewrite bohrium_save_one_result. rewrite IH. rewrite Nat.add_0_r.
    f_equal. f_equal. apply imap_ext. intros j x _. cbn. f_equal. f_equal. lia.
Qed.

End BohriumSaving.

(** * Saving and cleaning: MOFdb *)

Section MofdbSaving.
Context `{lib : PyLib}.
Implicit Types (mof : gmap string value) (dir : Path) (fmts : list string).

Lemma mofdb_save_json_returns dir fmts stem mof :
  result (MofdbUtils.save_json dir fmts stem mof) = Returned tt.
Proof. unfold MofdbUtils.save_json. by destruct (str_in "json" fmts). Qed.

Lemma mofdb_save_cif_returns dir fmts prov ident stem mof :
  result (MofdbUtils.save_cif dir fmts prov ident stem mof) = Returned tt.
Proof.
  unfold MofdbUtils.save_cif. destruct (str_in "cif" fmts); [|reflexivity].
  destruct (truthy _); [|reflexivity].
  by destruct (MofdbUtils.getattr mof "cif").
Qed.

Lemma mofdb_save_one_result dir fmts i mof :
  result (MofdbUtils.save_one dir fmts i mof)
  = Returned (pop_all MofdbUtils.MOFDB_DROP_ATTRS mof).
Proof.
  unfold MofdbUtils.save_one. io_simpl.
  rewrite mofdb_save_json_returns. io_simpl.
  rewrite mofdb_save_cif_returns. reflexivity.
Qed.

Lemma mofdb_save_loop_result dir fmts (items : list (gmap string value)) :
  forall i cleaned,
    result (MofdbUtils.save_loop dir fmts i items cleaned)
    = Returned (cleaned ++ (pop_all MofdbUtils.MOFDB_DROP_ATTRS <$> items)).
Proof.
  induction items as [|mof items IH]; intros i cleaned.
  - cbn. by rewrite app_nil_r.
  - cbn [fmap list_fmap MofdbUtils.save_loop]. io_simpl.
    rewrite mofdb_save_one_result. rewrite IH.
    by rewrite <- app_assoc.
Qed.

Lemma mofdb_save_loop_trace dir fmts (items : list (gmap string value)) :
  forall i cleaned,
    trace (MofdbUtils.save_loop dir fmts i items cleaned)
    = concat (imap (fun j mof => trace (MofdbUtils.save_one dir fmts (i + j) mof)) items).
Proof.
  induction items as [|mof items IH]; intros i cleaned.
  - reflexivity.
  - cbn [MofdbUtils.save_loop imap concat]. io_simpl.
    rewrite mofdb_save_one_result. rewrite IH. rewrite Nat.add_0_r.
    f_equal. f_equal. apply imap_ext. intros j x _. cbn. f_equal. f_equal. lia.
Qed.

Lemma save_mofs_result (items : list (gmap string value)) dir fmts :
  result (MofdbUtils.save_mofs items dir fmts)
  = Returned (pop_all MofdbUtils.MOFDB_DROP_ATTRS <$> items).
Proof.
  unfold MofdbUtils.save_mofs. io_simpl. apply mofdb_save_loop_result.
Qed.

Lemma save_mofs_trace (items : list (gmap string value)) dir fmts :
  trace (MofdbUtils.save_mofs items dir fmts)
  = EvMkdir dir
    :: concat (imap (fun j mof => trace (MofdbUtils.save_one dir fmts j mof)) items).
Proof.
  unfold MofdbUtils.save_mofs. io_simpl. by rewrite mofdb_save_loop_trace.
Qed.

End MofdbSaving.

(** The [i]-th element of a list cleaned by [pop_all]. *)
Lemma cleaned_lookup (keys : list string) (items : list (gmap string value))
    (i : nat) (r : gmap string value) :
  items !! i = Some r ->
  exists c, (pop_all keys <$> items) !! i = Some c
            /\ forall k, c !! k = if bool_decide (k ∈ keys) then None else r !! k.
Proof.
  intros Hi. exists (pop_all keys r). split.
  - by rewrite list_lookup_fmap, Hi.
  - intros k. apply pop_all_lookup.
Qed.

(** C3. For every list of input records, the cleaned list returned by
    [save_structures_bohriumcrystal] (resp. [save_mofs]) has the length of
    the input, and its [i]-th element is the [i]-th record without the keys
    [cif_file], [come_from], [material_id] (resp. [cif], [json_repr],
    [isotherms], [heats], [isotherms_filtered], [heats_filtered]): a dropped
    key is absent, every other key has the value it had. *)
Theorem cleaned_records_drop_the_fixed_keys `{lib : PyLib} (w : world) :
  (forall (items : list (gmap string value)) (output_dir : Path)
          (output_formats : list string),
     exists cleaned,
       result (Bohrium.save_structures_bohriumcrystal w (VDict <$> items)
                 output_dir output_formats) = Returned cleaned
       /\ length cleaned = length items
       /\ forall i r, items !! i = Some r ->
            exists c, cleaned !! i = Some c
              /\ forall k, c !! k =
                   if bool_decide (k ∈ ["cif_file"; "come_from"; "material_id"])
                   then None else r !! k)
  /\
  (forall (items : list (gmap string value)) (output_dir : Path)
          (output_formats : list string),
     exists cleaned,
       result (MofdbUtils.save_mofs items output_dir output_formats)
       = Returned cleaned
       /\ length cleaned = length items
       /\ forall i r, items !! i = Some r ->
            exists c, cleaned !! i = Some c
              /\ forall k, c !! k =
                   if bool_decide (k ∈ ["cif"; "json_repr"; "isotherms"; "heats";
                                        "isotherms_filtered"; "heats_filtered"])
                   then None else r !! k).
Proof.
  split; intros items output_dir output_formats.
  - exists (pop_all Bohrium.CRYSTAL_DROP_ATTRS <$> items). split; [|split].
    + unfold Bohrium.save_structures_bohriumcrystal.
      by rewrite bohrium_save_loop_result.
    + apply length_fmap.
    + intros i r Hi. by apply cleaned_lookup.
  - exists (pop_all MofdbUtils.MOFDB_DROP_ATTRS <$> items). split; [|split].
    + apply save_mofs_result.
    + apply length_fmap.
    + intros i r Hi. by apply cleaned_lookup.
Qed.

(** * The files written for one record *)

Section BohriumFiles.
Context `{lib : PyLib} (w : world).
Implicit Types (d : gmap string value) (dir : Path) (fmts : list string).

(** The effects of the loop body on one record, listed. *)
Lemma bohrium_save_one_trace dir fmts i d :
  let sid := default (VStr ("idx" +:+ str_of_nat i)) (d !! "id") in
  let name := Bohrium.record_name sid i in
  let cif_url := default VNone (d !! "cif_file") in
  trace (Bohrium.save_one w dir fmts i (VDict d))
  = (if str_in "json" fmts
     then [EvWrite (PathDiv dir (name +:+ ".json")) (JsonOf (VDict d))] else [])
    ++ (if str_in "cif" fmts
        then
          if truthy cif_url
          then EvHttpGet (py_str cif_url)
               :: match get_answer w (py_str cif_url) with
                  | inl body =>
                      [EvWrite (PathDiv dir (name +:+ ".cif")) (BytesOf body);
                       EvLog INFO ("Saved CIF for " +:+ py_str sid +:+ " -> "
                                   +:+ name +:+ ".cif")]
                  | inr msg =>
                      [EvLog ERROR ("Failed to download CIF for " +:+ py_str sid
                                    +:+ ": " +:+ msg)]
                  end
          else [EvLog WARNING ("No CIF URL for " +:+ py_str sid)]
        else []).
Proof.
  intros sid name cif_url. unfold Bohrium.save_one. io_simpl. cbn [dict_get]. io_simpl.
  fold sid. fold name.
  rewrite bohrium_save_json_returns. io_simpl. rewrite bohrium_save_cif_returns.
  unfold Bohrium.clean. io_simpl. rewrite app_nil_r.
  f_equal.
  - unfold Bohrium.save_json. by destruct (str_in "json" fmts).
  - unfold Bohrium.save_cif. destruct (str_in "cif" fmts); [|reflexivity].
    io_simpl. cbn [dict_get]. io_simpl. fold cif_url.
    destruct (truthy cif_url); cbn [negb]; [|reflexivity].
    unfold Bohrium.download_cif, requests_get. io_simpl.
    by destruct (get_answer w (py_str cif_url)).
Qed.

Lemma bohrium_run_trace (items : list (gmap string value)) dir fmts :
  trace (Bohrium.save_structures_bohriumcrystal w (VDict <$> items) dir fmts)
  = concat (imap (fun i d => trace (Bohrium.save_one w dir fmts i (VDict d))) items).
Proof.
  unfold Bohrium.save_structures_bohriumcrystal. by rewrite bohrium_save_loop_trace.
Qed.

End BohriumFiles.

(** An effect of the [i]-th block of a concatenation is one of the whole. *)
Lemma elem_of_concat_imap {A B} (f : nat -> A -> list B) (l : list A) (i : nat)
    (x : A) (y : B) :
  l !! i = Some x -> y ∈ f i x -> y ∈ concat (imap f l).
Proof.
  intros Hi Hy. apply list_elem_of_In, in_concat. exists (f i x). split.
  - apply list_elem_of_In. by apply elem_of_lookup_imap_2.
  - by apply list_elem_of_In.
Qed.

Section MofdbFiles.
Context `{lib : PyLib}.
Implicit Types (mof : gmap string value) (dir : Path) (fmts : list string).

Lemma mofdb_save_one_trace dir fmts i mof :
  let stem := MofdbUtils.stem_of mof i in
  let cif_txt := MofdbUtils.getattr mof "cif" in
  trace (MofdbUtils.save_one dir fmts i mof)
  = (if str_in "json" fmts
     then [EvWrite (PathDiv dir (stem +:+ ".json")) (JsonOf (MofdbUtils.json_data mof))]
     else [])
    ++ (if str_in "cif" fmts
        then
          if truthy cif_txt
          then
            match cif_txt with
            | VStr s => [EvWrite (PathDiv dir (stem +:+ ".cif")) (TextOf s)]
            | _ => [EvWrite (PathDiv dir (stem +:+ ".cif")) (TextOf "");
                    EvLog ERROR ("Failed to save CIF for "
                                 +:+ MofdbUtils._pick_identifier mof i
                                 +:+ ": write() argument must be str")]
            end
          else [EvLog WARNING ("No CIF content for "
                               +:+ MofdbUtils._pick_identifier mof i +:+ " ("
                               +:+ MofdbUtils._provider mof +:+ ")")]
        else []).
Proof.
  intros stem cif_txt. unfold MofdbUtils.save_one. io_simpl.
  rewrite mofdb_save_json_returns. io_simpl. rewrite mofdb_save_cif_returns.
  io_simpl. rewrite app_nil_r. fold stem. f_equal.
  - unfold MofdbUtils.save_json. by destruct (str_in "json" fmts).
  - unfold MofdbUtils.save_cif. destruct (str_in "cif" fmts); [|reflexivity].
    fold cif_txt. destruct (truthy cif_txt); [|reflexivity].
    by destruct cif_txt.
Qed.

End MofdbFiles.


(** * The runs of the MOFdb tools, step by step *)

Lemma omap_concat_imap_nil {A B C} (f : B -> option C) (l : list A) :
  forall g : nat -> A -> list B,
    (forall i x, omap f (g i x) = []) -> omap f (concat (imap g l)) = [].
Proof.
  induction l as [|x l IH]; intros g Hg; [reflexivity|].
  rewrite imap_cons. cbn [concat]. rewrite omap_app, Hg. cbn [app].
  apply IH. intros i y. apply Hg.
Qed.

Lemma fetch_calls_app (t1 t2 : list event) :
  fetch_calls (t1 ++ t2) = fetch_calls t1 ++ fetch_calls t2.
Proof. apply omap_app. Qed.

Lemma fetch_calls_cons (ev : event) (t : list event) :
  fetch_calls (ev :: t)
  = match ev with EvMofdbFetch kw => kw :: fetch_calls t | _ => fetch_calls t end.
Proof. by destruct ev. Qed.

Section MofdbRuns.
Context `{lib : PyLib} (w : world).
Import MofdbCommon.

(** The whole run of the server's [fetch_mofs]: it always reaches its
    [return]. *)
Lemma mofdb_server_run (a : args) :
  let kw := fetch_call a in
  let results := match mofdb_answer w kw with inl l => l | inr _ => [] end in
  let out := PathDiv BASE_OUTPUT_DIR (folder_name a (now_stamp w)) in
  let cleaned :=
    take MofdbServer.MAX_RETURNED_STRUCTS (pop_all MofdbUtils.MOFDB_DROP_ATTRS <$> results) in
  MofdbServer.fetch_mofs w a
  = (EvMofdbFetch kw
       :: match mofdb_answer w kw with
          | inl _ => []
          | inr _ => [EvPrint "Encounter some error or Find nothing!"]
          end
       ++ EvMkdir out
       :: trace (MofdbUtils.save_mofs results out (output_formats a))
       ++ [EvWrite (PathDiv out "summary.json")
             (JsonOf (manifest a (length cleaned) out))],
     Returned {| output_dir := out; n_found := Z.of_nat (length cleaned);
                 cleaned_structures := cleaned; code := 0; message := "Success" |}).
Proof.
  intros kw results out cleaned.
  rewrite (io_eta (MofdbServer.fetch_mofs w a)).
  unfold MofdbServer.fetch_mofs, mofdb_fetch. fold kw. fold out.
  f_equal; io_simpl;
    destruct (mofdb_answer w kw) as [l|msg];
    cbn [answered is_Exception exn_cls]; io_simpl;
    rewrite save_mofs_result; io_simpl; reflexivity.
Qed.

(** The run of the test script's [fetch_mofs]: nothing handles a failure of
    the query. *)
Lemma mofdb_test_run (a : args) :
  let kw := fetch_call a in
  let out := PathDiv BASE_OUTPUT_DIR (folder_name a (now_stamp w)) in
  MofdbTest.fetch_mofs w a
  = match mofdb_answer w kw with
    | inl results =>
        (EvMofdbFetch kw
           :: EvMkdir out
           :: trace (MofdbUtils.save_mofs results out (output_formats a))
           ++ [EvWrite (PathDiv out "summary.json")
                 (JsonOf (manifest a (length results) out))],
         Returned {| output_dir := out; n_found := Z.of_nat (length results);
                     cleaned_structures := pop_all MofdbUtils.MOFDB_DROP_ATTRS <$> results;
                     code := 0; message := "Success" |})
    | inr msg => ([EvMofdbFetch kw], Raised (mk_exn ExceptionClass msg))
    end.
Proof.
  intros kw out.
  rewrite (io_eta (MofdbTest.fetch_mofs w a)).
  unfold MofdbTest.fetch_mofs, mofdb_fetch. fold kw. fold out.
  destruct (mofdb_answer w kw) as [l|msg]; f_equal;
    cbn [answered]; io_simpl; rewrite ?save_mofs_result; io_simpl; reflexivity.
Qed.

(** Saving calls no client. *)
Lemma save_mofs_calls_nothing (items : list (gmap string value)) dir fmts :
  fetch_calls (trace (MofdbUtils.save_mofs items dir fmts)) = [].
Proof.
  rewrite save_mofs_trace, fetch_calls_cons.
  apply omap_concat_imap_nil. intros i mof.
  rewrite mofdb_save_one_trace, omap_app.
  repeat case_match; reflexivity.
Qed.

End MofdbRuns.

(** C5. For every combination of arguments, each [fetch_mofs] calls the
    client exactly once, with each of the fourteen filter parameters under
    its own name and unchanged, and with [n_results] as [limit]. *)
Theorem fetch_mofs_forwards_its_filters `{lib : PyLib} (w : world) (a : MofdbCommon.args) :
  let forwarded :=
    {| kw_mofid := MofdbCommon.mofid a;
       kw_mofkey := MofdbCommon.mofkey a;
       kw_vf_min := MofdbCommon.vf_min a;
       kw_vf_max := MofdbCommon.vf_max a;
       kw_lcd_min := MofdbCommon.lcd_min a;
       kw_lcd_max := MofdbCommon.lcd_max a;
       kw_pld_min := MofdbCommon.pld_min a;
       kw_pld_max := MofdbCommon.pld_max a;
       kw_sa_m2g_min := MofdbCommon.sa_m2g_min a;
       kw_sa_m2g_max := MofdbCommon.sa_m2g_max a;
       kw_sa_m2cm3_min := MofdbCommon.sa_m2cm3_min a;
       kw_sa_m2cm3_max := MofdbCommon.sa_m2cm3_max a;
       kw_name := MofdbCommon.name a;
       kw_database := MofdbCommon.database a;
       kw_limit := MofdbCommon.n_results a |} in
  fetch_calls (trace (MofdbServer.fetch_mofs w a)) = [forwarded]
  /\ fetch_calls (trace (MofdbTest.fetch_mofs w a)) = [forwarded].
Proof.
  intros forwarded. split.
  - rewrite mofdb_server_run, trace_pair, fetch_calls_cons, fetch_calls_app,
      fetch_calls_cons, fetch_calls_app, save_mofs_calls_nothing.
    by destruct (mofdb_answer w (MofdbCommon.fetch_call a)).
  - rewrite mofdb_test_run.
    destruct (mofdb_answer w (MofdbCommon.fetch_call a)) as [results|msg];
      [|reflexivity].
    by rewrite trace_pair, !fetch_calls_cons, fetch_calls_app, save_mofs_calls_nothing.
Qed.


(** * The runs of the Bohrium tool *)

Lemma post_headers_app (t1 t2 : list event) :
  post_headers (t1 ++ t2) = post_headers t1 ++ post_headers t2.
Proof. apply omap_app. Qed.

Lemma post_headers_cons (ev : event) (t : list event) :
  post_headers (ev :: t)
  = match ev with EvHttpPost _ h _ => h :: post_headers t | _ => post_headers t end.
Proof. by destruct ev. Qed.

Lemma trace_dict_get (v : value) (k : string) (d : value) : trace (dict_get v k d) = [].
Proof. by destruct v. Qed.

Lemma trace_py_len (v : value) : trace (py_len v) = [].
Proof. by destruct v. Qed.

Lemma dict_get_dict (m : gmap string value) (k : string) (d : value) :
  dict_get (VDict m) k d = ret (default d (m !! k)).
Proof. reflexivity. Qed.

Lemma py_len_list (l : list value) : py_len (VList l) = ret (length l).
Proof. reflexivity. Qed.

Section BohriumRuns.
Context `{lib : PyLib} (w : world).

(** Saving posts nothing, whatever the items are. *)
Lemma bohrium_save_one_posts_nothing dir fmts i (v : value) :
  post_headers (trace (Bohrium.save_one w dir fmts i v)) = [].
Proof.
  destruct v; try reflexivity.
  rewrite bohrium_save_one_trace, post_headers_app.
  repeat case_match; reflexivity.
Qed.

Lemma bohrium_save_loop_posts_nothing dir fmts (items : list value) :
  forall i cleaned,
    post_headers (trace (Bohrium.save_loop w dir fmts i items cleaned)) = [].
Proof.
  induction items as [|v items IH]; intros i cleaned; [reflexivity|].
  cbn [Bohrium.save_loop]. rewrite trace_bind, post_headers_app.
  rewrite bohrium_save_one_posts_nothing.
  destruct (result _); [apply IH | reflexivity].
Qed.

Lemma bohrium_save_and_report_posts_nothing (a : Bohrium.args) items n :
  post_headers (trace (Bohrium.save_and_report w a items n)) = [].
Proof.
  unfold Bohrium.save_and_report, Bohrium.save_structures_bohriumcrystal.
  rewrite trace_bind, post_headers_app. io_simpl. rewrite post_headers_app.
  rewrite bohrium_save_loop_posts_nothing.
  destruct (result _); io_simpl; reflexivity.
Qed.

(** The tool starts with its one POST request. *)
Lemma bohrium_tool_trace (a : Bohrium.args) :
  exists tail,
    trace (Bohrium.fetch_bohrium_crystals w a)
    = EvHttpPost (Bohrium.DB_CORE_HOST +:+ "/api/v1/crystal/list") Bohrium.headers
        (Bohrium.payload a) :: tail
    /\ post_headers tail = [].
Proof.
  unfold Bohrium.fetch_bohrium_crystals, requests_post.
  set (url := Bohrium.DB_CORE_HOST +:+ "/api/v1/crystal/list").
  rewrite trace_bind. rewrite trace_try_except, result_try_except. io_simpl.
  eexists. split; [reflexivity|].
  destruct (post_answer w url Bohrium.headers (Bohrium.payload a)) as [data|msg];
    cbn [answered is_Exception exn_cls]; io_simpl; [|reflexivity].
  rewrite trace_dict_get. cbn [app].
  destruct (result (dict_get data _ _)) as [inner|e]; [|reflexivity].
  rewrite trace_bind, trace_dict_get. cbn [app].
  destruct (result (dict_get inner _ _)) as [items|e]; [|reflexivity].
  rewrite trace_bind, trace_py_len. cbn [app].
  destruct (result (py_len items)) as [n|e]; [|reflexivity].
  destruct (Nat.eqb n 0); [reflexivity|].
  apply bohrium_save_and_report_posts_nothing.
Qed.




End BohriumRuns.

(** C8. For every input and every environment the Bohrium tool issues
    exactly one POST request, whose headers are the fixed list with
    [X-User-Id = "117756"]: the headers sent by two runs are equal whatever
    the arguments, the answers of the services and [os.environ]. *)
Theorem bohrium_user_id_header_is_hardcoded `{lib : PyLib} :
  (forall (w : world) (a : Bohrium.args),
     post_headers (trace (Bohrium.fetch_bohrium_crystals w a))
     = [[("X-User-Id", "117756"); ("Content-Type", "application/json")]])
  /\ (forall (w1 w2 : world) (a1 a2 : Bohrium.args),
        post_headers (trace (Bohrium.fetch_bohrium_crystals w1 a1))
        = post_headers (trace (Bohrium.fetch_bohrium_crystals w2 a2)))
  /\ header "X-User-Id" Bohrium.headers = Some "117756".
Proof.
  assert (H1 : forall (w : world) (a : Bohrium.args),
             post_headers (trace (Bohrium.fetch_bohrium_crystals w a))
             = [Bohrium.headers]).
  { intros w a. destruct (bohrium_tool_trace w a) as (tail & -> & Htail).
    by rewrite post_headers_cons, Htail. }
  split; [exact H1|]. split; [|reflexivity].
  intros w1 w2 a1 a2. by rewrite !H1.
Qed.

(** * The runs of the OPTIMADE tools *)


Lemma match_nonempty {A B} (l : list A) (a b : B) :
  l <> [] -> match l with [] => a | _ :: _ => b end = b.
Proof. by destruct l. Qed.

Section OptimadeRuns.
Context `{lib : PyLib} `{utils : Optimade.Utils} (w : world).
Implicit Types (filters : list (string * string)).

Lemma query_one_result tool n p c :
  result (Optimade._query_one w tool n p c) = Returned (provider_result w n (p, c)).
Proof.
  unfold Optimade._query_one, provider_result. io_simpl. cbn [fst snd].
  destruct (Optimade.urls_of p) as [|u urls]; io_simpl; [reflexivity|].
  by destruct (optimade_get w (u :: urls) n c) as [r|[[] txt]].
Qed.


Lemma gather_query_result tool n filters :
  result (Optimade.gather ((fun pc => Optimade._query_one w tool n pc.1 pc.2) <$> filters))
  = Returned (inl <$> (provider_result w n <$> filters)).
Proof.
  induction filters as [|[p c] filters IH]; [reflexivity|].
  cbn [fmap list_fmap Optimade.gather fst snd]. io_simpl.
  rewrite query_one_result. io_simpl.
  change (list_fmap _ _ ?f ?l) with (f <$> l). rewrite IH. reflexivity.
Qed.


Lemma normalise_results tool (rs : list value) :
  forall acc, Optimade.normalise tool (inl <$> rs) acc = ret (acc ++ rs).
Proof.
  induction rs as [|r rs IH]; intros acc.
  - cbn. by rewrite app_nil_r.
  - cbn [fmap list_fmap Optimade.normalise]. change (list_fmap _ _ ?f ?l) with (f <$> l).
    rewrite IH. by rewrite <- app_assoc.
Qed.

Lemma query_all_result tool n filters :
  result (Optimade.query_all w tool n filters) = Returned (provider_result w n <$> filters).
Proof.
  unfold Optimade.query_all. io_simpl. rewrite gather_query_result.
  by rewrite normalise_results.
Qed.



Lemma spg_run base_filter spg_number as_format n_results providers :
  let base := Optimade.normalize_cfr_in_filter (Optimade.or_empty_strip base_filter) in
  let used := Optimade.used_set providers Optimade.DEFAULT_SPG_PROVIDERS in
  let filters := Optimade.spg_filters base_filter spg_number providers in
  let out := PathDiv Optimade.BASE_OUTPUT_DIR
               (Optimade.folder_name (base +:+ " AND spg=" +:+ str_of_Z spg_number)
                  (base +:+ "|spg=" +:+ str_of_Z spg_number) (now_stamp w)) in
  let sv := Optimade.save_all out n_results (String.eqb as_format "cif")
              (provider_result w n_results <$> filters) ([], [], [], []) in
  filters <> [] ->
  Optimade.fetch_structures_with_spg w base_filter spg_number as_format n_results providers
  = (trace (Optimade.query_all w "spg" n_results filters) ++ trace sv
       ++ match result sv with
          | Returned s =>
              [EvWrite (PathDiv out "summary.json")
                 (JsonOf (Optimade.spg_manifest base spg_number used filters as_format
                            n_results s))]
          | Raised _ => []
          end,
     match result sv with
     | Returned s =>
         Returned {| Optimade.output_dir := out;
                     Optimade.cleaned_structures := take Optimade.MAX_RETURNED_STRUCTS s.2;
                     Optimade.n_found :=
                       Z.of_nat (length (take Optimade.MAX_RETURNED_STRUCTS s.2)) |}
     | Raised e => Raised e
     end).
Proof.
  intros base used filters out sv Hne.
  rewrite (io_eta (Optimade.fetch_structures_with_spg w _ _ _ _ _)).
  unfold Optimade.fetch_structures_with_spg. fold base used filters.
  rewrite (match_nonempty filters) by done.
  f_equal; io_simpl; rewrite query_all_result; io_simpl; fold out; fold sv;
    destruct (result sv) as [s|e]; io_simpl; reflexivity.
Qed.

Lemma spg_run_no_clause base_filter spg_number as_format n_results providers :
  Optimade.spg_filters base_filter spg_number providers = [] ->
  Optimade.fetch_structures_with_spg w base_filter spg_number as_format n_results providers
  = ([EvLog WARNING "[spg] no provider-specific space-group clause available"],
     Returned Optimade.empty_result).
Proof.
  intros Hf. unfold Optimade.fetch_structures_with_spg. by rewrite Hf.
Qed.

Lemma bandgap_run base_filter min_bg max_bg as_format n_results providers :
  let base := Optimade.normalize_cfr_in_filter (Optimade.or_empty_strip base_filter) in
  let used := Optimade.used_set providers Optimade.DEFAULT_BG_PROVIDERS in
  let filters := Optimade.bg_filters base_filter min_bg max_bg providers in
  let bg_min := py_str (of_opt_float min_bg) in
  let bg_max := py_str (of_opt_float max_bg) in
  let out := PathDiv Optimade.BASE_OUTPUT_DIR
               (Optimade.folder_name
                  (base +:+ " AND bandgap[" +:+ bg_min +:+ "," +:+ bg_max +:+ "]")
                  (base +:+ "|bg=" +:+ bg_min +:+ ":" +:+ bg_max) (now_stamp w)) in
  let sv := Optimade.save_all out n_results (String.eqb as_format "cif")
              (provider_result w n_results <$> filters) ([], [], [], []) in
  filters <> [] ->
  Optimade.fetch_structures_with_bandgap w base_filter min_bg max_bg as_format n_results
    providers
  = (trace (Optimade.query_all w "bandgap" n_results filters) ++ trace sv
       ++ match result sv with
          | Returned s =>
              [EvWrite (PathDiv out "summary.json")
                 (JsonOf (Optimade.bg_manifest base min_bg max_bg used filters as_format
                            n_results s))]
          | Raised _ => []
          end,
     match result sv with
     | Returned s =>
         Returned {| Optimade.output_dir := out;
                     Optimade.cleaned_structures := take Optimade.MAX_RETURNED_STRUCTS s.2;
                     Optimade.n_found :=
                       Z.of_nat (length (take Optimade.MAX_RETURNED_STRUCTS s.2)) |}
     | Raised e => Raised e
     end).
Proof.
  intros base used filters bg_min bg_max out sv Hne.
  rewrite (io_eta (Optimade.fetch_structures_with_bandgap w _ _ _ _ _ _)).
  unfold Optimade.fetch_structures_with_bandgap. fold base used filters bg_min bg_max.
  rewrite (match_nonempty filters) by done.
  f_equal; io_simpl; rewrite query_all_result; io_simpl; fold out; fold sv;
    destruct (result sv) as [s|e]; io_simpl; reflexivity.
Qed.

Lemma bandgap_run_no_clause base_filter min_bg max_bg as_format n_results providers :
  Optimade.bg_filters base_filter min_bg max_bg providers = [] ->
  Optimade.fetch_structures_with_bandgap w base_filter min_bg max_bg as_format n_results
    providers
  = ([EvLog WARNING "[bandgap] no provider-specific band-gap clause available"],
     Returned Optimade.empty_result).
Proof.
  intros Hf. unfold Optimade.fetch_structures_with_bandgap. by rewrite Hf.
Qed.

(** The raw-filter tool: the filter is empty. *)
Lemma raw_run_empty_filter filter as_format n_results providers :
  Optimade.or_empty_strip filter = "" ->
  Optimade.fetch_structures_with_filter w filter as_format n_results providers
  = ([EvLog ERROR "[raw] empty filter string"], Returned Optimade.empty_result).
Proof.
  intros Hf. unfold Optimade.fetch_structures_with_filter. by rewrite Hf.
Qed.

(** The raw-filter tool: the client raises, [SystemExit] included. *)
Lemma raw_run_client_raised filter as_format n_results providers (e : exn) :
  let filt := Optimade.normalize_cfr_in_filter (Optimade.or_empty_strip filter) in
  let used := Optimade.used_set providers Optimade.DEFAULT_PROVIDERS in
  let urls := flat_map Optimade.urls_of (elements used) in
  Optimade.or_empty_strip filter <> "" ->
  optimade_get w urls n_results filt = Raised e ->
  Optimade.fetch_structures_with_filter w filter as_format n_results providers
  = ([EvLog INFO ("[raw] providers=" +:+ set_str used +:+ " urls="
                  +:+ str_of_nat (length urls) +:+ " filter=" +:+ filt);
      EvOptimadeGet urls n_results filt;
      EvLog ERROR ("[raw] fetch failed: " +:+ exn_text e)],
     Returned Optimade.empty_result).
Proof.
  intros filt used urls Hne Hget.
  rewrite (io_eta (Optimade.fetch_structures_with_filter w _ _ _ _)).
  unfold Optimade.fetch_structures_with_filter.
  apply String.eqb_neq in Hne. rewrite Hne. fold filt used urls.
  f_equal; io_simpl; rewrite Hget; destruct e as [[] txt]; reflexivity.
Qed.

(** The raw-filter tool: the client returns and the saving goes through. *)
Lemma raw_run_saved filter as_format n_results providers (results : value)
    (ts : list event) (files warns seen : list string) (cleaned : list value) :
  let filt := Optimade.normalize_cfr_in_filter (Optimade.or_empty_strip filter) in
  let used := Optimade.used_set providers Optimade.DEFAULT_PROVIDERS in
  let urls := flat_map Optimade.urls_of (elements used) in
  let out := PathDiv Optimade.BASE_OUTPUT_DIR
               (Optimade.folder_name filt filt (now_stamp w)) in
  Optimade.or_empty_strip filter <> "" ->
  optimade_get w urls n_results filt = Returned results ->
  Optimade.save_structures results out n_results (String.eqb as_format "cif")
  = (ts, Returned (files, warns, seen, cleaned)) ->
  Optimade.fetch_structures_with_filter w filter as_format n_results providers
  = (EvLog INFO ("[raw] providers=" +:+ set_str used +:+ " urls="
                 +:+ str_of_nat (length urls) +:+ " filter=" +:+ filt)
       :: EvOptimadeGet urls n_results filt
       :: ts
       ++ [EvWrite (PathDiv out "summary.json")
             (JsonOf (Optimade.raw_manifest filt used seen files warns as_format
                        n_results cleaned))],
     Returned {| Optimade.output_dir := out;
                 Optimade.cleaned_structures :=
                   take Optimade.MAX_RETURNED_STRUCTS cleaned;
                 Optimade.n_found :=
                   Z.of_nat (length (take Optimade.MAX_RETURNED_STRUCTS cleaned)) |}).
Proof.
  intros filt used urls out Hne Hget Hsave.
  rewrite (io_eta (Optimade.fetch_structures_with_filter w _ _ _ _)).
  unfold Optimade.fetch_structures_with_filter.
  apply String.eqb_neq in Hne. rewrite Hne. fold filt used urls.
  f_equal; io_simpl; rewrite Hget; io_simpl; fold out; rewrite Hsave;
    rewrite ?trace_pair, ?result_pair; io_simpl; reflexivity.
Qed.

(** A result of the raw-filter tool is the zero-result default or a capped
    list in the folder of the request. *)
Lemma raw_result_cases filter as_format n_results providers r :
  let filt := Optimade.normalize_cfr_in_filter (Optimade.or_empty_strip filter) in
  result (Optimade.fetch_structures_with_filter w filter as_format n_results providers)
  = Returned r ->
  r = Optimade.empty_result
  \/ exists cleaned,
       r = {| Optimade.output_dir :=
                PathDiv Optimade.BASE_OUTPUT_DIR
                  (Optimade.folder_name filt filt (now_stamp w));
              Optimade.cleaned_structures := take Optimade.MAX_RETURNED_STRUCTS cleaned;
              Optimade.n_found :=
                Z.of_nat (length (take Optimade.MAX_RETURNED_STRUCTS cleaned)) |}.
Proof.
  intros filt.
  destruct (decide (Optimade.or_empty_strip filter = "")) as [He|Hne].
  { rewrite raw_run_empty_filter by done. intros [= <-]. by left. }
  set (urls := flat_map Optimade.urls_of
                 (elements (Optimade.used_set providers Optimade.DEFAULT_PROVIDERS))).
  destruct (optimade_get w urls n_results filt) as [results|e] eqn:Hget.
  2: { rewrite (raw_run_client_raised _ _ _ _ e Hne Hget). intros [= <-]. by left. }
  set (out := PathDiv Optimade.BASE_OUTPUT_DIR
                (Optimade.folder_name filt filt (now_stamp w))).
  destruct (Optimade.save_structures results out n_results (String.eqb as_format "cif"))
    as [ts [[[[files warns] seen] cleaned]|e]] eqn:Hsave.
  - rewrite (raw_run_saved _ _ _ _ results ts files warns seen cleaned Hne Hget Hsave).
    intros [= <-]. right. by exists cleaned.
  - unfold Optimade.fetch_structures_with_filter.
    apply String.eqb_neq in Hne. rewrite Hne. fold filt urls. io_simpl.
    rewrite Hget. io_simpl. fold out. rewrite Hsave, result_pair. discriminate.
Qed.
End OptimadeRuns.

(** * The fan-out over the providers *)


(** * The failure paths *)


(** * The output folder *)



(** * The manifest *)

Lemma path_eqb_refl (p : Path) : path_eqb p p = true.
Proof.
  induction p as [| s | p IH s]; cbn; [reflexivity | apply String.eqb_refl |].
  by rewrite IH, String.eqb_refl.
Qed.

(** A later write to a file hides the earlier effects. *)
Lemma written_app_r (t1 t2 : list event) (p : Path) (c : content) :
  written t2 p = Some c -> written (t1 ++ t2) p = Some c.
Proof.
  intros H. induction t1 as [|ev t1 IH]; [exact H|]. cbn. by rewrite IH.
Qed.

Lemma written_cons_r (ev : event) (t : list event) (p : Path) (c : content) :
  written t p = Some c -> written (ev :: t) p = Some c.
Proof. apply (written_app_r [ev]). Qed.

Lemma written_single (p : Path) (c : content) : written [EvWrite p c] p = Some c.
Proof. cbn. by rewrite path_eqb_refl. Qed.

(** Solves [written t p = Some c] when [t] ends with the write of [c] to [p]. *)
Ltac written_last :=
  repeat first
    [ apply written_app_r
    | lazymatch goal with
      | |- written [_] _ = _ => fail
      | |- _ => apply written_cons_r
      end ];
  apply written_single.


(** * The count and the cap *)

Section Counts.
Context `{lib : PyLib} `{utils : Optimade.Utils} (w : world).

Lemma capped_empty : capped Optimade.empty_result.
Proof. split; [reflexivity | cbn; lia]. Qed.

Lemma capped_take (out : Path) (l : list value) :
  capped {| Optimade.output_dir := out;
            Optimade.cleaned_structures := take Optimade.MAX_RETURNED_STRUCTS l;
            Optimade.n_found := Z.of_nat (length (take Optimade.MAX_RETURNED_STRUCTS l)) |}.
Proof. split; [reflexivity | apply firstn_le_length]. Qed.

Lemma raw_result_capped filter as_format n_results providers r :
  result (Optimade.fetch_structures_with_filter w filter as_format n_results providers)
  = Returned r -> capped r.
Proof.
  intros Hr. destruct (raw_result_cases w _ _ _ _ r Hr) as [-> | [cleaned ->]].
  - apply capped_empty.
  - apply capped_take.
Qed.

Lemma spg_result_capped base_filter spg_number as_format n_results providers r :
  result (Optimade.fetch_structures_with_spg w base_filter spg_number as_format
            n_results providers) = Returned r -> capped r.
Proof.
  destruct (Optimade.spg_filters base_filter spg_number providers) as [|pc l] eqn:Hf.
  { rewrite spg_run_no_clause by done. intros [= <-]. apply capped_empty. }
  rewrite spg_run by (by rewrite Hf). rewrite result_pair.
  destruct (result _) as [s|e]; [|discriminate]. intros [= <-]. apply capped_take.
Qed.

Lemma bandgap_result_capped base_filter min_bg max_bg as_format n_results providers r :
  result (Optimade.fetch_structures_with_bandgap w base_filter min_bg max_bg as_format
            n_results providers) = Returned r -> capped r.
Proof.
  destruct (Optimade.bg_filters base_filter min_bg max_bg providers) as [|pc l] eqn:Hf.
  { rewrite bandgap_run_no_clause by done. intros [= <-]. apply capped_empty. }
  rewrite bandgap_run by (by rewrite Hf). rewrite result_pair.
  destruct (result _) as [s|e]; [|discriminate]. intros [= <-]. apply capped_take.
Qed.

End Counts.

(** C9. Every [FetchResult] returned by the three OPTIMADE tools and by the
    MOFdb server's [fetch_mofs] has [n_found] equal to the length of its
    [cleaned_structures], and that length is at most the cap: 100 for the
    OPTIMADE tools, 30 for [fetch_mofs]. *)
Theorem returned_count_is_the_capped_length
    `{lib : PyLib} `{utils : Optimade.Utils} (w : world) :
  (forall filter as_format n_results providers r,
     result (Optimade.fetch_structures_with_filter w filter as_format n_results
               providers) = Returned r ->
     Optimade.n_found r = Z.of_nat (length (Optimade.cleaned_structures r))
     /\ (length (Optimade.cleaned_structures r) <= 100)%nat)
  /\
  (forall base_filter spg_number as_format n_results providers r,
     result (Optimade.fetch_structures_with_spg w base_filter spg_number as_format
               n_results providers) = Returned r ->
     Optimade.n_found r = Z.of_nat (length (Optimade.cleaned_structures r))
     /\ (length (Optimade.cleaned_structures r) <= 100)%nat)
  /\
  (forall base_filter min_bg max_bg as_format n_results providers r,
     result (Optimade.fetch_structures_with_bandgap w base_filter min_bg max_bg
               as_format n_results providers) = Returned r ->
     Optimade.n_found r = Z.of_nat (length (Optimade.cleaned_structures r))
     /\ (length (Optimade.cleaned_structures r) <= 100)%nat)
  /\
  (forall (a : MofdbCommon.args) r,
     result (MofdbServer.fetch_mofs w a) = Returned r ->
     MofdbCommon.n_found r = Z.of_nat (length (MofdbCommon.cleaned_structures r))
     /\ (length (MofdbCommon.cleaned_structures r) <= 30)%nat).
Proof.
  repeat split_and.
  - intros filter as_format n_results providers r Hr.
    exact (raw_result_capped w _ _ _ _ r Hr).
  - intros base_filter spg_number as_format n_results providers r Hr.
    exact (spg_result_capped w _ _ _ _ _ r Hr).
  - intros base_filter min_bg max_bg as_format n_results providers r Hr.
    exact (bandgap_result_capped w _ _ _ _ _ _ r Hr).
  - intros a r. rewrite mofdb_server_run, result_pair. intros [= <-].
    cbn [MofdbCommon.n_found MofdbCommon.cleaned_structures].
    split; [reflexivity | apply firstn_le_length].
Qed.

(** * The properties at concrete requests *)

Section AtSamples.
Import Sample.




(** C3 at two Bohrium records and two MOF records. *)
Lemma cleaned_records_at_samples :
  (exists cleaned,
     result (Bohrium.save_structures_bohriumcrystal up
               (VDict <$> [crystal_1; crystal_2]) (PathOf "out") ["json"; "cif"])
     = Returned cleaned
     /\ length cleaned = 2%nat
     /\ exists c, cleaned !! 0%nat = Some c
                 /\ c !! "cif_file" = None /\ c !! "come_from" = None
                 /\ c !! "formula" = Some (VStr "NaCl"))
  /\ (exists cleaned,
        result (MofdbUtils.save_mofs [mof_1; mof_2] (PathOf "out") ["json"; "cif"])
        = Returned cleaned
        /\ length cleaned = 2%nat
        /\ exists c, cleaned !! 0%nat = Some c
                    /\ c !! "cif" = None /\ c !! "name" = Some (VStr "tobmof-27")).
Proof.
  destruct (cleaned_records_drop_the_fixed_keys up) as [HB HM]. split.
  - destruct (HB [crystal_1; crystal_2] (PathOf "out") ["json"; "cif"])
      as (cleaned & Hres & Hlen & Hith).
    exists cleaned. split; [exact Hres|]. split; [exact Hlen|].
    destruct (Hith 0%nat crystal_1 eq_refl) as (c & Hc & Hk).
    exists c. split; [exact Hc|]. rewrite !Hk. by repeat split.
  - destruct (HM [mof_1; mof_2] (PathOf "out") ["json"; "cif"])
      as (cleaned & Hres & Hlen & Hith).
    exists cleaned. split; [exact Hres|]. split; [exact Hlen|].
    destruct (Hith 0%nat mof_1 eq_refl) as (c & Hc & Hk).
    exists c. split; [exact Hc|]. rewrite !Hk. by repeat split.
Defined.





(** C9 at requests that return structures. *)
Lemma counts_at_samples :
  (exists r,
     result (Optimade.fetch_structures_with_filter up (Some "nelements=3") "cif" 2
               (Some ["mp"])) = Returned r
     /\ Optimade.n_found r = Z.of_nat (length (Optimade.cleaned_structures r))
     /\ (length (Optimade.cleaned_structures r) <= 100)%nat
     /\ length (Optimade.cleaned_structures r) = 1%nat)
  /\ (exists r,
        result (Optimade.fetch_structures_with_spg up None 221 "cif" 3 None) = Returned r
        /\ Optimade.n_found r = Z.of_nat (length (Optimade.cleaned_structures r))
        /\ (length (Optimade.cleaned_structures r) <= 100)%nat
        /\ length (Optimade.cleaned_structures r) = 1%nat)
  /\ (exists r,
        result (Optimade.fetch_structures_with_bandgap up None (Some 1%float) None "json"
                  2 None) = Returned r
        /\ Optimade.n_found r = Z.of_nat (length (Optimade.cleaned_structures r))
        /\ (length (Optimade.cleaned_structures r) <= 100)%nat
        /\ length (Optimade.cleaned_structures r) = 1%nat)
  /\ (exists r,
        result (MofdbServer.fetch_mofs up mof_request) = Returned r
        /\ MofdbCommon.n_found r = Z.of_nat (length (MofdbCommon.cleaned_structures r))
        /\ (length (MofdbCommon.cleaned_structures r) <= 30)%nat
        /\ length (MofdbCommon.cleaned_structures r) = 2%nat).
Proof.
  destruct (returned_count_is_the_capped_length up) as (Hraw & Hspg & Hbg & Hmof).
  repeat split_and.
  - destruct (result (Optimade.fetch_structures_with_filter up (Some "nelements=3")
                        "cif" 2 (Some ["mp"]))) as [r|e] eqn:Hr;
      [|vm_compute in Hr; discriminate Hr].
    exists r. split; [reflexivity|].
    destruct (Hraw _ _ _ _ r Hr) as [Hn Hle]. split; [exact Hn|]. split; [exact Hle|].
    vm_compute in Hr. injection Hr as <-. reflexivity.
  - destruct (result (Optimade.fetch_structures_with_spg up None 221 "cif" 3 None))
      as [r|e] eqn:Hr; [|vm_compute in Hr; discriminate Hr].
    exists r. split; [reflexivity|].
    destruct (Hspg _ _ _ _ _ r Hr) as [Hn Hle]. split; [exact Hn|]. split; [exact Hle|].
    vm_compute in Hr. injection Hr as <-. reflexivity.
  - destruct (result (Optimade.fetch_structures_with_bandgap up None (Some 1%float) None
                        "json" 2 None)) as [r|e] eqn:Hr;
      [|vm_compute in Hr; discriminate Hr].
    exists r. split; [reflexivity|].
    destruct (Hbg _ _ _ _ _ _ r Hr) as [Hn Hle]. split; [exact Hn|]. split; [exact Hle|].
    vm_compute in Hr. injection Hr as <-. reflexivity.
  - destruct (result (MofdbServer.fetch_mofs up mof_request)) as [r|e] eqn:Hr;
      [|vm_compute in Hr; discriminate Hr].
    exists r. split; [reflexivity|].
    destruct (Hmof _ r Hr) as [Hn Hle]. split; [exact Hn|]. split; [exact Hle|].
    vm_compute in Hr. injection Hr as <-. reflexivity.
Defined.


End AtSamples.

(** * Further properties: strings and names *)

Lemma str_all_lstrip_by (p q : ascii -> bool) (s : string) :
  str_all p s = true -> str_all p (lstrip_by q s) = true.
Proof.
  induction s as [|c s IH]; [done|]. cbn.
  intros [Hc Hs]%andb_prop. destruct (q c); [by apply IH|]. cbn. by rewrite Hc, Hs.
Qed.

Lemma str_all_rstrip_by (p q : ascii -> bool) (s : string) :
  str_all p s = true -> str_all p (rstrip_by q s) = true.
Proof.
  induction s as [|c s IH]; [done|]. cbn.
  intros [Hc Hs]%andb_prop. specialize (IH Hs).
  destruct (rstrip_by q s) as [|c' r].
  - destruct (q c); [done|]. cbn. by rewrite Hc.
  - change (str_all p (String c (String c' r))) with (p c && str_all p (String c' r)).
    by rewrite Hc, IH.
Qed.

Lemma str_all_take (p : ascii -> bool) (n : nat) (s : string) :
  str_all p s = true -> str_all p (str_take n s) = true.
Proof.
  revert s. induction n as [|n IH]; intros [|c s]; try done. cbn.
  intros [Hc Hs]%andb_prop. by rewrite Hc, IH.
Qed.

Lemma length_str_take (n : nat) (s : string) :
  (String.length (str_take n s) <= n)%nat.
Proof.
  revert s. induction n as [|n IH]; intros [|c s]; cbn; try lia.
  specialize (IH s). lia.
Qed.

Lemma length_str_append (s t : string) :
  String.length (s +:+ t) = (String.length s + String.length t)%nat.
Proof.
  induction s as [|c s IH]; [reflexivity|].
  change (String c s +:+ t) with (String c (s +:+ t)). cbn. by rewrite IH.
Qed.

(** [s[:n] or d] is not empty and no longer than the longer of [n] and [d]. *)
Lemma length_take_or (n : nat) (s d : string) :
  d <> "" ->
  (1 <= String.length (str_or (str_take n s) d) <= Nat.max n (String.length d))%nat.
Proof.
  intros Hd. unfold str_or. pose proof (length_str_take n s).
  destruct (String.eqb (str_take n s) "") eqn:He.
  - destruct d; [done|]. cbn. lia.
  - apply String.eqb_neq in He. destruct (str_take n s); [done|]. cbn in *. lia.
Qed.






(** ** [sorted] does not depend on the order of its input *)

Lemma str_lt_trans (x y z : string) :
  String.compare x y = Lt -> String.compare y z = Lt -> String.compare x z = Lt.
Proof.
  intros H1 H2. apply OrderedTypeEx.String_as_OT.cmp_lt.
  eapply OrderedTypeEx.String_as_OT.lt_trans;
    apply OrderedTypeEx.String_as_OT.cmp_lt; eassumption.
Qed.

Lemma str_le_trans : Transitive str_le.
Proof.
  intros x y z. unfold str_le, String.leb.
  destruct (String.compare x y) eqn:Hxy; [|
    destruct (String.compare y z) eqn:Hyz |]; try done.
  - apply String.compare_eq_iff in Hxy as ->. done.
  - apply String.compare_eq_iff in Hyz as ->. by rewrite Hxy.
  - by rewrite (str_lt_trans x y z).
Qed.

Lemma str_le_antisym : AntiSymm (=) str_le.
Proof. intros x y. apply String.leb_antisym. Qed.

Lemma insert_sorted_perm (x : string) (l : list string) :
  insert_sorted x l ≡ₚ x :: l.
Proof.
  induction l as [|y l IH]; [done|]. cbn.
  destruct (String.leb x y); [done|]. rewrite IH. apply Permutation_swap.
Qed.

Lemma sorted_perm (l : list string) : sorted l ≡ₚ l.
Proof.
  induction l as [|x l IH]; [done|].
  change (sorted (x :: l)) with (insert_sorted x (sorted l)).
  by rewrite insert_sorted_perm, IH.
Qed.

Lemma insert_sorted_Sorted (x : string) (l : list string) :
  Sorted.Sorted str_le l -> Sorted.Sorted str_le (insert_sorted x l).
Proof.
  induction 1 as [|y l Hl IH Hy]; cbn.
  - by repeat constructor.
  - destruct (String.leb x y) eqn:Hxy.
    + constructor; [by constructor|]. by constructor.
    + constructor; [exact IH|].
      assert (Hyx : str_le y x).
      { destruct (String.leb_total x y) as [H|H]; [congruence | exact H]. }
      destruct Hy as [|z l' Hz]; cbn; [by constructor|].
      destruct (String.leb x z); by constructor.
Qed.

Lemma sorted_Sorted (l : list string) : Sorted.Sorted str_le (sorted l).
Proof.
  induction l as [|x l IH]; [constructor|].
  change (sorted (x :: l)) with (insert_sorted x (sorted l)).
  by apply insert_sorted_Sorted.
Qed.

Lemma sorted_permutation (l1 l2 : list string) :
  l1 ≡ₚ l2 -> sorted l1 = sorted l2.
Proof.
  intros Hp.
  apply (@sorting.Sorted_unique string str_le str_le_trans str_le_antisym);
    try apply sorted_Sorted.
  by rewrite !sorted_perm.
Qed.

(** ** Splitting a name at its marks *)

Lemma chars_app (s t : string) : chars (s +:+ t) = chars s ++ chars t.
Proof.
  induction s as [|c s IH]; [reflexivity|].
  change (String c s +:+ t) with (String c (s +:+ t)). cbn. by rewrite IH.
Qed.

Lemma chars_inj (s t : string) : chars s = chars t -> s = t.
Proof.
  intros H. rewrite <- (string_of_list_ascii_of_string s),
    <- (string_of_list_ascii_of_string t). unfold chars in H. by rewrite H.
Qed.

(** A list is split in one way only at the last occurrence of [x], and at
    the first one. *)
Lemma split_at_last {A} (x : A) (l1 l2 r1 r2 : list A) :
  x ∉ r1 -> x ∉ r2 -> l1 ++ x :: r1 = l2 ++ x :: r2 -> l1 = l2 /\ r1 = r2.
Proof.
  revert l2. induction l1 as [|a l1 IH]; intros [|b l2] H1 H2 Heq; cbn in Heq.
  - by injection Heq as ->.
  - injection Heq as <- ->. destruct H1. apply elem_of_app. right. by left.
  - injection Heq as -> <-. destruct H2. apply elem_of_app. right. by left.
  - injection Heq as -> Heq. destruct (IH l2 H1 H2 Heq) as [-> ->]. done.
Qed.

Lemma split_at_first {A} (x : A) (l1 l2 r1 r2 : list A) :
  x ∉ l1 -> x ∉ l2 -> l1 ++ x :: r1 = l2 ++ x :: r2 -> l1 = l2 /\ r1 = r2.
Proof.
  revert l2. induction l1 as [|a l1 IH]; intros [|b l2] H1 H2 Heq; cbn in Heq.
  - by injection Heq as ->.
  - injection Heq as <- _. destruct H2. by left.
  - injection Heq as -> _. destruct H1. by left.
  - injection Heq as -> Heq.
    destruct (IH l2) as [-> ->]; try done.
    + intros Hin. apply H1. by right.
    + intros Hin. apply H2. by right.
Qed.

(** [str(n)] is made of decimal digits, and tells [n]. *)
Lemma digits_of_uint (d : Decimal.uint) :
  Forall (fun c => is_digit c = true) (chars (NilEmpty.string_of_uint d)).
Proof. induction d; cbn; constructor; done. Qed.

Lemma digits_of_nat (n : nat) :
  Forall (fun c => is_digit c = true) (chars (str_of_nat n)).
Proof.
  unfold str_of_nat, str_of_Z. destruct n as [|n]; [by repeat constructor|].
  change (Z.to_int (Z.of_nat (S n)))
    with (Decimal.Pos (Pos.to_uint (Pos.of_succ_nat n))).
  cbn [NilZero.string_of_int]. unfold NilZero.string_of_uint.
  destruct (Pos.to_uint (Pos.of_succ_nat n)); try apply digits_of_uint.
  by repeat constructor.
Qed.

Lemma str_of_nat_inj (i j : nat) : str_of_nat i = str_of_nat j -> i = j.
Proof.
  unfold str_of_nat, str_of_Z. intros H. apply Nat2Z.inj, DecimalZ.to_int_inj.
  assert (Hn : forall n : nat,
            NilZero.int_of_string (NilZero.string_of_int (Z.to_int (Z.of_nat n)))
            = Some (Z.to_int (Z.of_nat n))).
  { intros n. apply NilZero.isi.
    - destruct n; cbn; [discriminate|]. intros [= Hnil].
      by apply DecimalPos.Unsigned.to_uint_nonnil in Hnil.
    - destruct n; cbn; discriminate. }
  pose proof (Hn i) as Hi. rewrite H, Hn in Hi. by injection Hi.
Qed.

Lemma digit_is_no_mark (c : ascii) (l : list ascii) :
  Forall (fun c => is_digit c = true) l -> is_digit c = false -> c ∉ l.
Proof.
  intros Hl Hc Hin. rewrite Forall_forall in Hl.
  specialize (Hl c Hin). congruence.
Qed.

(** An effect of a concatenation of blocks is an effect of one block. *)
Lemma elem_of_concat_imap_inv {A B} (f : nat -> A -> list B) (l : list A) (y : B) :
  y ∈ concat (imap f l) -> exists i x, l !! i = Some x /\ y ∈ f i x.
Proof.
  revert f. induction l as [|x l IH]; intros f.
  - cbn. by intros ?%not_elem_of_nil.
  - rewrite imap_cons. cbn [concat]. intros [Hy|Hy]%elem_of_app.
    + by exists 0%nat, x.
    + destruct (IH _ Hy) as (i & x' & Hi & Hx'). by exists (S i), x'.
Qed.

Lemma logged_app lv (t1 t2 : list event) :
  logged lv (t1 ++ t2) = logged lv t1 ++ logged lv t2.
Proof. apply omap_app. Qed.

Lemma dict_get_non_dict (v : value) (k : string) (d : value) :
  is_dict v = false -> dict_get v k d = raise AttributeError.
Proof. by destruct v. Qed.

Lemma py_len_unsized (v : value) :
  is_sized v = false -> py_len v = raise TypeError_len.
Proof. by destruct v. Qed.

(** [len(v)] is the number of elements a loop over [v] goes through. *)
Lemma length_py_iter (v : value) (n : nat) :
  result (py_len v) = Returned n -> length (py_iter v) = n.
Proof.
  destruct v; cbn; try discriminate; intros [= <-].
  - rewrite length_fmap. induction s as [|c s IH]; [done|]. cbn. by rewrite IH.
  - reflexivity.
  - by rewrite length_fmap, length_map_to_list.
Qed.

(** No write to a file leaves it unwritten. *)
Lemma written_nothing (t : list event) (p : Path) :
  (forall q c, EvWrite q c ∈ t -> path_eqb q p = false) -> written t p = None.
Proof.
  induction t as [|ev t IH]; intros Hw; [reflexivity|]. cbn.
  rewrite IH by (intros q c Hq; apply (Hw q c); by right).
  destruct ev; try reflexivity.
  rewrite (Hw p0 c) by (by left). reflexivity.
Qed.

(** * Further properties: the Bohrium adapter *)

Section BohriumEdges.
Context `{lib : PyLib} (w : world).

Lemma bohrium_save_one_non_dict dir fmts i (v : value) :
  is_dict v = false ->
  Bohrium.save_one w dir fmts i v = raise AttributeError.
Proof.
  intros Hv. unfold Bohrium.save_one. by rewrite dict_get_non_dict.
Qed.

Lemma bohrium_save_loop_length dir fmts (items : list value) :
  forall i acc cleaned,
    result (Bohrium.save_loop w dir fmts i items acc) = Returned cleaned ->
    length cleaned = (length acc + length items)%nat.
Proof.
  induction items as [|v items IH]; intros i acc cleaned.
  - cbn. intros [= <-]. lia.
  - cbn [Bohrium.save_loop]. rewrite result_bind.
    destruct (result (Bohrium.save_one w dir fmts i v)) as [c|e]; [|discriminate].
    intros Hr. apply IH in Hr. rewrite Hr, length_app. cbn. lia.
Qed.

(** The loop stops at the first record that is no dict: the records before
    it are saved, the others are not looked at. *)
Lemma bohrium_save_loop_aborts dir fmts (pre : list (gmap string value)) bad rest :
  is_dict bad = false ->
  forall i acc,
    Bohrium.save_loop w dir fmts i ((VDict <$> pre) ++ bad :: rest) acc
    = (concat (imap (fun j d => trace (Bohrium.save_one w dir fmts (i + j) (VDict d))) pre),
       Raised AttributeError).
Proof.
  intros Hbad. induction pre as [|d pre IH]; intros i acc.
  - cbn [fmap list_fmap app Bohrium.save_loop imap concat].
    by rewrite bohrium_save_one_non_dict.
  - rewrite (io_eta (Bohrium.save_loop _ _ _ _ _ _)).
    cbn [fmap list_fmap app Bohrium.save_loop imap concat].
    change (list_fmap _ _ ?f ?l) with (f <$> l).
    f_equal; io_simpl; rewrite bohrium_save_one_result, IH; [|reflexivity].
    rewrite trace_pair, Nat.add_0_r. f_equal. f_equal.
    apply imap_ext. intros j x _. cbn. f_equal. f_equal. lia.
Qed.

(** X1. Every run of [fetch_bohrium_crystals] starts with one POST to
    [/api/v1/crystal/list] whose JSON payload has exactly seven entries:
    [material_type] ["5"], [keyword] the formula (the empty string when there
    is none), [positive_pole_key] the filters dict, [match_mode] the
    caller's value when a formula or elements are given and [0] otherwise,
    the fixed [sort_filed_info], [size] the requested number of results and
    [page] [1]. *)
Theorem bohrium_request_payload (a : Bohrium.args) :
  exists p tail,
    trace (Bohrium.fetch_bohrium_crystals w a)
    = EvHttpPost "https://db-core.dp.tech/api/v1/crystal/list" Bohrium.headers (VDict p)
      :: tail
    /\ p !! "material_type" = Some (VStr "5")
    /\ p !! "keyword" = Some (VStr (default "" (Bohrium.formula a)))
    /\ p !! "positive_pole_key" = Some (VDict (Bohrium.build_filters a))
    /\ p !! "match_mode"
       = Some (VInt (if bool_decide (nonempty_str (Bohrium.formula a) = None
                                     /\ nonempty_list (Bohrium.elements a) = None)
                     then 0 else Bohrium.match_mode a))
    /\ p !! "sort_filed_info"
       = Some (VDict (<["sort_filed" := VStr "crystal_ext.predicted_formation_energy"]>
                        (<["sort_type" := VInt 1]> ∅)))
    /\ p !! "size" = Some (VInt (Bohrium.n_results a))
    /\ p !! "page" = Some (VInt 1)
    /\ size p = 7%nat.
Proof.
  destruct (bohrium_tool_trace w a) as (tail & Ht & _).
  eexists. exists tail. split; [exact Ht|].
  split_and!; try (by simplify_map_eq).
  rewrite lookup_insert_ne by done. rewrite lookup_insert_ne by done.
  rewrite lookup_insert_ne by done. rewrite lookup_insert_eq. do 2 f_equal.
  destruct (nonempty_str _), (nonempty_list _); reflexivity.
Qed.

(** X2. The filters dict sent to Bohrium holds an entry for each of the
    five filter arguments that is given and not empty, under the keys
    [elements], [space_symbol], [atomCountRange],
    [predicted_formation_energy_range] and [band_gap_range], with the
    argument as its value; an argument that is [None], [""] or [[]] leaves no
    entry, and the dict has no other key. *)
Theorem bohrium_filters_hold_the_nonempty_arguments (a : Bohrium.args) :
  let f := Bohrium.build_filters a in
  f !! "elements" = of_str_list <$> nonempty_list (Bohrium.elements a)
  /\ f !! "space_symbol" = VStr <$> nonempty_str (Bohrium.space_symbol a)
  /\ f !! "atomCountRange" = of_str_list <$> nonempty_list (Bohrium.atom_count_range a)
  /\ f !! "predicted_formation_energy_range"
     = of_str_list <$> nonempty_list (Bohrium.predicted_formation_energy_range a)
  /\ f !! "band_gap_range" = of_str_list <$> nonempty_list (Bohrium.band_gap_range a)
  /\ (forall k, k ∉ ["elements"; "space_symbol"; "atomCountRange";
                     "predicted_formation_energy_range"; "band_gap_range"] ->
                f !! k = None).
Proof.
  intros f. unfold f, Bohrium.build_filters, Bohrium.set_if.
  split_and!.
  1-5: destruct (nonempty_list (Bohrium.elements a)),
         (nonempty_str (Bohrium.space_symbol a)),
         (nonempty_list (Bohrium.atom_count_range a)),
         (nonempty_list (Bohrium.predicted_formation_energy_range a)),
         (nonempty_list (Bohrium.band_gap_range a)); by simplify_map_eq.
  intros k Hk.
  assert (k <> "elements" /\ k <> "space_symbol" /\ k <> "atomCountRange"
          /\ k <> "predicted_formation_energy_range" /\ k <> "band_gap_range")
    as (? & ? & ? & ? & ?).
  { split_and!; intros ->; apply Hk; set_solver. }
  destruct (nonempty_list (Bohrium.elements a)),
    (nonempty_str (Bohrium.space_symbol a)),
    (nonempty_list (Bohrium.atom_count_range a)),
    (nonempty_list (Bohrium.predicted_formation_energy_range a)),
    (nonempty_list (Bohrium.band_gap_range a)); by simplify_map_eq.
Qed.

(** X3. Reading the items out of the answer is outside the [try] of
    [fetch_bohrium_crystals]: when the decoded answer is not a dict, when
    its [data] entry is there and not a dict, or when the inner [data] entry
    has no length, the tool raises ([AttributeError], [TypeError]) instead
    of returning the zero-result default, having done nothing but the POST:
    no log line, no folder, no file. *)
Theorem bohrium_malformed_response_is_not_handled (a : Bohrium.args) :
  let url := Bohrium.DB_CORE_HOST +:+ "/api/v1/crystal/list" in
  let post := EvHttpPost url Bohrium.headers (Bohrium.payload a) in
  (forall data,
     post_answer w url Bohrium.headers (Bohrium.payload a) = inl data ->
     is_dict data = false ->
     Bohrium.fetch_bohrium_crystals w a = ([post], Raised AttributeError))
  /\ (forall dd inner,
        post_answer w url Bohrium.headers (Bohrium.payload a) = inl (VDict dd) ->
        dd !! "data" = Some inner ->
        is_dict inner = false ->
        Bohrium.fetch_bohrium_crystals w a = ([post], Raised AttributeError))
  /\ (forall dd inner items,
        post_answer w url Bohrium.headers (Bohrium.payload a) = inl (VDict dd) ->
        dd !! "data" = Some (VDict inner) ->
        inner !! "data" = Some items ->
        is_sized items = false ->
        Bohrium.fetch_bohrium_crystals w a = ([post], Raised TypeError_len)).
Proof.
  intros url post. split_and!.
  - intros data Hans Hd.
    rewrite (io_eta (Bohrium.fetch_bohrium_crystals w a)).
    unfold Bohrium.fetch_bohrium_crystals, requests_post. fold url. rewrite Hans.
    f_equal; io_simpl; cbn [answered]; io_simpl;
      rewrite (dict_get_non_dict data) by done; io_simpl; reflexivity.
  - intros dd inner Hans Hdd Hi.
    rewrite (io_eta (Bohrium.fetch_bohrium_crystals w a)).
    unfold Bohrium.fetch_bohrium_crystals, requests_post. fold url. rewrite Hans.
    f_equal; io_simpl; cbn [answered]; io_simpl;
      rewrite dict_get_dict, Hdd; io_simpl;
      change (default (VDict ∅) (Some inner)) with inner;
      rewrite (dict_get_non_dict inner) by done; io_simpl; reflexivity.
  - intros dd inner items Hans Hdd Hin Hs.
    rewrite (io_eta (Bohrium.fetch_bohrium_crystals w a)).
    unfold Bohrium.fetch_bohrium_crystals, requests_post. fold url. rewrite Hans.
    f_equal; io_simpl; cbn [answered]; io_simpl;
      rewrite dict_get_dict, Hdd; io_simpl;
      change (default (VDict ∅) (Some (VDict inner))) with (VDict inner);
      rewrite dict_get_dict, Hin; io_simpl;
      change (default (VList []) (Some items)) with items;
      rewrite (py_len_unsized items) by done; io_simpl; reflexivity.
Qed.

(** What a file of a record is called is not the name of the manifest. *)
Lemma record_file_is_not_the_manifest (sid : value) (j : nat) (ext : string) :
  String.eqb (Bohrium.record_name sid j +:+ ext) "summary.json" = false.
Proof. reflexivity. Qed.

(** The files of a record: [{name}.json] and [{name}.cif] in the output
    directory. *)
Lemma bohrium_written_file dir fmts i (d : gmap string value) p c :
  EvWrite p c ∈ trace (Bohrium.save_one w dir fmts i (VDict d)) ->
  exists ext,
    (ext = ".json" \/ ext = ".cif")
    /\ p = PathDiv dir
             (Bohrium.record_name (default (VStr ("idx" +:+ str_of_nat i)) (d !! "id")) i
              +:+ ext).
Proof.
  rewrite bohrium_save_one_trace. intros Hq.
  apply elem_of_app in Hq as [Hq|Hq].
  - destruct (str_in "json" fmts); [|by apply not_elem_of_nil in Hq].
    apply list_elem_of_singleton in Hq as [= -> _]. exists ".json". split; [by left | done].
  - destruct (str_in "cif" fmts); [|by apply not_elem_of_nil in Hq].
    exists ".cif". split; [by right|].
    destruct (truthy _).
    + apply elem_of_cons in Hq as [Hq|Hq]; [discriminate Hq|].
      destruct (get_answer w _).
      * apply elem_of_cons in Hq as [[= -> _]|Hq]; [done|].
        apply list_elem_of_singleton in Hq. discriminate Hq.
      * apply list_elem_of_singleton in Hq. discriminate Hq.
    + apply list_elem_of_singleton in Hq. discriminate Hq.
Qed.

Lemma bohrium_save_one_leaves_the_manifest dir fmts j (d : gmap string value) q c :
  EvWrite q c ∈ trace (Bohrium.save_one w dir fmts j (VDict d)) ->
  path_eqb q (PathDiv dir "summary.json") = false.
Proof.
  intros (ext & _ & ->)%bohrium_written_file.
  cbn [path_eqb]. rewrite record_file_is_not_the_manifest. apply andb_false_r.
Qed.

(** The name of a file tells the index of its record and its format. *)
Lemma record_files_differ (sid1 sid2 : value) (i j : nat) (ext1 ext2 : string) :
  (ext1 = ".json" \/ ext1 = ".cif") ->
  (ext2 = ".json" \/ ext2 = ".cif") ->
  Bohrium.record_name sid1 i +:+ ext1 = Bohrium.record_name sid2 j +:+ ext2 ->
  i = j /\ ext1 = ext2.
Proof.
  intros He1 He2 Heq. apply (f_equal chars) in Heq.
  unfold Bohrium.record_name in Heq. rewrite !chars_app in Heq.
  change (chars "_") with ["_"%char] in Heq.
  rewrite <- !app_assoc in Heq. cbn [app] in Heq.
  rewrite !(app_assoc (chars "bohriumcrystal_")) in Heq.
  assert (Hu : forall n ext, (ext = ".json" \/ ext = ".cif") ->
                 "_"%char ∉ chars (str_of_nat n) ++ chars ext).
  { intros n ext Hx Hin. apply elem_of_app in Hin as [Hin|Hin].
    - by apply (digit_is_no_mark "_" _ (digits_of_nat n)).
    - destruct Hx as [-> | ->]; cbn in Hin; set_solver. }
  apply split_at_last in Heq as [_ Heq]; [|by apply Hu..].
  assert (Hx : forall ext, (ext = ".json" \/ ext = ".cif") ->
                 exists rest, chars ext = "."%char :: rest
                              /\ ext = String "." (string_of_list_ascii rest)).
  { intros ext [-> | ->]; eexists; split; reflexivity. }
  destruct (Hx ext1 He1) as (r1 & Hr1 & ->). destruct (Hx ext2 He2) as (r2 & Hr2 & ->).
  rewrite Hr1, Hr2 in Heq.
  apply split_at_first in Heq as [Hd ->].
  - split; [|reflexivity]. by apply str_of_nat_inj, chars_inj.
  - by apply (digit_is_no_mark "." _ (digits_of_nat i)).
  - by apply (digit_is_no_mark "." _ (digits_of_nat j)).
Qed.

(** X4. When the item list holds a record that is not a dict, the run
    raises [AttributeError] at that record: the output folder has been
    created and the records before it have been saved, the records after it
    are not looked at, and no [summary.json] is written. *)
Theorem bohrium_record_that_is_no_dict_aborts_the_run (a : Bohrium.args)
    (dd inner : gmap string value) (pre : list (gmap string value))
    (bad : value) (rest : list value) :
  let url := Bohrium.DB_CORE_HOST +:+ "/api/v1/crystal/list" in
  let out := PathDiv Bohrium.BASE_OUTPUT_DIR (Bohrium.folder_name a (now_stamp w)) in
  let run := Bohrium.fetch_bohrium_crystals w a in
  post_answer w url Bohrium.headers (Bohrium.payload a) = inl (VDict dd) ->
  dd !! "data" = Some (VDict inner) ->
  inner !! "data" = Some (VList ((VDict <$> pre) ++ bad :: rest)) ->
  is_dict bad = false ->
  run
  = (EvHttpPost url Bohrium.headers (Bohrium.payload a)
       :: EvMkdir out
       :: concat (imap (fun j d =>
                          trace (Bohrium.save_one w out (Bohrium.output_formats a) j
                                   (VDict d))) pre),
     Raised AttributeError)
  /\ written (trace run) (PathDiv out "summary.json") = None.
Proof.
  intros url out run Hans Hdd Hinner Hbad.
  assert (Hrun : run
                 = (EvHttpPost url Bohrium.headers (Bohrium.payload a)
                      :: EvMkdir out
                      :: concat (imap (fun j d =>
                                         trace (Bohrium.save_one w out
                                                  (Bohrium.output_formats a) j (VDict d)))
                                   pre),
                    Raised AttributeError)).
  { unfold run. rewrite (io_eta (Bohrium.fetch_bohrium_crystals w a)).
    unfold Bohrium.fetch_bohrium_crystals, requests_post. fold url. rewrite Hans.
    assert (Hn : Nat.eqb (length ((VDict <$> pre) ++ bad :: rest)) 0 = false).
    { rewrite length_app. cbn. apply Nat.eqb_neq. lia. }
    f_equal; io_simpl; cbn [answered]; io_simpl;
      rewrite dict_get_dict, Hdd; io_simpl;
      change (default (VDict ∅) (Some (VDict inner))) with (VDict inner);
      rewrite dict_get_dict, Hinner; io_simpl;
      change (default (VList []) (Some ?v)) with v;
      rewrite py_len_list; io_simpl; rewrite Hn;
      unfold Bohrium.save_and_report; fold out; io_simpl; cbn [py_iter];
      unfold Bohrium.save_structures_bohriumcrystal;
      rewrite (bohrium_save_loop_aborts _ _ _ _ _ Hbad);
      rewrite ?trace_pair, ?result_pair; io_simpl; rewrite ?app_nil_r; reflexivity. }
  split; [exact Hrun|]. rewrite Hrun, trace_pair.
  apply written_nothing. intros q c Hq.
  apply elem_of_cons in Hq as [Hq|Hq]; [discriminate Hq|].
  apply elem_of_cons in Hq as [Hq|Hq]; [discriminate Hq|].
  apply elem_of_concat_imap_inv in Hq as (j & d & _ & Hq).
  exact (bohrium_save_one_leaves_the_manifest out (Bohrium.output_formats a) j d q c Hq).
Qed.

(** X5. Whatever the endpoint answers, a result that
    [fetch_bohrium_crystals] returns has [n_found] equal to the length of its
    [cleaned_structures]: the count is [len(items)] taken before the saving,
    the saving returns one cleaned record per item or raises, and the list
    is not cut. *)
Theorem bohrium_count_is_the_length_of_the_list (a : Bohrium.args)
    (r : Bohrium.FetchResult) :
  result (Bohrium.fetch_bohrium_crystals w a) = Returned r ->
  Bohrium.n_found r = Z.of_nat (length (Bohrium.cleaned_structures r)).
Proof.
  unfold Bohrium.fetch_bohrium_crystals, requests_post.
  rewrite result_bind, result_try_except. io_simpl.
  destruct (post_answer w _ _ _) as [data|msg]; cbn [answered is_Exception exn_cls];
    io_simpl; [|by intros [= <-]].
  destruct (result (dict_get data _ _)) as [inner|e]; [|discriminate].
  rewrite result_bind.
  destruct (result (dict_get inner _ _)) as [items|e]; [|discriminate].
  rewrite result_bind.
  destruct (result (py_len items)) as [n|e] eqn:Hn; [|discriminate].
  destruct (Nat.eqb n 0); io_simpl; [by intros [= <-]|].
  unfold Bohrium.save_and_report. io_simpl.
  destruct (result (Bohrium.save_structures_bohriumcrystal _ _ _ _)) as [cl|e] eqn:Hs;
    [|discriminate].
  io_simpl. intros [= <-]. cbn [Bohrium.n_found Bohrium.cleaned_structures].
  apply bohrium_save_loop_length in Hs. rewrite Hs. cbn [length]. f_equal.
  by rewrite (length_py_iter items n Hn).
Qed.

(** X6. When the download of a record's CIF fails ([requests.get] or
    [raise_for_status] raises), the failure is logged as one error naming the
    record, no CIF file is written for it (its only file is its JSON file,
    written when ["json"] is among the formats), and the loop body still
    returns the cleaned record. *)
Theorem bohrium_failed_download_is_logged_and_skipped
    (dir : Path) (fmts : list string) (i : nat) (d : gmap string value)
    (url : value) (msg : string) :
  let sid := default (VStr ("idx" +:+ str_of_nat i)) (d !! "id") in
  let name := "bohriumcrystal_" +:+ py_str sid +:+ "_" +:+ str_of_nat i in
  let own := Bohrium.save_one w dir fmts i (VDict d) in
  str_in "cif" fmts = true ->
  d !! "cif_file" = Some url ->
  truthy url = true ->
  get_answer w (py_str url) = inr msg ->
  result own = Returned (pop_all Bohrium.CRYSTAL_DROP_ATTRS d)
  /\ logged ERROR (trace own)
     = ["Failed to download CIF for " +:+ py_str sid +:+ ": " +:+ msg]
  /\ EvHttpGet (py_str url) ∈ trace own
  /\ (forall p c, EvWrite p c ∈ trace own ->
        str_in "json" fmts = true
        /\ p = PathDiv dir (name +:+ ".json") /\ c = JsonOf (VDict d)).
Proof.
  intros sid name own Hc Hurl Ht Hget. unfold own.
  rewrite bohrium_save_one_result, bohrium_save_one_trace.
  fold sid. change (Bohrium.record_name sid i) with name.
  rewrite Hc, Hurl. change (default VNone (Some url)) with url. rewrite Ht, Hget.
  split; [reflexivity|].
  destruct (str_in "json" fmts); cbn [app]; split_and!; try reflexivity.
  - set_solver.
  - intros p c Hp. set_solver.
  - set_solver.
  - intros p c Hp. set_solver.
Qed.

(** X7. The saving of Bohrium records requests nothing but the CIF files
    of the records: every GET goes to the URL under [cif_file] of one of the
    records, and only when ["cif"] is among the formats. *)
Theorem bohrium_downloads_only_the_cif_urls_of_the_records
    (items : list (gmap string value)) (dir : Path) (fmts : list string) (u : string) :
  EvHttpGet u ∈ trace (Bohrium.save_structures_bohriumcrystal w (VDict <$> items) dir fmts) ->
  str_in "cif" fmts = true
  /\ exists i d url,
       items !! i = Some d
       /\ d !! "cif_file" = Some url
       /\ truthy url = true
       /\ u = py_str url.
Proof.
  rewrite bohrium_run_trace. intros Hu.
  apply elem_of_concat_imap_inv in Hu as (i & d & Hi & Hu).
  rewrite bohrium_save_one_trace in Hu.
  apply elem_of_app in Hu as [Hu|Hu].
  { destruct (str_in "json" fmts); [|by apply not_elem_of_nil in Hu].
    apply list_elem_of_singleton in Hu. discriminate Hu. }
  destruct (str_in "cif" fmts); [|by apply not_elem_of_nil in Hu].
  split; [reflexivity|].
  destruct (d !! "cif_file") as [url|] eqn:Hurl.
  2: { apply list_elem_of_singleton in Hu. discriminate Hu. }
  change (default VNone (Some url)) with url in Hu.
  destruct (truthy url) eqn:Ht.
  2: { apply list_elem_of_singleton in Hu. discriminate Hu. }
  exists i, d, url. split_and!; try done.
  apply elem_of_cons in Hu as [[= ->]|Hu]; [reflexivity|].
  destruct (get_answer w (py_str url));
    repeat (apply elem_of_cons in Hu as [Hu|Hu]; [discriminate Hu|]);
    by apply not_elem_of_nil in Hu.
Qed.

(** X8. Two records of one run never share a file: a file written for
    the record at index [i] and a file written for the record at another
    index have different paths, whatever the records hold under [id], so
    that no record overwrites the files of another. *)
Theorem bohrium_records_do_not_share_files (dir : Path) (fmts : list string)
    (i j : nat) (d1 d2 : gmap string value) (p1 p2 : Path) (c1 c2 : content) :
  i <> j ->
  EvWrite p1 c1 ∈ trace (Bohrium.save_one w dir fmts i (VDict d1)) ->
  EvWrite p2 c2 ∈ trace (Bohrium.save_one w dir fmts j (VDict d2)) ->
  p1 <> p2.
Proof.
  intros Hij (ext1 & He1 & Hp1)%bohrium_written_file
    (ext2 & He2 & Hp2)%bohrium_written_file Hp.
  assert (Heq : Bohrium.record_name
                  (default (VStr ("idx" +:+ str_of_nat i)) (d1 !! "id")) i +:+ ext1
                = Bohrium.record_name
                    (default (VStr ("idx" +:+ str_of_nat j)) (d2 !! "id")) j +:+ ext2)
    by congruence.
  by destruct (record_files_differ _ _ i j ext1 ext2 He1 He2 Heq).
Qed.

End BohriumEdges.

(** X9. The tag of a Bohrium request does not depend on the order in which
    the elements are listed: [tag_from_filters] sorts them before joining. *)
Theorem bohrium_tag_ignores_the_order_of_elements
    (formula : option string) (els1 els2 : list string) (space_symbol : option string)
    (atoms energy gap : option (list string)) (max_len : nat) :
  els1 ≡ₚ els2 ->
  Bohrium.tag_from_filters formula (Some els1) space_symbol atoms energy gap max_len
  = Bohrium.tag_from_filters formula (Some els2) space_symbol atoms energy gap max_len.
Proof.
  intros Hp. unfold Bohrium.tag_from_filters.
  destruct els1 as [|x1 l1], els2 as [|x2 l2].
  - reflexivity.
  - by apply Permutation_nil_cons in Hp.
  - symmetry in Hp. by apply Permutation_nil_cons in Hp.
  - cbn [nonempty_list part_if]. by rewrite (sorted_permutation _ _ Hp).
Qed.

(** * Further properties: what the two savers share *)

(** X10. Dropping the keys of a set from a record does not depend on the
    order in which the set is gone through, nor on repetitions: two lists
    with the same elements give the same cleaned record. Cleaning a cleaned
    record changes nothing, the cleaned record is a part of the record, and
    none of the dropped keys is left in it. *)
Theorem pop_all_is_set_difference (keys1 keys2 : list string) (d : gmap string value) :
  (forall k, k ∈ keys1 <-> k ∈ keys2) ->
  pop_all keys1 d = pop_all keys2 d
  /\ pop_all keys1 (pop_all keys2 d) = pop_all keys1 d
  /\ pop_all keys1 d ⊆ d
  /\ (forall k, k ∈ keys1 -> pop_all keys1 d !! k = None).
Proof.
  intros Hk. split_and!.
  - apply map_eq. intros k. rewrite !pop_all_lookup.
    apply (f_equal (fun b : bool => if b then None else d !! k)).
    apply bool_decide_ext, Hk.
  - apply map_eq. intros k. rewrite !pop_all_lookup.
    rewrite (bool_decide_ext (k ∈ keys2) (k ∈ keys1)) by (symmetry; apply Hk).
    by destruct (bool_decide (k ∈ keys1)).
  - apply map_subseteq_spec. intros k v. rewrite pop_all_lookup.
    by destruct (bool_decide (k ∈ keys1)).
  - intros k Hin. rewrite pop_all_lookup. by rewrite bool_decide_eq_true_2.
Qed.

(** X11. With neither ["json"] nor ["cif"] among the output formats (the
    empty list, or names in another spelling), the savers write no file and
    send no request: [save_structures_bohriumcrystal] has no effect at all,
    [save_mofs] only creates the folder. Both still return every cleaned
    record. *)
Theorem no_requested_format_saves_nothing `{lib : PyLib} (w : world)
    (items : list (gmap string value)) (dir : Path) (fmts : list string) :
  str_in "json" fmts = false ->
  str_in "cif" fmts = false ->
  Bohrium.save_structures_bohriumcrystal w (VDict <$> items) dir fmts
  = ([], Returned (pop_all Bohrium.CRYSTAL_DROP_ATTRS <$> items))
  /\ MofdbUtils.save_mofs items dir fmts
     = ([EvMkdir dir], Returned (pop_all MofdbUtils.MOFDB_DROP_ATTRS <$> items)).
Proof.
  intros Hj Hc. split.
  - rewrite (io_eta (Bohrium.save_structures_bohriumcrystal _ _ _ _)).
    rewrite bohrium_run_trace. unfold Bohrium.save_structures_bohriumcrystal.
    rewrite bohrium_save_loop_result. f_equal.
    induction items as [|d items IH] using rev_ind; [reflexivity|].
    rewrite imap_app, concat_app, IH. cbn [imap concat app].
    rewrite bohrium_save_one_trace, Hj, Hc. reflexivity.
  - rewrite (io_eta (MofdbUtils.save_mofs _ _ _)).
    rewrite save_mofs_trace, save_mofs_result. f_equal. f_equal.
    induction items as [|d items IH] using rev_ind; [reflexivity|].
    rewrite imap_app, concat_app, IH. cbn [imap concat app].
    rewrite mofdb_save_one_trace, Hj, Hc. reflexivity.
Qed.

(** X12. The tag of a request is never empty and is at most 60 characters
    long for Bohrium and 40 for MOFdb, whatever the filters hold; the folder
    name [{tag}_{ts}_{hash}] is at most 70 (resp. 50) characters longer than
    the time stamp. *)
Theorem folder_names_are_short `{lib : PyLib} (ts : string) :
  (forall a : Bohrium.args,
     (1 <= String.length (Bohrium.request_tag a) <= 60)%nat
     /\ (String.length (Bohrium.folder_name a ts) <= 70 + String.length ts)%nat)
  /\ (forall a : MofdbCommon.args,
        (1 <= String.length (MofdbCommon.request_tag a) <= 40)%nat
        /\ (String.length (MofdbCommon.folder_name a ts) <= 50 + String.length ts)%nat).
Proof.
  split; intros a.
  - assert (Ht : (1 <= String.length (Bohrium.request_tag a) <= 60)%nat).
    { unfold Bohrium.request_tag, Bohrium.tag_from_filters.
      apply (length_take_or 60 _ "bohriumcrystal"). done. }
    split; [exact Ht|]. unfold Bohrium.folder_name.
    rewrite !length_str_append.
    pose proof (length_str_take 8 (sha1_hexdigest (Bohrium.filter_str a))).
    cbn [String.length]. lia.
  - assert (Ht : (1 <= String.length (MofdbCommon.request_tag a) <= 40)%nat).
    { unfold MofdbCommon.request_tag, MofdbUtils.tag_from_filters.
      apply (length_take_or 40 _ "mofdb"). done. }
    split; [exact Ht|]. unfold MofdbCommon.folder_name.
    rewrite !length_str_append.
    pose proof (length_str_take 8 (sha1_hexdigest (MofdbCommon.filter_str a))).
    cbn [String.length]. lia.
Qed.

(** * Further properties: the MOFdb adapter *)

Section SafeNames.
Context `{lib : PyLib}.
Import MofdbUtils.

Lemma sub_unsafe_safe (s : string) : str_all is_safe_char (sub_unsafe s) = true.
Proof.
  induction s as [|c s IH]; [reflexivity|]. cbn [sub_unsafe str_all].
  rewrite IH, andb_true_r. destruct (is_safe_char c) eqn:Hc; [exact Hc | reflexivity].
Qed.

Lemma collapse_underscores_all (p : ascii -> bool) (s : string) :
  str_all p s = true -> str_all p (collapse_underscores s) = true.
Proof.
  induction s as [|c s IH]; [done|].
  intros [Hc Hs]%andb_prop. specialize (IH Hs).
  cbn [collapse_underscores]. destruct s as [|c' s']; [cbn; by rewrite Hc|].
  destruct (Ascii.eqb c "_" && Ascii.eqb c' "_"); [exact IH|].
  change (str_all p (String c ?r)) with (p c && str_all p r). by rewrite Hc, IH.
Qed.

(** The text [_safe_basename] cuts to length: sanitised, collapsed and
    stripped of underscores. *)
Lemma safe_basename_text_is_safe (text : string) :
  str_all is_safe_char (strip_by (Ascii.eqb "_") (collapse_underscores (sub_unsafe text)))
  = true.
Proof.
  unfold strip_by. apply str_all_lstrip_by, str_all_rstrip_by,
    collapse_underscores_all, sub_unsafe_safe.
Qed.

Lemma safe_basename_chars (text : value) (max_len : nat) :
  str_all is_safe_char (_safe_basename text max_len) = true.
Proof.
  unfold _safe_basename, str_or.
  destruct (String.eqb (str_take max_len _) ""); [reflexivity|].
  apply str_all_take, safe_basename_text_is_safe.
Qed.

Lemma safe_basename_length (text : value) (max_len : nat) :
  (1 <= String.length (_safe_basename text max_len) <= Nat.max max_len 3)%nat.
Proof.
  unfold _safe_basename. apply (length_take_or max_len _ "mof"). done.
Qed.


(** X14. Every file that [save_mofs] writes is directly in the output
    directory, named [{stem}.json] or [{stem}.cif] after the stem of one of
    the records, and only for a format that was asked for; the stem is made
    of the characters [A-Za-z0-9._-] only and has between 1 and 80
    characters, whatever the record holds. *)
Theorem mofdb_files_have_safe_names (items : list (gmap string value))
    (dir : Path) (fmts : list string) (p : Path) (c : content) :
  EvWrite p c ∈ trace (save_mofs items dir fmts) ->
  exists i mof ext,
    items !! i = Some mof
    /\ p = PathDiv dir (stem_of mof i +:+ ext)
    /\ (ext = ".json" /\ str_in "json" fmts = true
        \/ ext = ".cif" /\ str_in "cif" fmts = true)
    /\ str_all is_safe_char (stem_of mof i) = true
    /\ (1 <= String.length (stem_of mof i) <= 80)%nat.
Proof.
  rewrite save_mofs_trace. intros [Hp|Hp]%elem_of_cons; [discriminate Hp|].
  apply elem_of_concat_imap_inv in Hp as (i & mof & Hi & Hp).
  exists i, mof.
  pose proof (safe_basename_chars
                (VStr (_provider mof +:+ "_" +:+ _pick_identifier mof i +:+ "_"
                       +:+ str_of_nat i)) 80) as Hsafe.
  destruct (safe_basename_length
              (VStr (_provider mof +:+ "_" +:+ _pick_identifier mof i +:+ "_"
                     +:+ str_of_nat i)) 80) as [Hlen1 Hlen2].
  fold (stem_of mof i) in Hsafe, Hlen1, Hlen2.
  change (Nat.max 80 3) with 80%nat in Hlen2.
  rewrite mofdb_save_one_trace in Hp.
  apply elem_of_app in Hp as [Hp|Hp].
  - destruct (str_in "json" fmts) eqn:Hj; [|by apply not_elem_of_nil in Hp].
    apply list_elem_of_singleton in Hp as [= -> _].
    exists ".json". split_and!; try done. left. by split.
  - destruct (str_in "cif" fmts) eqn:Hc; [|by apply not_elem_of_nil in Hp].
    exists ".cif".
    assert (p = PathDiv dir (stem_of mof i +:+ ".cif")) as ->.
    { destruct (truthy _).
      - destruct (getattr mof "cif");
          repeat (apply elem_of_cons in Hp as [Hp|Hp]; [by injection Hp || discriminate Hp|]);
          by apply not_elem_of_nil in Hp.
      - apply list_elem_of_singleton in Hp. discriminate Hp. }
    split_and!; try done. right. by split.
Qed.

Lemma range_part_zero (label : string) (z : float) (hi : float) :
  PrimFloat.eqb z 0%float = true ->
  range_part label (Some z) (Some hi) = range_part label None (Some hi).
Proof.
  intros Hz. unfold range_part, float_or_empty. cbn [truthy].
  by rewrite Hz.
Qed.

(** X15. A lower bound equal to zero leaves no mark in the tag of a MOFdb
    request: with the upper bounds given, the tag for lower bounds of [0.0]
    is the tag for no lower bounds ([f"{lo or ''}"] prints nothing for a
    zero). *)
Theorem mofdb_tag_drops_a_zero_lower_bound
    (mofid mofkey name database : option string)
    (z1 z2 z3 z4 z5 h1 h2 h3 h4 h5 : float) (max_len : nat) :
  PrimFloat.eqb z1 0%float = true -> PrimFloat.eqb z2 0%float = true ->
  PrimFloat.eqb z3 0%float = true -> PrimFloat.eqb z4 0%float = true ->
  PrimFloat.eqb z5 0%float = true ->
  tag_from_filters mofid mofkey name database
    (Some z1) (Some h1) (Some z2) (Some h2) (Some z3) (Some h3)
    (Some z4) (Some h4) (Some z5) (Some h5) max_len
  = tag_from_filters mofid mofkey name database
      None (Some h1) None (Some h2) None (Some h3) None (Some h4) None (Some h5) max_len.
Proof.
  intros H1 H2 H3 H4 H5. unfold tag_from_filters.
  by rewrite !range_part_zero.
Qed.

End SafeNames.

Section MofdbExtras.
Context `{lib : PyLib} (w : world).
Import MofdbCommon.

(** X16. When the client returns at most thirty records, the server's
    [fetch_mofs] and the test script's [fetch_mofs], both with the
    [save_mofs] of [mofdb_test/utils.py], do the same: the same effects in
    the same order and the same result. *)
Theorem mofdb_server_agrees_with_the_script_up_to_the_cap (a : args)
    (results : list (gmap string value)) :
  mofdb_answer w (fetch_call a) = inl results ->
  (length results <= 30)%nat ->
  MofdbServer.fetch_mofs w a = MofdbTest.fetch_mofs w a.
Proof.
  intros Hans Hlen. rewrite mofdb_server_run, mofdb_test_run, Hans. cbn [app].
  rewrite take_ge by (rewrite length_fmap; exact Hlen).
  by rewrite length_fmap.
Qed.

(** X17. The server's [fetch_mofs] saves the files of every record the
    client returns, those past the thirtieth included, and cuts the list
    afterwards: the result holds the first thirty cleaned records, and both
    the result and the manifest give [n_found] as the smaller of thirty and
    the number of records. *)
Theorem mofdb_server_saves_all_and_reports_thirty (a : args)
    (results : list (gmap string value)) :
  let out := PathDiv BASE_OUTPUT_DIR (folder_name a (now_stamp w)) in
  let run := MofdbServer.fetch_mofs w a in
  mofdb_answer w (fetch_call a) = inl results ->
  (exists r,
     result run = Returned r
     /\ cleaned_structures r = take 30 (pop_all MofdbUtils.MOFDB_DROP_ATTRS <$> results)
     /\ n_found r = Z.of_nat (Nat.min 30 (length results)))
  /\ written (trace run) (PathDiv out "summary.json")
     = Some (JsonOf (manifest a (Nat.min 30 (length results)) out))
  /\ (forall i mof ev,
        results !! i = Some mof ->
        ev ∈ trace (MofdbUtils.save_one out (output_formats a) i mof) ->
        ev ∈ trace run).
Proof.
  intros out run Hans. unfold run. rewrite mofdb_server_run, Hans.
  rewrite result_pair, trace_pair. fold out. cbn [app].
  assert (Hlen : length (take MofdbServer.MAX_RETURNED_STRUCTS
                           (pop_all MofdbUtils.MOFDB_DROP_ATTRS <$> results))
                 = Nat.min 30 (length results)).
  { by rewrite length_take, length_fmap. }
  rewrite Hlen. split_and!.
  - eexists. split; [reflexivity|]. split; reflexivity.
  - written_last.
  - intros i mof ev Hi Hev. do 2 (apply elem_of_cons; right).
    apply elem_of_app. left. rewrite save_mofs_trace. apply elem_of_cons. right.
    by apply (elem_of_concat_imap _ results i mof).
Qed.

(** X18. The test script's [fetch_mofs] has no handler around the query:
    when the client raises, the script raises the same exception, having
    created no folder and written no file, where the server returns a result
    with no record. *)
Theorem mofdb_script_does_not_handle_a_failing_client (a : args) (msg : string) :
  mofdb_answer w (fetch_call a) = inr msg ->
  MofdbTest.fetch_mofs w a
  = ([EvMofdbFetch (fetch_call a)], Raised (mk_exn ExceptionClass msg))
  /\ exists r, result (MofdbServer.fetch_mofs w a) = Returned r /\ n_found r = 0.
Proof.
  intros Hans. split.
  - by rewrite mofdb_test_run, Hans.
  - rewrite mofdb_server_run, Hans, result_pair. eexists. split; reflexivity.
Qed.

Lemma save_mofs_sends_nothing (items : list (gmap string value)) dir fmts :
  Forall (fun ev => sends_request ev = false) (trace (MofdbUtils.save_mofs items dir fmts)).
Proof.
  rewrite save_mofs_trace. constructor; [reflexivity|].
  apply Forall_forall. intros ev (i & mof & _ & Hev)%elem_of_concat_imap_inv.
  rewrite mofdb_save_one_trace in Hev.
  apply elem_of_app in Hev as [Hev|Hev].
  - destruct (str_in "json" fmts); [|by apply not_elem_of_nil in Hev].
    by apply list_elem_of_singleton in Hev as ->.
  - destruct (str_in "cif" fmts); [|by apply not_elem_of_nil in Hev].
    destruct (truthy _).
    + destruct (MofdbUtils.getattr mof "cif");
        repeat (apply elem_of_cons in Hev as [->|Hev]; [reflexivity|]);
        by apply not_elem_of_nil in Hev.
    + by apply list_elem_of_singleton in Hev as ->.
Qed.

(** X19. The MOFdb tools reach no service but the MOFdb client: neither
    [fetch_mofs] sends an HTTP request or an OPTIMADE query, whatever the
    client answers and whatever the records hold; the CIF and JSON files are
    written from what the client returned. *)
Theorem mofdb_tools_talk_to_the_client_only (a : args) :
  Forall (fun ev => sends_request ev = false) (trace (MofdbServer.fetch_mofs w a))
  /\ Forall (fun ev => sends_request ev = false) (trace (MofdbTest.fetch_mofs w a)).
Proof.
  split.
  - rewrite mofdb_server_run, trace_pair. constructor; [reflexivity|].
    apply Forall_app. split; [by destruct (mofdb_answer w _); repeat constructor|].
    constructor; [reflexivity|]. apply Forall_app. split.
    + apply save_mofs_sends_nothing.
    + by repeat constructor.
  - rewrite mofdb_test_run. destruct (mofdb_answer w _) as [results|msg].
    + rewrite trace_pair. do 2 (constructor; [reflexivity|]). apply Forall_app. split.
      * apply save_mofs_sends_nothing.
      * by repeat constructor.
    + by repeat constructor.
Qed.

End MofdbExtras.

(** * Further properties: the OPTIMADE adapter *)

Section OptimadeExtras.
Context `{lib : PyLib} `{utils : Optimade.Utils} (w : world).
Implicit Types (filters : list (string * string)).



(** X21. The providers a tool uses are those of the caller's list when it
    is not empty (whether or not they are among the defaults) and the
    defaults of the tool when it is [None] or empty. The URLs of the raw
    query are the URLs the table gives for the providers used: a provider
    that is not in the table contributes none. *)
Theorem queried_urls_are_those_of_the_used_providers
    (providers : option (list string)) (dflt : gset string) :
  let used := Optimade.used_set providers dflt in
  (forall p, p ∈ used <->
             match providers with
             | Some (x :: l) => p ∈ x :: l
             | _ => p ∈ dflt
             end)
  /\ (forall u, u ∈ flat_map Optimade.urls_of (elements used)
                <-> exists p us, p ∈ used
                                 /\ Optimade.URLS_FROM_PROVIDERS !! p = Some us /\ u ∈ us)
  /\ (forall p, Optimade.URLS_FROM_PROVIDERS !! p = None -> Optimade.urls_of p = []).
Proof.
  intros used. split; [|split].
  - intros p. unfold used, Optimade.used_set.
    destruct providers as [[|x l]|]; cbn [nonempty_list]; [done| |done].
    apply elem_of_list_to_set.
  - intros u. rewrite list_elem_of_In, in_flat_map. split.
    + intros (p & Hp & Hu). unfold Optimade.urls_of in Hu.
      destruct (Optimade.URLS_FROM_PROVIDERS !! p) as [us|] eqn:Hus; [|destruct Hu].
      exists p, us. split; [|split; [done|]].
      * by apply elem_of_elements, list_elem_of_In.
      * by apply list_elem_of_In.
    + intros (p & us & Hp & Hus & Hu). exists p. split.
      * by apply list_elem_of_In, elem_of_elements.
      * unfold Optimade.urls_of. rewrite Hus. by apply list_elem_of_In.
  - intros p Hp. unfold Optimade.urls_of. by rewrite Hp.
Qed.

(** X22. The normalisation loop of the fan-out keeps the length and the
    order of the gathered results, the exceptions among them being instances
    of [Exception] as [asyncio.gather] hands them over: a result is kept as
    it is, an exception is replaced by the empty stub [{"structures": {}}]
    and logged as one error, in the order of the results. *)
Theorem normalise_keeps_values_and_replaces_exceptions (tool : string)
    (results_list : list (value + exn)) (norm_results : list value) :
  forallb is_value_or_Exception results_list = true ->
  result (Optimade.normalise tool results_list norm_results)
  = Returned (norm_results
              ++ ((fun r => match r with inl v => v | inr _ => Optimade.empty_stub end)
                    <$> results_list))
  /\ logged ERROR (trace (Optimade.normalise tool results_list norm_results))
     = omap (fun r => match r with
                      | inl _ => None
                      | inr e => Some ("[" +:+ tool +:+ "] task returned exception: "
                                       +:+ exn_text e)
                      end) results_list.
Proof.
  intros _. revert norm_results.
  induction results_list as [|[v|e] rl IH]; intros acc.
  - split; [|reflexivity]. cbn. by rewrite app_nil_r.
  - cbn [Optimade.normalise fmap list_fmap omap list_omap].
    destruct (IH (acc ++ [v])) as [Hr Hl]. rewrite Hr, Hl.
    split; [|reflexivity]. by rewrite <- app_assoc.
  - cbn [Optimade.normalise fmap list_fmap omap list_omap]. io_simpl.
    destruct (IH (acc ++ [Optimade.empty_stub])) as [Hr Hl]. rewrite Hr.
    split; [by rewrite <- app_assoc|].
    change (EvLog ERROR ?m :: ?t) with ([EvLog ERROR m] ++ t).
    rewrite logged_app, Hl. reflexivity.
Qed.

Lemma query_one_logged tool n p c lv :
  logged lv (trace (Optimade._query_one w tool n p c)) = provider_log w tool n lv (p, c).
Proof.
  unfold Optimade._query_one, provider_log. io_simpl. cbn [fst snd].
  destruct (Optimade.urls_of p) as [|u urls]; io_simpl.
  - by destruct lv.
  - destruct (optimade_get w (u :: urls) n c) as [r|[[] txt]]; by destruct lv.
Qed.

Lemma gather_query_logged tool n filters lv :
  logged lv
    (trace (Optimade.gather ((fun pc => Optimade._query_one w tool n pc.1 pc.2) <$> filters)))
  = concat (provider_log w tool n lv <$> filters).
Proof.
  induction filters as [|[p c] filters IH]; [reflexivity|].
  cbn [fmap list_fmap Optimade.gather fst snd concat]. io_simpl.
  rewrite query_one_result. io_simpl.
  change (list_fmap _ _ ?f ?l) with (f <$> l). rewrite gather_query_result. io_simpl.
  rewrite !app_nil_r, logged_app, query_one_logged, IH. reflexivity.
Qed.

(** X23. The log of a fan-out holds, for each item of the filter map: one
    info line with the provider and its clause; one warning when the
    provider has no URL; one error with the message of the exception when
    the client raises ([SystemExit] included). Nothing else is logged: no
    task hands an exception to the normalisation loop. The lines are counted
    level by level, in whatever order the concurrent tasks write them. *)
Theorem fan_out_logs_one_line_per_provider_event tool n filters lv :
  logged lv (trace (Optimade.query_all w tool n filters))
  ≡ₚ concat (provider_log w tool n lv <$> filters).
Proof.
  unfold Optimade.query_all. io_simpl. rewrite gather_query_result.
  rewrite normalise_results. io_simpl. rewrite !app_nil_r.
  by rewrite gather_query_logged.
Qed.

Lemma save_all_returns out n cif (f : value -> Optimade.saved) (rs : list value) :
  (forall res, res ∈ rs ->
     result (Optimade.save_structures res out n cif) = Returned (f res)) ->
  forall acc,
    result (Optimade.save_all out n cif rs acc)
    = Returned (acc.1.1.1 ++ concat ((fun r => (f r).1.1.1) <$> rs),
                acc.1.1.2 ++ concat ((fun r => (f r).1.1.2) <$> rs),
                acc.1.2 ++ concat ((fun r => (f r).1.2) <$> rs),
                acc.2 ++ concat ((fun r => (f r).2) <$> rs))
    /\ trace (Optimade.save_all out n cif rs acc)
       = concat ((fun r => trace (Optimade.save_structures r out n cif)) <$> rs).
Proof.
  induction rs as [|r rs IH]; intros Hf [[[a1 a2] a3] a4].
  - cbn. by rewrite !app_nil_r.
  - cbn [Optimade.save_all fmap list_fmap concat]. io_simpl.
    rewrite (Hf r) by (by left). destruct (f r) as [[[f1 f2] f3] f4] eqn:Hfr.
    destruct (IH (fun res Hin => Hf res (list_elem_of_further _ _ _ Hin))
                (a1 ++ f1, a2 ++ f2, a3 ++ f3, a4 ++ f4)) as [Hr Ht].
    change (list_fmap _ _ ?f ?l) with (f <$> l).
    rewrite Hr, Ht. cbn [fst snd]. by rewrite <- !app_assoc.
Qed.

(** X24. When [save_structures] returns for every normalised result, the
    saving loop of the space-group and band-gap tools returns the files, the
    warnings, the providers seen and the cleaned structures of the results,
    each concatenated in the order of the filter map, and its effects are
    those of the calls in that order. *)
Theorem save_all_concatenates_in_filter_order out n cif
    (f : value -> Optimade.saved) (rs : list value) :
  (forall res, res ∈ rs ->
     result (Optimade.save_structures res out n cif) = Returned (f res)) ->
  result (Optimade.save_all out n cif rs ([], [], [], []))
  = Returned (concat ((fun r => (f r).1.1.1) <$> rs),
              concat ((fun r => (f r).1.1.2) <$> rs),
              concat ((fun r => (f r).1.2) <$> rs),
              concat ((fun r => (f r).2) <$> rs))
  /\ trace (Optimade.save_all out n cif rs ([], [], [], []))
     = concat ((fun r => trace (Optimade.save_structures r out n cif)) <$> rs).
Proof.
  intros Hf. exact (save_all_returns out n cif f rs Hf ([], [], [], [])).
Qed.

Lemma save_all_raises out n cif (pre : list value) (bad : value) (rest : list value)
    (e : exn) :
  (forall res, res ∈ pre ->
     exists s, result (Optimade.save_structures res out n cif) = Returned s) ->
  result (Optimade.save_structures bad out n cif) = Raised e ->
  forall acc,
    result (Optimade.save_all out n cif (pre ++ bad :: rest) acc) = Raised e
    /\ trace (Optimade.save_all out n cif (pre ++ bad :: rest) acc)
       = concat ((fun r => trace (Optimade.save_structures r out n cif)) <$> pre)
         ++ trace (Optimade.save_structures bad out n cif).
Proof.
  intros Hpre Hbad. induction pre as [|r pre IH]; intros acc.
  - cbn [app Optimade.save_all fmap list_fmap concat]. io_simpl. by rewrite Hbad, app_nil_r.
  - cbn [app Optimade.save_all fmap list_fmap concat]. io_simpl.
    destruct (Hpre r) as [[[[f1 f2] f3] f4] Hr]; [by left|]. rewrite Hr.
    destruct acc as [[[a1 a2] a3] a4].
    destruct (IH (fun res Hin => Hpre res (list_elem_of_further _ _ _ Hin))
                (a1 ++ f1, a2 ++ f2, a3 ++ f3, a4 ++ f4)) as [Hr' Ht'].
    change (list_fmap _ _ ?f ?l) with (f <$> l).
    rewrite Hr', Ht'. by rewrite <- !app_assoc.
Qed.

(** X25. The OPTIMADE tools handle a failing query and do not handle a
    failing [save_structures]: when it raises, the raw-filter tool and the
    space-group tool raise the same exception, after the queries and the
    savings that came before, and the tool itself writes no [summary.json]
    and returns no result. *)
Theorem saving_failure_is_not_handled :
  (forall filter as_format n_results providers results ts e,
     let filt := Optimade.normalize_cfr_in_filter (Optimade.or_empty_strip filter) in
     let used := Optimade.used_set providers Optimade.DEFAULT_PROVIDERS in
     let urls := flat_map Optimade.urls_of (elements used) in
     let out := PathDiv Optimade.BASE_OUTPUT_DIR
                  (Optimade.folder_name filt filt (now_stamp w)) in
     Optimade.or_empty_strip filter <> "" ->
     optimade_get w urls n_results filt = Returned results ->
     Optimade.save_structures results out n_results (String.eqb as_format "cif")
     = (ts, Raised e) ->
     Optimade.fetch_structures_with_filter w filter as_format n_results providers
     = (EvLog INFO ("[raw] providers=" +:+ set_str used +:+ " urls="
                    +:+ str_of_nat (length urls) +:+ " filter=" +:+ filt)
          :: EvOptimadeGet urls n_results filt :: ts,
        Raised e))
  /\
  (forall base_filter spg_number as_format n_results providers pre bad rest e,
     let base := Optimade.normalize_cfr_in_filter (Optimade.or_empty_strip base_filter) in
     let filters := Optimade.spg_filters base_filter spg_number providers in
     let out := PathDiv Optimade.BASE_OUTPUT_DIR
                  (Optimade.folder_name (base +:+ " AND spg=" +:+ str_of_Z spg_number)
                     (base +:+ "|spg=" +:+ str_of_Z spg_number) (now_stamp w)) in
     let save res :=
       Optimade.save_structures res out n_results (String.eqb as_format "cif") in
     provider_result w n_results <$> filters = pre ++ bad :: rest ->
     (forall res, res ∈ pre -> exists s, result (save res) = Returned s) ->
     result (save bad) = Raised e ->
     Optimade.fetch_structures_with_spg w base_filter spg_number as_format n_results
       providers
     = (trace (Optimade.query_all w "spg" n_results filters)
          ++ concat ((fun r => trace (save r)) <$> pre) ++ trace (save bad),
        Raised e)).
Proof.
  split.
  - intros filter as_format n_results providers results ts e filt used urls out
      Hne Hget Hsave.
    rewrite (io_eta (Optimade.fetch_structures_with_filter w _ _ _ _)).
    unfold Optimade.fetch_structures_with_filter.
    apply String.eqb_neq in Hne. rewrite Hne. fold filt used urls.
    f_equal; io_simpl; rewrite Hget; io_simpl; fold out; rewrite Hsave;
      rewrite ?trace_pair, ?result_pair; io_simpl; rewrite ?app_nil_r; reflexivity.
  - intros base_filter spg_number as_format n_results providers pre bad rest e
      base filters out save Hsplit Hpre Hbad.
    assert (Hne : filters <> []).
    { intros Hnil. rewrite Hnil in Hsplit. by destruct pre. }
    rewrite (spg_run w base_filter spg_number as_format n_results providers Hne).
    fold base filters out. rewrite Hsplit.
    destruct (save_all_raises out n_results (String.eqb as_format "cif") pre bad rest e
                Hpre Hbad ([], [], [], [])) as [Hr Ht].
    rewrite Hr, Ht. by rewrite app_nil_r.
Qed.


(** X27. The manifests of the three OPTIMADE tools list the providers
    used under [providers_requested] in increasing order and each once,
    whatever the order and the repetitions of the caller's list. *)
Theorem manifest_lists_the_used_providers_once_in_order
    (providers : option (list string)) (dflt : gset string) :
  let used := Optimade.used_set providers dflt in
  let l := sorted (elements used) in
  Sorted.Sorted str_le l
  /\ NoDup l
  /\ (forall p, p ∈ l <-> p ∈ used)
  /\ (forall filt seen files warns as_format n cleaned,
        exists m,
          Optimade.raw_manifest filt used seen files warns as_format n cleaned = VDict m
          /\ m !! "providers_requested" = Some (of_str_list l))
  /\ (forall base spg_number filters as_format n s,
        exists m,
          Optimade.spg_manifest base spg_number used filters as_format n s = VDict m
          /\ m !! "providers_requested" = Some (of_str_list l))
  /\ (forall base min_bg max_bg filters as_format n s,
        exists m,
          Optimade.bg_manifest base min_bg max_bg used filters as_format n s = VDict m
          /\ m !! "providers_requested" = Some (of_str_list l)).
Proof.
  intros used l. split_and!.
  - apply sorted_Sorted.
  - unfold l. rewrite sorted_perm. apply NoDup_elements.
  - intros p. unfold l. rewrite sorted_perm. apply elem_of_elements.
  - intros filt seen files warns as_format n cleaned. eexists.
    split; [reflexivity|]. by simplify_map_eq.
  - intros base spg_number filters as_format n [[[fs ws] ps] cs]. eexists.
    split; [reflexivity|]. by simplify_map_eq.
  - intros base min_bg max_bg filters as_format n [[[fs ws] ps] cs]. eexists.
    split; [reflexivity|]. by simplify_map_eq.
Qed.

End OptimadeExtras.

(** * The further properties at concrete inputs *)

Section AtEdges.
Import Sample.

(** X2 at the request of the test script: four filters, no space group. *)
Lemma filters_at_the_sample_request :
  Bohrium.build_filters crystal_request !! "elements" = Some (VList [VStr "Na"])
  /\ Bohrium.build_filters crystal_request !! "space_symbol" = None
  /\ Bohrium.build_filters crystal_request !! "formula" = None
  /\ size (Bohrium.build_filters crystal_request) = 4%nat.
Proof.
  destruct (bohrium_filters_hold_the_nonempty_arguments crystal_request)
    as (Hel & Hsg & _ & _ & _ & Hother).
  split; [|split; [|split]].
  - rewrite Hel. reflexivity.
  - rewrite Hsg. reflexivity.
  - apply Hother. rewrite !not_elem_of_cons.
    repeat split; try discriminate. apply not_elem_of_nil.
  - vm_compute. reflexivity.
Defined.

(** X3 at three answers that do not follow the schema. *)
Lemma malformed_answers_at_samples :
  result (Bohrium.fetch_bohrium_crystals Edge.answers_a_list crystal_request)
  = Raised AttributeError
  /\ result (Bohrium.fetch_bohrium_crystals Edge.answers_null_data crystal_request)
     = Raised AttributeError
  /\ Bohrium.fetch_bohrium_crystals Edge.answers_a_count crystal_request
     = ([EvHttpPost "https://db-core.dp.tech/api/v1/crystal/list" Bohrium.headers
           (Bohrium.payload crystal_request)],
        Raised TypeError_len).
Proof.
  split; [|split].
  - destruct (bohrium_malformed_response_is_not_handled Edge.answers_a_list
                crystal_request) as (H & _ & _).
    rewrite (H (VList [VInt 1]) eq_refl eq_refl). reflexivity.
  - destruct (bohrium_malformed_response_is_not_handled Edge.answers_null_data
                crystal_request) as (_ & H & _).
    rewrite (H (<["code" := VInt 500]> (<["data" := VNone]> ∅)) VNone
               eq_refl eq_refl eq_refl).
    reflexivity.
  - destruct (bohrium_malformed_response_is_not_handled Edge.answers_a_count
                crystal_request) as (_ & _ & H).
    rewrite (H (<["data" := VDict (<["data" := VInt 3]> ∅)]> ∅)
               (<["data" := VInt 3]> ∅) (VInt 3) eq_refl eq_refl eq_refl eq_refl).
    reflexivity.
Defined.

(** X4 at a list whose second record is a string: the first record is
    saved, the third is not, and the manifest is not written. *)
Lemma stray_record_at_samples :
  let run := Bohrium.fetch_bohrium_crystals Edge.answers_a_stray_record
               crystal_request_json in
  let out := PathDiv (PathOf "materials_data_bohrium")
               "SiO3_elNa_nat1-100_E-50-50_Eg0-10_20250101_120000_da39a3ee" in
  result run = Raised AttributeError
  /\ trace run
     = [EvHttpPost "https://db-core.dp.tech/api/v1/crystal/list" Bohrium.headers
          (Bohrium.payload crystal_request_json);
        EvMkdir out;
        EvWrite (PathDiv out "bohriumcrystal_8_0.json") (JsonOf (VDict crystal_2))]
  /\ written (trace run) (PathDiv out "summary.json") = None.
Proof.
  cbv zeta.
  destruct (bohrium_record_that_is_no_dict_aborts_the_run Edge.answers_a_stray_record
              crystal_request_json
              (<["code" := VInt 0]>
                 (<["data" := VDict (<["data" := VList [VDict crystal_2; VStr "oops";
                                                       VDict crystal_1]]> ∅)]> ∅))
              (<["data" := VList [VDict crystal_2; VStr "oops"; VDict crystal_1]]> ∅)
              [crystal_2] (VStr "oops") [VDict crystal_1]
              eq_refl eq_refl eq_refl eq_refl) as [Hrun Hw].
  split; [|split].
  - rewrite Hrun. reflexivity.
  - rewrite Hrun. vm_compute. reflexivity.
  - exact Hw.
Defined.

(** X5 at the sample request: two records counted, two returned. *)
Lemma bohrium_count_at_samples :
  exists r,
    result (Bohrium.fetch_bohrium_crystals up crystal_request) = Returned r
    /\ Bohrium.n_found r = 2
    /\ length (Bohrium.cleaned_structures r) = 2%nat.
Proof.
  destruct (result (Bohrium.fetch_bohrium_crystals up crystal_request)) as [r|e] eqn:Hr;
    [|vm_compute in Hr; discriminate Hr].
  exists r. split; [reflexivity|].
  pose proof (bohrium_count_is_the_length_of_the_list up crystal_request r Hr) as Hn.
  vm_compute in Hr. injection Hr as <-. split; [exact Hn | reflexivity].
Defined.

(** X6 at the first sample record, when the download fails. *)
Lemma failed_download_at_samples :
  let own := Bohrium.save_one down (PathOf "out") ["json"; "cif"] 0 (VDict crystal_1) in
  result own = Returned (pop_all Bohrium.CRYSTAL_DROP_ATTRS crystal_1)
  /\ logged ERROR (trace own) = ["Failed to download CIF for 7: HTTPError"]
  /\ EvHttpGet "https://example.org/7.cif" ∈ trace own.
Proof.
  cbv zeta.
  destruct (bohrium_failed_download_is_logged_and_skipped down (PathOf "out")
              ["json"; "cif"] 0 crystal_1 (VStr "https://example.org/7.cif") "HTTPError"
              eq_refl eq_refl eq_refl eq_refl) as (Hr & Hl & Hg & _).
  split; [exact Hr|]. split; [|exact Hg].
  rewrite Hl. vm_compute. reflexivity.
Defined.

(** X7 at the two sample records: one download, for the record that has
    a URL. *)
Lemma downloads_at_samples :
  EvHttpGet "https://example.org/7.cif"
  ∈ trace (Bohrium.save_structures_bohriumcrystal up (VDict <$> [crystal_1; crystal_2])
             (PathOf "out") ["cif"])
  /\ exists i d,
       [crystal_1; crystal_2] !! i = Some d
       /\ d !! "cif_file" = Some (VStr "https://example.org/7.cif").
Proof.
  assert (Hin : EvHttpGet "https://example.org/7.cif"
                ∈ trace (Bohrium.save_structures_bohriumcrystal up
                           (VDict <$> [crystal_1; crystal_2]) (PathOf "out") ["cif"])).
  { vm_compute. left. }
  split; [exact Hin|].
  destruct (bohrium_downloads_only_the_cif_urls_of_the_records up
              [crystal_1; crystal_2] (PathOf "out") ["cif"] _ Hin)
    as (_ & i & d & url & Hi & Hurl & _ & Hu).
  exists i, d. split; [exact Hi|]. rewrite Hurl. f_equal.
  destruct i as [|[|i]]; [| |discriminate Hi].
  - injection Hi as <-. vm_compute in Hurl. by injection Hurl as <-.
  - injection Hi as <-. vm_compute in Hurl. discriminate Hurl.
Defined.

(** X8 at two records with the same [id]. *)
Lemma same_id_at_two_indices :
  let again := <["id" := VInt 7]> crystal_2 in
  EvWrite (PathDiv (PathOf "out") "bohriumcrystal_7_0.json") (JsonOf (VDict crystal_1))
  ∈ trace (Bohrium.save_one up (PathOf "out") ["json"] 0 (VDict crystal_1))
  /\ EvWrite (PathDiv (PathOf "out") "bohriumcrystal_7_1.json") (JsonOf (VDict again))
     ∈ trace (Bohrium.save_one up (PathOf "out") ["json"] 1 (VDict again))
  /\ PathDiv (PathOf "out") "bohriumcrystal_7_0.json"
     <> PathDiv (PathOf "out") "bohriumcrystal_7_1.json".
Proof.
  cbv zeta.
  assert (H0 : EvWrite (PathDiv (PathOf "out") "bohriumcrystal_7_0.json")
                 (JsonOf (VDict crystal_1))
               ∈ trace (Bohrium.save_one up (PathOf "out") ["json"] 0 (VDict crystal_1))).
  { vm_compute. left. }
  assert (H1 : EvWrite (PathDiv (PathOf "out") "bohriumcrystal_7_1.json")
                 (JsonOf (VDict (<["id" := VInt 7]> crystal_2)))
               ∈ trace (Bohrium.save_one up (PathOf "out") ["json"] 1
                          (VDict (<["id" := VInt 7]> crystal_2)))).
  { vm_compute. left. }
  split; [exact H0|]. split; [exact H1|].
  apply (bohrium_records_do_not_share_files up (PathOf "out") ["json"] 0 1
           crystal_1 (<["id" := VInt 7]> crystal_2) _ _ _ _ (Nat.neq_0_succ 0) H0 H1).
Defined.

(** X9 at two orders of the same elements. *)
Lemma tag_of_swapped_elements :
  Bohrium.tag_from_filters None (Some ["Na"; "Cl"]) None None None None 60 = "elClNa"
  /\ Bohrium.tag_from_filters None (Some ["Cl"; "Na"]) None None None None 60 = "elClNa".
Proof.
  split; [|reflexivity].
  rewrite (bohrium_tag_ignores_the_order_of_elements None ["Na"; "Cl"] ["Cl"; "Na"]
             None None None None 60 (Permutation_swap "Cl" "Na" [])).
  reflexivity.
Defined.

(** X10 at the keys dropped from a Bohrium record, in two orders. *)
Lemma drop_set_in_two_orders :
  pop_all ["cif_file"; "come_from"; "material_id"] crystal_1
  = pop_all ["material_id"; "cif_file"; "come_from"; "cif_file"] crystal_1
  /\ pop_all ["cif_file"; "come_from"; "material_id"] crystal_1 !! "come_from" = None.
Proof.
  destruct (pop_all_is_set_difference ["cif_file"; "come_from"; "material_id"]
              ["material_id"; "cif_file"; "come_from"; "cif_file"] crystal_1)
    as (Heq & _ & _ & Hnone).
  { intros k. rewrite !elem_of_cons. rewrite !elem_of_nil. tauto. }
  split; [exact Heq|]. apply Hnone. apply elem_of_cons. right. by left.
Defined.

(** X11 at a format in another spelling. *)
Lemma unknown_formats_at_samples :
  Bohrium.save_structures_bohriumcrystal up (VDict <$> [crystal_1; crystal_2])
    (PathOf "out") ["CIF"]
  = ([], Returned (pop_all Bohrium.CRYSTAL_DROP_ATTRS <$> [crystal_1; crystal_2]))
  /\ MofdbUtils.save_mofs [mof_1; mof_2] (PathOf "out") ["CIF"]
     = ([EvMkdir (PathOf "out")],
        Returned (pop_all MofdbUtils.MOFDB_DROP_ATTRS <$> [mof_1; mof_2])).
Proof.
  split.
  - exact (proj1 (no_requested_format_saves_nothing up [crystal_1; crystal_2]
                    (PathOf "out") ["CIF"] eq_refl eq_refl)).
  - exact (proj2 (no_requested_format_saves_nothing up [mof_1; mof_2]
                    (PathOf "out") ["CIF"] eq_refl eq_refl)).
Defined.

(** X14 at the CIF file of the second sample record, whose name holds a
    blank. *)
Lemma mofdb_file_names_at_samples :
  EvWrite (PathDiv (PathOf "out") "hMOF_hMOF_5_1.json") (JsonOf (VDict mof_2))
  ∈ trace (MofdbUtils.save_mofs [mof_1; mof_2] (PathOf "out") ["json"])
  /\ exists i mof,
       [mof_1; mof_2] !! i = Some mof
       /\ MofdbUtils.stem_of mof i +:+ ".json" = "hMOF_hMOF_5_1.json"
       /\ str_all MofdbUtils.is_safe_char (MofdbUtils.stem_of mof i) = true.
Proof.
  assert (Hin : EvWrite (PathDiv (PathOf "out") "hMOF_hMOF_5_1.json")
                  (JsonOf (VDict mof_2))
                ∈ trace (MofdbUtils.save_mofs [mof_1; mof_2] (PathOf "out") ["json"])).
  { vm_compute. do 2 right. left. }
  split; [exact Hin|].
  destruct (mofdb_files_have_safe_names [mof_1; mof_2] (PathOf "out") ["json"] _ _ Hin)
    as (i & mof & ext & Hi & Hp & Hext & Hsafe & _).
  exists i, mof. split; [exact Hi|]. split; [|exact Hsafe].
  destruct Hext as [[-> _] | [_ Hc]]; [|discriminate Hc].
  by injection Hp as <-.
Defined.

(** X15 at lower bounds of zero. *)
Lemma zero_bounds_at_samples :
  MofdbUtils.tag_from_filters None None (Some "tobmof-27") None
    (Some 0%float) (Some 1%float) (Some 0%float) (Some 1%float)
    (Some 0%float) (Some 1%float) (Some 0%float) (Some 1%float)
    (Some 0%float) (Some 1%float) 40
  = MofdbUtils.tag_from_filters None None (Some "tobmof-27") None
      None (Some 1%float) None (Some 1%float) None (Some 1%float)
      None (Some 1%float) None (Some 1%float) 40.
Proof.
  exact (mofdb_tag_drops_a_zero_lower_bound None None (Some "tobmof-27") None
           0%float 0%float 0%float 0%float 0%float
           1%float 1%float 1%float 1%float 1%float 40
           eq_refl eq_refl eq_refl eq_refl eq_refl).
Defined.

(** X16 at the sample request: two records, below the cap. *)
Lemma server_and_script_at_samples :
  MofdbServer.fetch_mofs up mof_request = MofdbTest.fetch_mofs up mof_request
  /\ exists r, result (MofdbTest.fetch_mofs up mof_request) = Returned r
               /\ MofdbCommon.n_found r = 2.
Proof.
  split.
  - apply (mofdb_server_agrees_with_the_script_up_to_the_cap up mof_request
             [mof_1; mof_2] eq_refl). cbn. lia.
  - eexists. split; vm_compute; reflexivity.
Defined.

(** X17 at thirty-one records: the file of the last one is written, thirty
    are reported. *)
Lemma thirty_one_mofs :
  let run := MofdbServer.fetch_mofs Edge.many_mofs mof_request in
  let out := PathDiv (PathOf "materials_data_mofdb")
               "tobmof-27_lcd1.5-_20250101_120000_da39a3ee" in
  (exists r, result run = Returned r
             /\ length (MofdbCommon.cleaned_structures r) = 30%nat
             /\ MofdbCommon.n_found r = 30)
  /\ EvWrite (PathDiv out "hMOF_hMOF_5_30.json") (JsonOf (VDict mof_2)) ∈ trace run.
Proof.
  cbv zeta.
  destruct (mofdb_server_saves_all_and_reports_thirty Edge.many_mofs mof_request
              (replicate 31 mof_2) eq_refl) as ((r & Hr & Hc & Hn) & _ & Hfiles).
  split.
  - exists r. split; [exact Hr|]. split; [rewrite Hc; reflexivity | rewrite Hn; reflexivity].
  - apply (Hfiles 30%nat mof_2); [reflexivity|]. vm_compute. left.
Defined.

(** X18 at a failing client. *)
Lemma script_fails_at_samples :
  result (MofdbTest.fetch_mofs down mof_request)
  = Raised (mk_exn ExceptionClass "ConnectionError")
  /\ exists r, result (MofdbServer.fetch_mofs down mof_request) = Returned r
               /\ MofdbCommon.n_found r = 0.
Proof.
  destruct (mofdb_script_does_not_handle_a_failing_client down mof_request
              "ConnectionError" eq_refl) as [Hscript Hserver].
  split; [by rewrite Hscript | exact Hserver].
Defined.


(** X21 at a list with a provider that is outside the defaults and the
    table. *)
Lemma used_providers_at_samples :
  let used := Optimade.used_set (Some ["mp"; "nowhere"]) Optimade.DEFAULT_SPG_PROVIDERS in
  "nowhere" ∈ used
  /\ Optimade.urls_of "nowhere" = []
  /\ "https://optimade.materialsproject.org"
     ∈ flat_map Optimade.urls_of (elements used).
Proof.
  cbv zeta.
  destruct (queried_urls_are_those_of_the_used_providers (Some ["mp"; "nowhere"])
              Optimade.DEFAULT_SPG_PROVIDERS) as (Hused & Hurls & Hnone).
  assert (Hmp : "mp" ∈ Optimade.used_set (Some ["mp"; "nowhere"])
                        Optimade.DEFAULT_SPG_PROVIDERS).
  { apply Hused. by left. }
  split; [|split].
  - apply Hused. right. by left.
  - apply Hnone. reflexivity.
  - apply Hurls. exists "mp", ["https://optimade.materialsproject.org"].
    split; [exact Hmp|]. split; [reflexivity | by left].
Defined.

(** X22 at a result followed by an exception. *)
Lemma normalise_at_samples :
  result (Optimade.normalise "spg"
            [inl (VInt 1); inr (mk_exn ExceptionClass "TimeoutError")] [])
  = Returned [VInt 1; Optimade.empty_stub]
  /\ logged ERROR
       (trace (Optimade.normalise "spg"
                 [inl (VInt 1); inr (mk_exn ExceptionClass "TimeoutError")] []))
     = ["[spg] task returned exception: TimeoutError"].
Proof.
  exact (normalise_keeps_values_and_replaces_exceptions "spg"
           [inl (VInt 1); inr (mk_exn ExceptionClass "TimeoutError")] [] eq_refl).
Defined.

(** X24 at two results of one structure each. *)
Lemma save_all_at_samples :
  let res_1 := VDict (<["structures" := VDict (<["a" := VInt 1]> ∅)]> ∅) in
  let res_2 := VDict (<["structures" := VDict (<["b" := VInt 2]> ∅)]> ∅) in
  result (Optimade.save_all (PathOf "out") 2 true [res_1; res_2] ([], [], [], []))
  = Returned ([], [], [], [VInt 1; VInt 2]).
Proof.
  cbv zeta.
  destruct (save_all_concatenates_in_filter_order (PathOf "out") 2 true
              (fun res => ([], [], [], structures_of res))
              [VDict (<["structures" := VDict (<["a" := VInt 1]> ∅)]> ∅);
               VDict (<["structures" := VDict (<["b" := VInt 2]> ∅)]> ∅)])
    as [Hr _].
  { intros res _. reflexivity. }
  rewrite Hr. vm_compute. reflexivity.
Defined.

(** X25 on a disk that cannot be written. *)
Lemma read_only_disk_at_samples :
  result (Optimade.fetch_structures_with_filter (utils := Edge.read_only_disk) up
            (Some "nelements=3") "cif" 2 (Some ["mp"]))
  = Raised (mk_exn ExceptionClass "PermissionError")
  /\ result (Optimade.fetch_structures_with_spg (utils := Edge.read_only_disk) up
               None 221 "cif" 2 (Some ["alexandria"]))
     = Raised (mk_exn ExceptionClass "PermissionError").
Proof.
  destruct (saving_failure_is_not_handled (utils := Edge.read_only_disk) up)
    as [Hraw Hspg].
  split.
  - rewrite (Hraw (Some "nelements=3") "cif" 2 (Some ["mp"])
               (VDict (<["structures" := VDict (<["s" := VInt 1]> ∅)]> ∅))
               [EvMkdir (PathDiv (PathOf "materials_data")
                           "nelements=3_20250101_120000_da39a3ee")]
               (mk_exn ExceptionClass "PermissionError")).
    + reflexivity.
    + vm_compute. discriminate.
    + reflexivity.
    + vm_compute. reflexivity.
  - rewrite (Hspg None 221 "cif" 2 (Some ["alexandria"]) []
               (VDict (<["structures" := VDict (<["s" := VInt 1]> ∅)]> ∅)) []
               (mk_exn ExceptionClass "PermissionError")).
    + reflexivity.
    + vm_compute. reflexivity.
    + intros res Hres. by apply not_elem_of_nil in Hres.
    + reflexivity.
Defined.


End AtEdges.
